(** * The measurement/sweep engine of qcodes/measurement.py

    A shallow embedding of [Measurement] and [Sweep]: the process state that
    the Python code mutates (the class-level running-measurement pointer, the
    [Measurement] and [Sweep] instances, the objects that masks override) is
    an explicit record, and every method is a function in a state monad whose
    exceptions keep the state reached when they were raised. *)

From stdpp Require Import gmap strings list fin_maps pretty.
From Stdlib Require Import ZArith Lia Ascii.

Set Default Proof Using "Type".
#[local] Set Warnings "-register-all".

(** ** Python values and the objects that masks override *)

(** Plain values: what a parameter holds, what an attribute or a dictionary
    key is bound to. *)
Inductive pyval :=
  | PNone
  | PBool (b : bool)
  | PInt (z : Z)
  | PFloat (bits : Z)
  | PStr (s : string).

#[global] Instance pyval_eq_dec : EqDecision pyval.
Proof. solve_decision. Defined.

(** Object references, thread identities, instance identities. *)
Abbreviation ref := string (only parsing).
Abbreviation tid := nat (only parsing).
Abbreviation sid := nat (only parsing).
Abbreviation swid := nat (only parsing).

(** Modelled from the spec: the device parameter (qcodes.instrument.parameter
    is not part of the sources at hand) is "callable with no args to get,
    with one positional arg to set"; [latest] is what a get returns and
    [vals] says which values a set accepts (a rejected set raises). A
    dictionary is a plain [dict]; a node is a [ParameterNode] with its
    [parameters] dictionary; anything else is an object with attributes. *)
Inductive heap_obj :=
  | HParameter (latest : pyval) (vals : pyval -> bool) (attrs : gmap string pyval)
  | HDict (items : gmap string pyval)
  | HNode (parameters : gmap string ref) (attrs : gmap string pyval)
  | HObject (attrs : gmap string pyval).

(** ** Exceptions *)

Inductive runtime_msg :=
  | MustUseContextManager
  | MeasureOtherThread
  | EnterOtherThread
  | SweepOtherThread
  | DedicatedThread
  | WrongMeasurement (at_indices : list Z) (expected received : string)
  | TooManyArrays (ceiling : nat)
  | MustProvideName
  | CannotMeasure
  | WrongNumberSetArrays (array_name : string) (expected got : nat)
  | SweepOutsideMeasurement.

Inductive syntax_msg :=
  | NeedParameterOrName
  | ArrayNameDiffers (existing : string) (result_name : string)
  | ResultsMustBeDict (group : string)
  | DictNeedsName
  | MustPassKwargs
  | UnmaskTypeNotUnderstood.

Inductive exn :=
  | RuntimeError (m : runtime_msg)
  | SyntaxError (m : syntax_msg)
  | SystemExit
  | StopIteration
  | IndexError
  | KeyError
  | AttributeError
  | NameError
  | TypeError
  | ValueError
  | NotImplementedError
  | AssertionError
  | ExternalError (what : string).

(** ** Data arrays and the dataset *)

Abbreviation array_id := (string * list Z)%type (only parsing).

(** The part of a [DataArray] the engine decides: its element data is held
    by the dataset collaborator and is not tracked. [array_id] is
    [full_name + "_" + "_".join(action_indices)], kept as a pair. *)
Record DataArray := mkDataArray {
  da_name : string;
  da_full_name : string;
  is_setpoint : bool;
  da_action_indices : list Z;
  da_shape : list nat;
  da_set_arrays : list array_id;
  da_label : option string;
  da_unit : option string;
}.

Definition da_array_id (a : DataArray) : array_id :=
  (da_full_name a, da_action_indices a).

(** The dataset collaborator, at its interface: [arrays], [active], and what
    was asked of it. *)
Record DataSet := mkDataSet {
  location : string;
  active : bool;
  ds_arrays : gmap (string * list Z) DataArray;
  ds_metadata : list string;
  ds_saved_metadata : nat;
  ds_stored : list (list Z * list array_id);
  ds_finalized : bool;
  ds_file_closed : bool;
}.

(** ** Mask records *)

(** The record dictionaries of [_masked_properties], by their ["type"]. *)
Inductive mask_target :=
  | TAttr (obj : ref) (attr : string)
  | TParameter (obj : ref)
  | TKey (obj : ref) (key : string).

Record masked_property := mkMasked {
  mp_target : mask_target;
  original_value : pyval;
  mp_value : pyval;
}.

Definition mp_obj (r : masked_property) : ref :=
  match mp_target r with
  | TAttr o _ | TParameter o | TKey o _ => o
  end.

(** [masked_property.get("attr")] and [masked_property.get("key")]. *)
Definition mp_attr (r : masked_property) : option string :=
  match mp_target r with TAttr _ a => Some a | _ => None end.
Definition mp_key (r : masked_property) : option string :=
  match mp_target r with TKey _ k => Some k | _ => None end.

(** ** Measurement and Sweep instances *)

(** An except/final action: an external callable, known by a label and by
    whether calling it raises. *)
Record action := mkAction { act_label : string; act_raises : bool }.

Record Measurement := mkMeasurement {
  name : string;
  dataset : option DataSet;
  loop_shape : list nat;
  loop_indices : list Z;
  action_indices : list Z;
  _data_groups : gmap (list Z) sid;
  actions : gmap (list Z) (option string);
  action_names : gmap (list Z) string;
  is_context_manager : bool;
  is_paused : bool;
  is_stopped : bool;
  notify : bool;
  force_cell_thread : bool;
  final_actions : list action;
  except_actions : list action;
  _masked_properties : list masked_property;
  arrays_of : option nat;
  max_arrays : option nat;
  _t_start : option Z;
}.

(** A sweep sequence: its values, and the parameter it is bound to when it
    is a [SweepValues]. *)
Record Sequence := mkSequence {
  seq_values : list pyval;
  seq_parameter : option (ref * string);
}.

Record Sweep := mkSweep {
  sw_name : option string;
  sw_unit : option string;
  sequence : Sequence;
  dimension : nat;
  loop_index : option Z;
  iterator : option (list pyval);
  reverse : bool;
  restore : bool;
  set_array : array_id;
}.

(** ** The process state *)

Inductive log_entry :=
  | LogStarted (s : sid)
  | LogFinished (s : sid)
  | LogError (s : sid)
  | LogActionFailed (s : sid) (label : string) (a : action)
  | LogCouldNotUnmask (s : sid) (r : masked_property)
  | LogCouldNotNotify (s : sid).

(** What the operator's thread may call on the running measurement. *)
Inductive control := CPause | CResume | CStop.

(** [running_measurement], [measurement_thread], the class-level action lists
    and [max_arrays] are the class attributes of [Measurement]; [sessions]
    and [sweeps] hold the instances; [array_dicts] holds the [data_arrays]
    and [set_arrays] dictionaries, which nested measurements share with the
    primary one by reference; [world] holds the maskable objects; [incoming]
    is the schedule of the operator's thread: the calls that arrive, one per
    [sleep(0.1)], while the measurement thread polls [is_paused]. *)
Record Runtime := mkRuntime {
  running_measurement : option sid;
  measurement_thread : option tid;
  cls_final_actions : list action;
  cls_except_actions : list action;
  cls_max_arrays : nat;
  notify_function : option bool;
  sessions : gmap sid Measurement;
  sweeps : gmap swid Sweep;
  array_dicts : gmap nat (gmap (list Z) DataArray * gmap (list Z) DataArray);
  world : gmap string heap_obj;
  logs : list log_entry;
  incoming : list control;
}.

(** ** The monad: state that survives exceptions *)

Inductive outcome (A : Type) :=
  | Return (a : A)
  | Raise (e : exn)
  | Waiting.
Arguments Return {A} a.
Arguments Raise {A} e.
Arguments Waiting {A}.

Definition M (A : Type) : Type := Runtime -> Runtime * outcome A.

Definition ret {A} (a : A) : M A := fun g => (g, Return a).
Definition raise {A} (e : exn) : M A := fun g => (g, Raise e).
Definition waiting {A} : M A := fun g => (g, Waiting).

Definition bind {A B} (c : M A) (k : A -> M B) : M B :=
  fun g =>
    match c g with
    | (g', Return a) => k a g'
    | (g', Raise e) => (g', Raise e)
    | (g', Waiting) => (g', Waiting)
    end.

Notation "'let*' x ':=' c 'in' k" := (bind c (fun x => k))
  (at level 10, x name, c at level 100, k at level 200).
Notation "c ;; k" := (bind c (fun _ => k))
  (at level 100, k at level 200, right associativity).

Definition get_runtime : M Runtime := fun g => (g, Return g).
Definition modify (f : Runtime -> Runtime) : M unit := fun g => (f g, Return tt).

(** [try: c except Exception: h]. [SystemExit] is not an [Exception]. *)
Definition is_Exception (e : exn) : bool :=
  match e with SystemExit => false | _ => true end.

Definition try_except {A} (c : M A) (h : exn -> M A) : M A :=
  fun g =>
    match c g with
    | (g', Raise e) => if is_Exception e then h e g' else (g', Raise e)
    | r => r
    end.

(** [try: c except: h] (a bare except catches everything). *)
Definition try_bare {A} (c : M A) (h : exn -> M A) : M A :=
  fun g =>
    match c g with
    | (g', Raise e) => h e g'
    | r => r
    end.

Fixpoint for_each {A} (l : list A) (body : A -> M unit) : M unit :=
  match l with
  | [] => ret tt
  | x :: l' => body x ;; for_each l' body
  end.

Definition final_state {A} (r : Runtime * outcome A) : Runtime := fst r.
Definition result {A} (r : Runtime * outcome A) : outcome A := snd r.

(** ** Field updates *)

Definition set_active (v : bool) (d : DataSet) : DataSet :=
  mkDataSet (location d) v (ds_arrays d) (ds_metadata d) (ds_saved_metadata d) (ds_stored d) (ds_finalized d) (ds_file_closed d).
Definition set_ds_arrays (v : gmap (string * list Z) DataArray) (d : DataSet) : DataSet :=
  mkDataSet (location d) (active d) v (ds_metadata d) (ds_saved_metadata d) (ds_stored d) (ds_finalized d) (ds_file_closed d).
Definition set_ds_metadata (v : list string) (d : DataSet) : DataSet :=
  mkDataSet (location d) (active d) (ds_arrays d) v (ds_saved_metadata d) (ds_stored d) (ds_finalized d) (ds_file_closed d).
Definition set_ds_saved_metadata (v : nat) (d : DataSet) : DataSet :=
  mkDataSet (location d) (active d) (ds_arrays d) (ds_metadata d) v (ds_stored d) (ds_finalized d) (ds_file_closed d).
Definition set_ds_stored (v : list (list Z * list array_id)) (d : DataSet) : DataSet :=
  mkDataSet (location d) (active d) (ds_arrays d) (ds_metadata d) (ds_saved_metadata d) v (ds_finalized d) (ds_file_closed d).
Definition set_ds_finalized (v : bool) (d : DataSet) : DataSet :=
  mkDataSet (location d) (active d) (ds_arrays d) (ds_metadata d) (ds_saved_metadata d) (ds_stored d) v (ds_file_closed d).
Definition set_ds_file_closed (v : bool) (d : DataSet) : DataSet :=
  mkDataSet (location d) (active d) (ds_arrays d) (ds_metadata d) (ds_saved_metadata d) (ds_stored d) (ds_finalized d) v.

Definition set_dataset (v : option DataSet) (m : Measurement) : Measurement :=
  mkMeasurement (name m) v (loop_shape m) (loop_indices m) (action_indices m) (_data_groups m) (actions m) (action_names m) (is_context_manager m) (is_paused m) (is_stopped m) (notify m) (force_cell_thread m) (final_actions m) (except_actions m) (_masked_properties m) (arrays_of m) (max_arrays m) (_t_start m).
Definition set_loop_shape (v : list nat) (m : Measurement) : Measurement :=
  mkMeasurement (name m) (dataset m) v (loop_indices m) (action_indices m) (_data_groups m) (actions m) (action_names m) (is_context_manager m) (is_paused m) (is_stopped m) (notify m) (force_cell_thread m) (final_actions m) (except_actions m) (_masked_properties m) (arrays_of m) (max_arrays m) (_t_start m).
Definition set_loop_indices (v : list Z) (m : Measurement) : Measurement :=
  mkMeasurement (name m) (dataset m) (loop_shape m) v (action_indices m) (_data_groups m) (actions m) (action_names m) (is_context_manager m) (is_paused m) (is_stopped m) (notify m) (force_cell_thread m) (final_actions m) (except_actions m) (_masked_properties m) (arrays_of m) (max_arrays m) (_t_start m).
Definition set_action_indices (v : list Z) (m : Measurement) : Measurement :=
  mkMeasurement (name m) (dataset m) (loop_shape m) (loop_indices m) v (_data_groups m) (actions m) (action_names m) (is_context_manager m) (is_paused m) (is_stopped m) (notify m) (force_cell_thread m) (final_actions m) (except_actions m) (_masked_properties m) (arrays_of m) (max_arrays m) (_t_start m).
Definition set_data_groups (v : gmap (list Z) sid) (m : Measurement) : Measurement :=
  mkMeasurement (name m) (dataset m) (loop_shape m) (loop_indices m) (action_indices m) v (actions m) (action_names m) (is_context_manager m) (is_paused m) (is_stopped m) (notify m) (force_cell_thread m) (final_actions m) (except_actions m) (_masked_properties m) (arrays_of m) (max_arrays m) (_t_start m).
Definition set_actions (v : gmap (list Z) (option string)) (m : Measurement) : Measurement :=
  mkMeasurement (name m) (dataset m) (loop_shape m) (loop_indices m) (action_indices m) (_data_groups m) v (action_names m) (is_context_manager m) (is_paused m) (is_stopped m) (notify m) (force_cell_thread m) (final_actions m) (except_actions m) (_masked_properties m) (arrays_of m) (max_arrays m) (_t_start m).
Definition set_action_names (v : gmap (list Z) string) (m : Measurement) : Measurement :=
  mkMeasurement (name m) (dataset m) (loop_shape m) (loop_indices m) (action_indices m) (_data_groups m) (actions m) v (is_context_manager m) (is_paused m) (is_stopped m) (notify m) (force_cell_thread m) (final_actions m) (except_actions m) (_masked_properties m) (arrays_of m) (max_arrays m) (_t_start m).
Definition set_is_context_manager (v : bool) (m : Measurement) : Measurement :=
  mkMeasurement (name m) (dataset m) (loop_shape m) (loop_indices m) (action_indices m) (_data_groups m) (actions m) (action_names m) v (is_paused m) (is_stopped m) (notify m) (force_cell_thread m) (final_actions m) (except_actions m) (_masked_properties m) (arrays_of m) (max_arrays m) (_t_start m).
Definition set_is_paused (v : bool) (m : Measurement) : Measurement :=
  mkMeasurement (name m) (dataset m) (loop_shape m) (loop_indices m) (action_indices m) (_data_groups m) (actions m) (action_names m) (is_context_manager m) v (is_stopped m) (notify m) (force_cell_thread m) (final_actions m) (except_actions m) (_masked_properties m) (arrays_of m) (max_arrays m) (_t_start m).
Definition set_is_stopped (v : bool) (m : Measurement) : Measurement :=
  mkMeasurement (name m) (dataset m) (loop_shape m) (loop_indices m) (action_indices m) (_data_groups m) (actions m) (action_names m) (is_context_manager m) (is_paused m) v (notify m) (force_cell_thread m) (final_actions m) (except_actions m) (_masked_properties m) (arrays_of m) (max_arrays m) (_t_start m).
Definition set_final_actions (v : list action) (m : Measurement) : Measurement :=
  mkMeasurement (name m) (dataset m) (loop_shape m) (loop_indices m) (action_indices m) (_data_groups m) (actions m) (action_names m) (is_context_manager m) (is_paused m) (is_stopped m) (notify m) (force_cell_thread m) v (except_actions m) (_masked_properties m) (arrays_of m) (max_arrays m) (_t_start m).
Definition set_except_actions (v : list action) (m : Measurement) : Measurement :=
  mkMeasurement (name m) (dataset m) (loop_shape m) (loop_indices m) (action_indices m) (_data_groups m) (actions m) (action_names m) (is_context_manager m) (is_paused m) (is_stopped m) (notify m) (force_cell_thread m) (final_actions m) v (_masked_properties m) (arrays_of m) (max_arrays m) (_t_start m).
Definition set_masked_properties (v : list masked_property) (m : Measurement) : Measurement :=
  mkMeasurement (name m) (dataset m) (loop_shape m) (loop_indices m) (action_indices m) (_data_groups m) (actions m) (action_names m) (is_context_manager m) (is_paused m) (is_stopped m) (notify m) (force_cell_thread m) (final_actions m) (except_actions m) v (arrays_of m) (max_arrays m) (_t_start m).
Definition set_arrays_of (v : option nat) (m : Measurement) : Measurement :=
  mkMeasurement (name m) (dataset m) (loop_shape m) (loop_indices m) (action_indices m) (_data_groups m) (actions m) (action_names m) (is_context_manager m) (is_paused m) (is_stopped m) (notify m) (force_cell_thread m) (final_actions m) (except_actions m) (_masked_properties m) v (max_arrays m) (_t_start m).
Definition set_max_arrays (v : option nat) (m : Measurement) : Measurement :=
  mkMeasurement (name m) (dataset m) (loop_shape m) (loop_indices m) (action_indices m) (_data_groups m) (actions m) (action_names m) (is_context_manager m) (is_paused m) (is_stopped m) (notify m) (force_cell_thread m) (final_actions m) (except_actions m) (_masked_properties m) (arrays_of m) v (_t_start m).
Definition set_t_start (v : option Z) (m : Measurement) : Measurement :=
  mkMeasurement (name m) (dataset m) (loop_shape m) (loop_indices m) (action_indices m) (_data_groups m) (actions m) (action_names m) (is_context_manager m) (is_paused m) (is_stopped m) (notify m) (force_cell_thread m) (final_actions m) (except_actions m) (_masked_properties m) (arrays_of m) (max_arrays m) v.

Definition set_loop_index (v : option Z) (w : Sweep) : Sweep :=
  mkSweep (sw_name w) (sw_unit w) (sequence w) (dimension w) v (iterator w) (reverse w) (restore w) (set_array w).
Definition set_iterator (v : option (list pyval)) (w : Sweep) : Sweep :=
  mkSweep (sw_name w) (sw_unit w) (sequence w) (dimension w) (loop_index w) v (reverse w) (restore w) (set_array w).

Definition set_running_measurement (v : option sid) (g : Runtime) : Runtime :=
  mkRuntime v (measurement_thread g) (cls_final_actions g) (cls_except_actions g) (cls_max_arrays g) (notify_function g) (sessions g) (sweeps g) (array_dicts g) (world g) (logs g) (incoming g).
Definition set_measurement_thread (v : option tid) (g : Runtime) : Runtime :=
  mkRuntime (running_measurement g) v (cls_final_actions g) (cls_except_actions g) (cls_max_arrays g) (notify_function g) (sessions g) (sweeps g) (array_dicts g) (world g) (logs g) (incoming g).
Definition set_cls_except_actions (v : list action) (g : Runtime) : Runtime :=
  mkRuntime (running_measurement g) (measurement_thread g) (cls_final_actions g) v (cls_max_arrays g) (notify_function g) (sessions g) (sweeps g) (array_dicts g) (world g) (logs g) (incoming g).
Definition set_sessions (v : gmap sid Measurement) (g : Runtime) : Runtime :=
  mkRuntime (running_measurement g) (measurement_thread g) (cls_final_actions g) (cls_except_actions g) (cls_max_arrays g) (notify_function g) v (sweeps g) (array_dicts g) (world g) (logs g) (incoming g).
Definition set_sweeps (v : gmap swid Sweep) (g : Runtime) : Runtime :=
  mkRuntime (running_measurement g) (measurement_thread g) (cls_final_actions g) (cls_except_actions g) (cls_max_arrays g) (notify_function g) (sessions g) v (array_dicts g) (world g) (logs g) (incoming g).
Definition set_array_dicts (v : gmap nat (gmap (list Z) DataArray * gmap (list Z) DataArray)) (g : Runtime) : Runtime :=
  mkRuntime (running_measurement g) (measurement_thread g) (cls_final_actions g) (cls_except_actions g) (cls_max_arrays g) (notify_function g) (sessions g) (sweeps g) v (world g) (logs g) (incoming g).
Definition set_world (v : gmap string heap_obj) (g : Runtime) : Runtime :=
  mkRuntime (running_measurement g) (measurement_thread g) (cls_final_actions g) (cls_except_actions g) (cls_max_arrays g) (notify_function g) (sessions g) (sweeps g) (array_dicts g) v (logs g) (incoming g).
Definition set_logs (v : list log_entry) (g : Runtime) : Runtime :=
  mkRuntime (running_measurement g) (measurement_thread g) (cls_final_actions g) (cls_except_actions g) (cls_max_arrays g) (notify_function g) (sessions g) (sweeps g) (array_dicts g) (world g) v (incoming g).
Definition set_incoming (v : list control) (g : Runtime) : Runtime :=
  mkRuntime (running_measurement g) (measurement_thread g) (cls_final_actions g) (cls_except_actions g) (cls_max_arrays g) (notify_function g) (sessions g) (sweeps g) (array_dicts g) (world g) (logs g) v.

(** ** Access to the instances *)

(** Attribute access on a [Measurement] reference. *)
Definition the_session (s : sid) : M Measurement :=
  fun g =>
    match sessions g !! s with
    | Some m => (g, Return m)
    | None => (g, Raise AttributeError)
    end.

Definition update_session (s : sid) (f : Measurement -> Measurement) : M unit :=
  modify (fun g => set_sessions (alter f s (sessions g)) g).

(** [running_measurement()] followed by an attribute access, which raises on
    [None]. *)
Definition running : M sid :=
  fun g =>
    match running_measurement g with
    | Some r => (g, Return r)
    | None => (g, Raise AttributeError)
    end.

Definition log (e : log_entry) : M unit :=
  modify (fun g => set_logs (logs g ++ [e]) g).

(** ** Action indices: [_verify_action], [skip], [revert], [step_out] *)

(** [l[-1] += n] on a copy of [l]; [None] is the [IndexError] of an empty
    list. *)
Definition last_add (n : Z) (l : list Z) : option (list Z) :=
  match rev l with
  | [] => None
  | x :: r => Some (rev r ++ [(x + n)%Z])
  end.

(** [l[-1] = v]. *)
Definition last_set (v : Z) (l : list Z) : option (list Z) :=
  match rev l with
  | [] => None
  | _ :: r => Some (rev r ++ [v])
  end.

Definition register_action (action : option string) (nm : string)
    (m : Measurement) : Measurement :=
  set_action_names (<[action_indices m := nm]> (action_names m))
    (set_actions (<[action_indices m := action]> (actions m)) m).

Definition _verify_action (s : sid) (action : option string) (nm : string)
    (add_if_new : bool) : M unit :=
  let* m := the_session s in
  match actions m !! action_indices m with
  | None =>
      if add_if_new then update_session s (register_action action nm)
      else ret tt
  | Some _ =>
      match action_names m !! action_indices m with
      | None => raise KeyError
      | Some expected =>
          if decide (nm = expected) then ret tt
          else raise (RuntimeError
                        (WrongMeasurement (action_indices m) expected nm))
      end
  end.

(** The [else] branch of [skip]/[revert]: [self] is the running
    measurement. *)
Definition shift_action_indices (s : sid) (n : Z) : M (list Z) :=
  let* m := the_session s in
  match last_add n (action_indices m) with
  | None => raise IndexError
  | Some a => update_session s (set_action_indices a) ;; ret a
  end.

Definition skip (s : sid) (N : Z) : M (list Z) :=
  fun g =>
    if decide (running_measurement g = Some s) then shift_action_indices s N g
    else (let* r := running in shift_action_indices r N) g.

Definition revert (s : sid) (N : Z) : M (list Z) :=
  fun g =>
    if decide (running_measurement g = Some s)
    then shift_action_indices s (- N) g
    else (let* r := running in shift_action_indices r (- N)) g.

Definition step_out_here (s : sid) (reduce_dimension : bool) : M unit :=
  (if reduce_dimension
   then update_session s (fun m =>
          set_loop_indices (removelast (loop_indices m))
            (set_loop_shape (removelast (loop_shape m)) m))
   else ret tt) ;;
  let* m := the_session s in
  match last_add 1 (removelast (action_indices m)) with
  | None => raise IndexError
  | Some a => update_session s (set_action_indices a)
  end.

Definition step_out (s : sid) (reduce_dimension : bool) : M unit :=
  fun g =>
    if decide (running_measurement g = Some s)
    then step_out_here s reduce_dimension g
    else (let* r := running in step_out_here r reduce_dimension) g.

(** ** The maskable objects *)

(** Reads and writes of the objects, as functions of the object store; a
    reference that leads nowhere is a [NameError]. *)
Definition w_param_get (p : ref) (w : gmap string heap_obj) : pyval + exn :=
  match w !! p with
  | Some (HParameter v _ _) => inl v
  | Some _ => inr TypeError
  | None => inr NameError
  end.

Definition w_param_set (p : ref) (v : pyval) (w : gmap string heap_obj)
    : gmap string heap_obj + exn :=
  match w !! p with
  | Some (HParameter _ vals a) =>
      if vals v then inl (<[p := HParameter v vals a]> w) else inr ValueError
  | Some _ => inr TypeError
  | None => inr NameError
  end.

Definition w_getattr (o : ref) (attr : string) (w : gmap string heap_obj)
    : pyval + exn :=
  match w !! o with
  | Some (HParameter _ _ a) | Some (HNode _ a) | Some (HObject a) =>
      match a !! attr with
      | Some v => inl v
      | None => inr AttributeError
      end
  | Some (HDict _) => inr AttributeError
  | None => inr NameError
  end.

Definition w_setattr (o : ref) (attr : string) (v : pyval)
    (w : gmap string heap_obj) : gmap string heap_obj + exn :=
  match w !! o with
  | Some (HParameter l vals a) =>
      inl (<[o := HParameter l vals (<[attr := v]> a)]> w)
  | Some (HObject a) => inl (<[o := HObject (<[attr := v]> a)]> w)
  | Some (HNode ps a) =>
      match ps !! attr with
      | Some p => w_param_set p v w
      | None => inl (<[o := HNode ps (<[attr := v]> a)]> w)
      end
  | Some (HDict _) => inr AttributeError
  | None => inr NameError
  end.

Definition w_getitem (o : ref) (key : string) (w : gmap string heap_obj)
    : pyval + exn :=
  match w !! o with
  | Some (HDict d) =>
      match d !! key with
      | Some v => inl v
      | None => inr KeyError
      end
  | Some _ => inr TypeError
  | None => inr NameError
  end.

Definition w_setitem (o : ref) (key : string) (v : pyval)
    (w : gmap string heap_obj) : gmap string heap_obj + exn :=
  match w !! o with
  | Some (HDict d) => inl (<[o := HDict (<[key := v]> d)]> w)
  | Some _ => inr TypeError
  | None => inr NameError
  end.

Definition read_world {A} (f : gmap string heap_obj -> A + exn) : M A :=
  fun g =>
    match f (world g) with
    | inl a => (g, Return a)
    | inr e => (g, Raise e)
    end.

Definition write_world (f : gmap string heap_obj -> gmap string heap_obj + exn)
    : M unit :=
  fun g =>
    match f (world g) with
    | inl w => (set_world w g, Return tt)
    | inr e => (g, Raise e)
    end.

Definition the_object (o : ref) : M heap_obj :=
  fun g =>
    match world g !! o with
    | Some h => (g, Return h)
    | None => (g, Raise NameError)
    end.

(** [param()] and [param(value)]. *)
Definition param_get (p : ref) : M pyval := read_world (w_param_get p).
Definition param_set (p : ref) (v : pyval) : M unit :=
  write_world (w_param_set p v).

(** [getattr(obj, attr)] on the instance attributes (the fallback
    [ParameterNode.__getattr__] serves parameters and nested nodes, which
    [mask] routes to [_mask_parameter] before it asks for an attribute), and
    [setattr(obj, attr, val)] for a plain [val]; on a node this is
    [ParameterNode.__setattr__], which sets the parameter of that name when
    there is one. *)
Definition py_getattr (o : ref) (attr : string) : M pyval :=
  read_world (w_getattr o attr).
Definition py_setattr (o : ref) (attr : string) (v : pyval) : M unit :=
  write_world (w_setattr o attr v).

(** [obj[key]] and [obj[key] = val] on a dictionary. *)
Definition py_getitem (o : ref) (key : string) : M pyval :=
  read_world (w_getitem o key).
Definition py_setitem (o : ref) (key : string) (v : pyval) : M unit :=
  write_world (w_setitem o key v).

(** [a == b] on object references: dictionaries compare by content, the
    other objects by identity. *)
Definition py_eq (w : gmap string heap_obj) (a b : ref) : bool :=
  if decide (a = b) then true
  else match w !! a, w !! b with
       | Some (HDict x), Some (HDict y) => bool_decide (x = y)
       | _, _ => false
       end.

(** ** Masking *)

Definition push_masked (s : sid) (r : masked_property) : M unit :=
  update_session s (fun m =>
    set_masked_properties (_masked_properties m ++ [r]) m).

Definition _mask_attr (s : sid) (obj : ref) (attr : string) (value : pyval)
    : M pyval :=
  let* original := py_getattr obj attr in
  py_setattr obj attr value ;;
  push_masked s (mkMasked (TAttr obj attr) original value) ;;
  ret original.

Definition _mask_parameter (s : sid) (param : ref) (value : pyval) : M pyval :=
  let* original := param_get param in
  param_set param value ;;
  push_masked s (mkMasked (TParameter param) original value) ;;
  ret original.

Definition _mask_key (s : sid) (obj : ref) (key : string) (value : pyval)
    : M pyval :=
  let* original := py_getitem obj key in
  py_setitem obj key value ;;
  push_masked s (mkMasked (TKey obj key) original value) ;;
  ret original.

(** A list comprehension with effects. *)
Fixpoint collect {A B} (l : list A) (f : A -> M B) : M (list B) :=
  match l with
  | [] => ret []
  | x :: l' =>
      let* y := f x in
      let* ys := collect l' f in
      ret (y :: ys)
  end.

(** [mask(obj, val=None, **kwargs)]; the single original value returned for
    a parameter is given as a one-element list. *)
Definition mask (s : sid) (obj : ref) (val : pyval)
    (kwargs : list (string * pyval)) : M (list pyval) :=
  let* h := the_object obj in
  match h with
  | HNode _ _ =>
      if decide (val = PNone) then
        collect kwargs (fun kv =>
          let* h := the_object obj in
          match h with
          | HNode ps _ =>
              match ps !! kv.1 with
              | Some p => _mask_parameter s p kv.2
              | None => _mask_attr s obj kv.1 kv.2
              end
          | _ => _mask_attr s obj kv.1 kv.2
          end)
      else raise AssertionError
  | HParameter _ _ _ =>
      match kwargs with
      | [] => let* o := _mask_parameter s obj val in ret [o]
      | _ => collect kwargs (fun kv => _mask_attr s obj kv.1 kv.2)
      end
  | HDict _ =>
      match kwargs with
      | [] => raise (SyntaxError MustPassKwargs)
      | _ => collect kwargs (fun kv => _mask_key s obj kv.1 kv.2)
      end
  | HObject _ =>
      match kwargs with
      | [] => raise (SyntaxError MustPassKwargs)
      | _ => collect kwargs (fun kv => _mask_attr s obj kv.1 kv.2)
      end
  end.

(** The write that restores a record. *)
Definition w_restore (r : masked_property) (w : gmap string heap_obj)
    : gmap string heap_obj + exn :=
  match mp_target r with
  | TKey o k => w_setitem o k (original_value r) w
  | TAttr o a => w_setattr o a (original_value r) w
  | TParameter o => w_param_set o (original_value r) w
  end.

Definition restore_write (r : masked_property) : M unit :=
  write_world (w_restore r).

(** [unmask] called with the entries of a record as keyword arguments: the
    branch taken when [original_value] is passed. *)
Definition unmask_property (s : sid) (r : masked_property)
    (raise_exception : bool) : M unit :=
  try_except (restore_write r)
    (fun e =>
       log (LogCouldNotUnmask s r) ;;
       if raise_exception then raise e else ret tt).

(** Whether [unmask(obj, attr, key)] selects a record. *)
Definition selects (w : gmap string heap_obj) (obj : ref)
    (attr key : option string) (r : masked_property) : bool :=
  if negb (py_eq w (mp_obj r) obj) then false
  else if bool_decide (attr ≠ None ∧ mp_attr r ≠ attr) then false
  else if bool_decide (key ≠ None ∧ mp_key r ≠ key) then false
  else true.

(** [unmask(obj, attr=None, key=None)]: the branch taken when no record is
    passed. The inner calls take the default [raise_exception=True]. *)
Definition unmask (s : sid) (obj : ref) (attr key : option string) : M unit :=
  let* m := the_session s in
  let* g := get_runtime in
  let sel := selects (world g) obj attr key in
  let unmask_properties := filter (fun r => sel r = true) (_masked_properties m) in
  let remaining := filter (fun r => sel r ≠ true) (_masked_properties m) in
  for_each (rev unmask_properties) (fun r => unmask_property s r true) ;;
  update_session s (set_masked_properties remaining).

Definition unmask_all (s : sid) : M unit :=
  let* m := the_session s in
  for_each (rev (_masked_properties m))
    (fun r => unmask_property s r false) ;;
  update_session s (set_masked_properties []).

(** ** Measured values *)

(** Values that are neither parameters, nor callables, nor dictionaries: a
    float is known by its bits, an array by its shape. *)
Inductive raw_value :=
  | RFloat (bits : Z)
  | RInt (z : Z)
  | RBool (b : bool)
  | RNdarray (shape : list nat)
  | RNpInteger (z : Z)
  | RNpFloating (bits : Z)
  | RNpBool (b : bool)
  | RNone
  | RStr (s : string)
  | RTuple (len : nat).

Inductive pytype :=
  | Tfloat | Tint | Tbool | Tndarray | Tnp_integer | Tnp_floating | Tnp_bool
  | TNoneType | Tstr | Ttuple.

#[global] Instance pytype_eq_dec : EqDecision pytype.
Proof. solve_decision. Defined.

Definition type_of (v : raw_value) : pytype :=
  match v with
  | RFloat _ => Tfloat
  | RInt _ => Tint
  | RBool _ => Tbool
  | RNdarray _ => Tndarray
  | RNpInteger _ => Tnp_integer
  | RNpFloating _ => Tnp_floating
  | RNpBool _ => Tnp_bool
  | RNone => TNoneType
  | RStr _ => Tstr
  | RTuple _ => Ttuple
  end.

(** [RAW_VALUE_TYPES = (float, int, bool, np.ndarray, np.integer,
    np.floating, np.bool_, type(None))]. *)
Definition RAW_VALUE_TYPES : list pytype :=
  [Tfloat; Tint; Tbool; Tndarray; Tnp_integer; Tnp_floating; Tnp_bool;
   TNoneType].

(** [isinstance(v, types)] for these types, none of which is a subclass of
    another one outside the tuple. *)
Definition isinstance (v : raw_value) (types : list pytype) : bool :=
  bool_decide (type_of v ∈ types).

(** What [_create_data_array] receives as [result]: a measured value, or the
    sequence of a sweep. *)
Inductive result_value :=
  | ResRaw (v : raw_value)
  | ResSequence (len : nat).

Definition np_shape (r : result_value) : list nat :=
  match r with
  | ResRaw (RNdarray sh) => sh
  | ResRaw _ => []
  | ResSequence n => [n]
  end.

(** [isinstance(result, (np.ndarray, list))]. *)
Definition is_array (r : result_value) : bool :=
  match r with
  | ResRaw (RNdarray _) => true
  | ResRaw _ => false
  | ResSequence _ => true
  end.

(** What the engine reads of the parameter handed to the array functions:
    its [name], whether it is an instance of [Parameter], and, for a
    multi-valued parameter, its [names] and the label and unit of each
    setpoint axis ([None] when it has no [setpoints]). *)
Record param_info := mkParamInfo {
  pi_name : string;
  pi_is_Parameter : bool;
  pi_names : list string;
  pi_setpoints : option (list (list (option string * option string)));
}.

(** ** Data arrays *)

Definition the_runtime_arrays (owner : option nat)
    : M (gmap (list Z) DataArray * gmap (list Z) DataArray) :=
  fun g =>
    match owner with
    | Some o =>
        match array_dicts g !! o with
        | Some d => (g, Return d)
        | None => (g, Raise AttributeError)
        end
    | None => (g, Raise AttributeError)
    end.

(** [self.data_arrays] and [self.set_arrays], through the reference. *)
Definition data_arrays (s : sid) : M (gmap (list Z) DataArray) :=
  let* m := the_session s in
  let* d := the_runtime_arrays (arrays_of m) in
  ret d.1.

Definition set_arrays (s : sid) : M (gmap (list Z) DataArray) :=
  let* m := the_session s in
  let* d := the_runtime_arrays (arrays_of m) in
  ret d.2.

Definition update_arrays (s : sid)
    (f : gmap (list Z) DataArray * gmap (list Z) DataArray ->
         gmap (list Z) DataArray * gmap (list Z) DataArray) : M unit :=
  let* m := the_session s in
  match arrays_of m with
  | Some o => modify (fun g => set_array_dicts (alter f o (array_dicts g)) g)
  | None => raise AttributeError
  end.

(** [self.dataset], followed by a method call. *)
Definition the_dataset (s : sid) : M DataSet :=
  let* m := the_session s in
  match dataset m with
  | Some d => ret d
  | None => raise AttributeError
  end.

Definition update_dataset (s : sid) (f : DataSet -> DataSet) : M unit :=
  the_dataset s ;;
  update_session s (fun m => set_dataset (f <$> dataset m) m).

Definition add_array (a : DataArray) (d : DataSet) : DataSet :=
  set_ds_arrays (<[da_array_id a := a]> (ds_arrays d)) d.
Definition add_metadata (key : string) (d : DataSet) : DataSet :=
  set_ds_metadata (ds_metadata d ++ [key]) d.
Definition save_metadata (d : DataSet) : DataSet :=
  set_ds_saved_metadata (S (ds_saved_metadata d)) d.
Definition store (indices : list Z) (ids : list array_id) (d : DataSet)
    : DataSet :=
  set_ds_stored (ds_stored d ++ [(indices, ids)]) d.

Definition to_upper (c : ascii) : ascii :=
  let n := nat_of_ascii c in
  if (97 <=? n)%nat && (n <=? 122)%nat then ascii_of_nat (n - 32) else c.

Fixpoint underscores_to_spaces (t : string) : string :=
  match t with
  | EmptyString => EmptyString
  | String c t' =>
      String (if decide (c = "_"%char) then " "%char else c)
        (underscores_to_spaces t')
  end.

(** [name[0].capitalize() + name[1:].replace("_", " ")]; [None] is the
    [IndexError] on the empty name. *)
Definition default_label (nm : string) : option string :=
  match nm with
  | EmptyString => None
  | String c t => Some (String (to_upper c) (underscores_to_spaces t))
  end.

(** [self.max_arrays]: the instance attribute when set, else the class
    attribute. *)
Definition the_max_arrays (g : Runtime) (m : Measurement) : nat :=
  default (cls_max_arrays g) (max_arrays m).

(** [name or parameter.name]. *)
Definition name_or_parameter (nm : option string) (parameter : option param_info)
    : M string :=
  match nm with
  | Some n => if decide (n = "") then
                match parameter with
                | Some p => ret (pi_name p)
                | None => raise AttributeError
                end
              else ret n
  | None => match parameter with
            | Some p => ret (pi_name p)
            | None => raise AttributeError
            end
  end.

(** The [else] branch of the keyword arguments of the array: no [Parameter]
    instance is at hand, the array is called [name], and a missing label is
    derived from the name ([name[0]] raises on [None] and on the empty
    string). The name and the full name come out equal. *)
Definition plain_array_naming (nm label unit : option string)
    : M (option string * option string * option string * option string) :=
  match label with
  | Some l => ret (nm, nm, Some l, Some (default "" unit))
  | None =>
      match nm with
      | None => raise TypeError
      | Some n =>
          match default_label n with
          | Some l => ret (Some n, Some n, Some l, Some (default "" unit))
          | None => raise IndexError
          end
      end
  end.

(** The body of [_create_data_array], with the call of [_add_set_arrays]
    left open: [_add_set_arrays] itself creates setpoint arrays through this
    function, for which it is not called again. *)
Definition create_data_array_with
    (add_set_arrays : list Z -> result_value -> string -> option param_info ->
                      M (list array_id))
    (s : sid) (at_indices : list Z) (result : result_value)
    (parameter : option param_info) (is_setpoint : bool)
    (nm label unit : option string) : M DataArray :=
  (if bool_decide (parameter = None :> option param_info) && bool_decide (nm = None)
   then raise (SyntaxError NeedParameterOrName) else ret tt) ;;
  let* r := running in
  let* darrs := data_arrays r in
  let* m := the_session s in
  let* g := get_runtime in
  (if bool_decide (the_max_arrays g m <= size darrs)
   then raise (RuntimeError (TooManyArrays (the_max_arrays g m)))
   else ret tt) ;;
  let shape0 :=
    if is_setpoint || is_array result
    then loop_shape m ++ np_shape result else loop_shape m in
  let shape := match shape0 with [] => [1] | _ => shape0 end in
  let* named :=
    match parameter with
    | Some p =>
        if pi_is_Parameter p
        then ret (Some (pi_name p), Some (default (pi_name p) nm), label, unit)
        else plain_array_naming nm label unit
    | None => plain_array_naming nm label unit
    end in
  let* sets :=
    if is_setpoint then ret []
    else
      let* n := name_or_parameter nm parameter in
      add_set_arrays at_indices result n parameter in
  let* data_array :=
    match named.1.1.1, named.1.1.2 with
    | Some n, Some fn =>
        ret (mkDataArray n fn is_setpoint at_indices shape sets
               named.1.2 named.2)
    | _, _ => raise TypeError
    end in
  update_dataset s (add_array data_array) ;;
  update_dataset s save_metadata ;;
  (if is_setpoint
   then update_arrays s (fun d => (d.1, <[at_indices := data_array]> d.2))
   else update_arrays s (fun d => (<[at_indices := data_array]> d.1, d.2))) ;;
  ret data_array.

Definition create_setpoint_array (s : sid) (at_indices : list Z)
    (result : result_value) (parameter : option param_info)
    (nm label unit : option string) : M DataArray :=
  create_data_array_with (fun _ _ _ _ => ret []) s at_indices result
    parameter true nm label unit.

(** The set arrays of the enclosing sweeps: for [k] in
    [range(1, len(action_indices))], the one found at [action_indices[:k]]. *)
Definition enclosing_set_arrays (sets : gmap (list Z) DataArray)
    (at_indices : list Z) : list array_id :=
  omap (fun k => da_array_id <$> sets !! take k at_indices)
    (seq 1 (length at_indices - 1)).

(** The label and unit that [parameter.setpoint_labels] and
    [parameter.setpoint_units] give for axis [k] of the result called [nm];
    [(None, None)] without setpoints. *)
Definition setpoint_info (parameter : option param_info) (nm : string)
    (k : nat) : M (option string * option string) :=
  match parameter with
  | Some p =>
      match pi_setpoints p with
      | Some sp =>
          match list_find (fun n => n = nm) (pi_names p) with
          | None => raise ValueError
          | Some (arr_idx, _) =>
              match sp !! arr_idx with
              | None => raise IndexError
              | Some axes =>
                  match axes !! k with
                  | None => raise IndexError
                  | Some lu => ret lu
                  end
              end
          end
      | None => ret (None, None)
      end
  | None => ret (None, None)
  end.

Definition _add_set_arrays (s : sid) (at_indices : list Z)
    (result : result_value) (nm : string) (parameter : option param_info)
    : M (list array_id) :=
  let* sets := set_arrays s in
  let enclosing := enclosing_set_arrays sets at_indices in
  let* axes :=
    if is_array result then
      collect (seq 0 (length (np_shape result))) (fun k =>
        let* lu := setpoint_info parameter nm k in
        let* a := create_setpoint_array s
                    (at_indices ++ replicate k 0%Z)
                    (ResRaw (RNdarray (take (S k) (np_shape result))))
                    None (Some (nm +:+ "_set" +:+ pretty k)) lu.1 lu.2 in
        ret (da_array_id a))
    else ret [] in
  let* m := the_session s in
  match enclosing ++ axes, loop_indices m with
  | [], [] =>
      let* r := running in
      let* rm := the_session r in
      let* a := create_setpoint_array s (action_indices rm) result None
                  (Some "None") None None in
      ret [da_array_id a]
  | l, _ => ret l
  end.

Definition _create_data_array (s : sid) (at_indices : list Z)
    (result : result_value) (parameter : option param_info)
    (is_setpoint : bool) (nm label unit : option string) : M DataArray :=
  create_data_array_with (_add_set_arrays s) s at_indices result parameter
    is_setpoint nm label unit.

(** [result.ndim]. *)
Definition ndim (v : raw_value) : nat :=
  match v with RNdarray sh => length sh | _ => 0 end.

Definition _add_measurement_result (s : sid) (at_indices : list Z)
    (result : raw_value) (parameter : option param_info) (do_store : bool)
    (nm label unit : option string) : M (list array_id) :=
  (if bool_decide (parameter = None :> option param_info) && bool_decide (nm = None)
   then raise (SyntaxError NeedParameterOrName) else ret tt) ;;
  let* darrs := data_arrays s in
  (match darrs !! at_indices with
   | None =>
       _create_data_array s at_indices (ResRaw result) parameter false
         nm label unit ;; ret tt
   | Some _ => ret tt
   end) ;;
  let* darrs := data_arrays s in
  let* data_array :=
    match darrs !! at_indices with
    | Some a => ret a
    | None => raise KeyError
    end in
  let* n :=
    match nm, parameter with
    | Some n, _ => ret n
    | None, Some p => ret (pi_name p)
    | None, None => raise AttributeError
    end in
  (if decide (da_name data_array = n) then ret tt
   else raise (SyntaxError (ArrayNameDiffers (da_name data_array) n))) ;;
  let* m := the_session s in
  let dims := length (loop_indices m) in
  let* extra :=
    match result with
    | RNdarray sh =>
        if decide (length (da_set_arrays data_array) = dims + length sh)
        then
          collect (imap (fun k a => (k, a)) (drop dims (da_set_arrays data_array)))
            (fun ka => setpoint_info parameter n ka.1 ;; ret ka.2)
        else raise (RuntimeError
               (WrongNumberSetArrays (da_name data_array) (dims + length sh)
                  (length (da_set_arrays data_array))))
    | _ => ret []
    end in
  let data_to_store := da_array_id data_array :: extra in
  let* m := the_session s in
  let indices :=
    match loop_indices m, result with
    | _, RNdarray _ => loop_indices m
    | [], _ => [0%Z]
    | l, _ => l
    end in
  (if do_store then update_dataset s (store indices data_to_store)
   else ret tt) ;;
  ret data_to_store.

(** ** The life cycle of a measurement *)

(** [Measurement(name, force_cell_thread, notify)]; [fct] is
    [force_cell_thread and using_ipython()]. The geometry attributes start as
    [None] in the source and are assigned by [__enter__] before anything
    reads them; they start empty here. *)
Definition new_measurement (nm : string) (fct ntf : bool) : M sid :=
  fun g =>
    let s := fresh (dom (sessions g)) in
    let m := mkMeasurement nm None [] [] [] ∅ ∅ ∅ false false false ntf fct
               [] [] [] None None None in
    (set_sessions (<[s := m]> (sessions g)) g, Return s).

(** What the collaborators do during [__enter__]: [new_data] returns a
    dataset at a location or raises; saving the metadata may raise; the code
    may run in the main thread directly from an IPython cell. *)
Record enter_env := mkEnterEnv {
  new_data_location : option string;
  station_default : bool;
  using_ipython : option Z;
  save_metadata_fails : bool;
  in_cell_main_thread : bool;
}.

Definition quiet_enter : enter_env := mkEnterEnv (Some "") false None false false.

(** What the collaborators do during [__exit__]. *)
Record exit_env := mkExitEnv {
  add_metadata_fails : bool;
  finalize_fails : bool;
  has_close_file : bool;
  exit_save_metadata_fails : bool;
}.

Definition quiet_exit : exit_env := mkExitEnv false false true false.

Definition _apply_actions (s : sid) (acts : list action) (label : string)
    : M unit :=
  for_each acts (fun a =>
    if act_raises a then log (LogActionFailed s label a) else ret tt).

Definition _initialize_metadata (env : enter_env) (s : sid) : M unit :=
  update_dataset s (add_metadata "config") ;;
  update_dataset s (add_metadata "measurement_type") ;;
  (if station_default env then update_dataset s (add_metadata "station")
   else ret tt) ;;
  match using_ipython env with
  | Some now =>
      update_session s (set_t_start (Some now)) ;;
      update_dataset s (add_metadata "measurement_cell")
  | None => ret tt
  end.

Definition new_array_dicts : M nat :=
  fun g =>
    let d := fresh (dom (array_dicts g)) in
    (set_array_dicts (<[d := (∅, ∅)]> (array_dicts g)) g, Return d).

(** The branch of [__enter__] taken when no measurement is running. *)
Definition enter_primary (env : enter_env) (s : sid) (t : tid) : M unit :=
  modify (set_running_measurement (Some s)) ;;
  modify (set_measurement_thread (Some t)) ;;
  match new_data_location env with
  | None => raise (ExternalError "new_data")
  | Some loc =>
      update_session s
        (set_dataset (Some (mkDataSet loc true ∅ [] 0 [] false false))) ;;
      _initialize_metadata env s ;;
      (if save_metadata_fails env then raise (ExternalError "save_metadata")
       else update_dataset s save_metadata) ;;
      update_session s (fun m =>
        set_action_indices [0%Z] (set_loop_indices [] (set_loop_shape [] m))) ;;
      let* d := new_array_dicts in
      update_session s (set_arrays_of (Some d)) ;;
      log (LogStarted s)
  end.

(** The branch taken when [r] is running: the measurement becomes a data
    group of [r] and mimics it. *)
Definition enter_nested (s : sid) (t : tid) (r : sid) : M unit :=
  let* g := get_runtime in
  if decide (measurement_thread g = Some t) then
    let* msmt := the_session r in
    update_session r
      (set_data_groups (<[action_indices msmt := s]> (_data_groups msmt))) ;;
    update_dataset r (add_metadata "data_groups") ;;
    update_session r (fun m => set_action_indices (action_indices m ++ [0%Z]) m) ;;
    let* msmt := the_session r in
    update_session s (fun m =>
      set_arrays_of (arrays_of msmt)
        (set_action_indices (action_indices msmt)
           (set_loop_indices (loop_indices msmt)
              (set_loop_shape (loop_shape msmt) m))))
  else raise (RuntimeError EnterOtherThread).

Definition clear_running_if (s : sid) : M unit :=
  fun g =>
    if decide (running_measurement g = Some s)
    then (set_running_measurement None g, Return tt)
    else (g, Return tt).

Definition __enter__ (env : enter_env) (s : sid) (t : tid) : M sid :=
  update_session s (set_is_context_manager true) ;;
  try_bare
    ((fun g =>
        match running_measurement g with
        | None => enter_primary env s t g
        | Some r => enter_nested s t r g
        end) ;;
     let* m := the_session s in
     let* g := get_runtime in
     (if force_cell_thread m && bool_decide (running_measurement g = Some s)
      then if in_cell_main_thread env
           then raise (RuntimeError DedicatedThread) else ret tt
      else ret tt) ;;
     ret s)
    (fun e => clear_running_if s ;; raise e).

(** [all([arr.is_setpoint for arr in dataset.arrays.values()])]. *)
Definition only_setpoints (d : DataSet) : bool :=
  forallb (fun ka => is_setpoint ka.2) (map_to_list (ds_arrays d)).

(** The end of [__exit__] for the primary measurement. *)
Definition close_dataset (env : exit_env) (s : sid) : M unit :=
  (if add_metadata_fails env then raise (ExternalError "add_metadata")
   else update_dataset s (add_metadata "t_stop") ;;
        update_dataset s (add_metadata "timings")) ;;
  let* d := the_dataset s in
  (if negb (only_setpoints d) then
     if finalize_fails env then raise (ExternalError "finalize")
     else update_dataset s
            (fun d => set_active false (set_ds_finalized true d))
   else
     (if has_close_file env
      then update_dataset s (set_ds_file_closed true) else ret tt) ;;
     (if exit_save_metadata_fails env then raise (ExternalError "save_metadata")
      else update_dataset s save_metadata)) ;;
  update_dataset s (set_active false) ;;
  log (LogFinished s).

(** The except and final actions of [__exit__]. *)
Definition exit_actions (s : sid) (exc : option exn) (is_self : bool)
    : M unit :=
  (match exc with
   | Some _ =>
       log (LogError s) ;;
       let* m := the_session s in
       _apply_actions s (except_actions m) "except" ;;
       update_session s (set_except_actions []) ;;
       if is_self then
         let* g := get_runtime in
         _apply_actions s (cls_except_actions g) "global except" ;;
         modify (set_cls_except_actions [])
       else ret tt
   | None => ret tt
   end) ;;
  let* m := the_session s in
  _apply_actions s (final_actions m) "final" ;;
  update_session s (set_final_actions []).

(** What [__exit__] does after unmasking: the primary measurement runs the
    global final actions, notifies and closes the dataset; a nested one
    steps out of the measurement [msmt] that was running. *)
Definition exit_finish (env : exit_env) (s : sid) (is_self : bool)
    (msmt : option sid) : M unit :=
  if is_self then
    let* g := get_runtime in
    _apply_actions s (cls_final_actions g) "global final" ;;
    let* m := the_session s in
    (match notify m, notify_function g with
     | true, Some raises =>
         if raises then log (LogCouldNotNotify s) else ret tt
     | _, _ => ret tt
     end) ;;
    close_dataset env s
  else
    match msmt with
    | Some r => step_out r false
    | None => raise AttributeError
    end.

Definition __exit__ (env : exit_env) (s : sid) (exc : option exn) : M unit :=
  let* g0 := get_runtime in
  let msmt := running_measurement g0 in
  let is_self := bool_decide (msmt = Some s) in
  (if is_self then modify (set_running_measurement None) else ret tt) ;;
  exit_actions s exc is_self ;;
  unmask_all s ;;
  exit_finish env s is_self msmt ;;
  update_session s (set_is_context_manager false).

(** [with Measurement(name) as msmt: body]. A body that waits forever keeps
    the block open. *)
Definition with_measurement {A} (nm : string) (t : tid) (body : sid -> M A)
    : M A :=
  let* n := new_measurement nm true false in
  __enter__ quiet_enter n t ;;
  fun g =>
    match body n g with
    | (g', Return a) => (__exit__ quiet_exit n None ;; ret a) g'
    | (g', Raise e) => (__exit__ quiet_exit n (Some e) ;; raise e) g'
    | (g', Waiting) => (g', Waiting)
    end.

(** ** Pause, resume, stop *)

Definition pause : M unit :=
  let* r := running in update_session r (set_is_paused true).

Definition resume : M unit :=
  let* r := running in update_session r (set_is_paused false).

Definition stop : M unit :=
  let* r := running in
  update_session r (set_is_stopped true) ;;
  resume.

Definition apply_control (c : control) : M unit :=
  match c with
  | CPause => pause
  | CResume => resume
  | CStop => stop
  end.

(** [while msmt.is_paused: sleep(0.1)]: each sleep lets the next call of the
    operator's thread through; with none left the thread keeps waiting. *)
Fixpoint poll_paused (s : sid) (pending : list control) : M unit :=
  fun g =>
    match sessions g !! s with
    | None => (g, Raise AttributeError)
    | Some m =>
        if is_paused m then
          match pending with
          | [] => (set_incoming [] g, Waiting)
          | c :: rest => poll_paused s rest (apply_control c g).1
          end
        else (set_incoming pending g, Return tt)
    end.

Definition wait_while_paused (s : sid) : M unit :=
  fun g => poll_paused s (incoming g) g.

(** ** Measuring *)

Record DeviceParameter := mkParameter {
  p_name : string;
  p_result : raw_value;
}.

Record MultiParameter := mkMultiParameter {
  mp_name : string;
  mp_names : list string;
  mp_results : list raw_value;
  mp_labels : list (option string);
  mp_units : list (option string);
  mp_setpoints : option (list (list (option string * option string)));
}.

(** What [measure] is given, in the order in which it asks: a [Parameter]
    (with the value its get returns), a [MultiParameter] (with the values it
    returns), a callable (with the name of the node it is a method of, its
    [__name__], and the mapping it returns, or else the other value it
    returns; it is taken not to touch the measurement itself), a dictionary,
    and any other value. *)
Inductive measurable :=
  | MParameter (p : DeviceParameter)
  | MMultiParameter (mp : MultiParameter)
  | MCallable (node_name fn_name : option string)
      (returns : option (list (string * measurable))) (other : raw_value)
  | MDict (items : list (string * measurable))
  | MValue (v : raw_value).

Definition info_of_parameter (p : DeviceParameter) : param_info :=
  mkParamInfo (p_name p) true [] None.

Definition info_of_multi (mp : MultiParameter) : param_info :=
  mkParamInfo (mp_name mp) false (mp_names mp) (mp_setpoints mp).

(** The three checks at the top of [measure]. *)
Definition measure_guards (s : sid) (t : tid) : M unit :=
  let* m := the_session s in
  if negb (is_context_manager m)
  then raise (RuntimeError MustUseContextManager)
  else if is_stopped m then raise SystemExit
  else fun g =>
         if decide (measurement_thread g = Some t) then (g, Return tt)
         else (g, Raise (RuntimeError MeasureOtherThread)).

(** The head of [measure]: the checks, the delegation to the running
    measurement (which checks again), and the wait while paused. [body] is
    told whether the call was delegated and which measurement runs it. *)
Definition guarded_measure {A} (t : tid) (s : sid) (body : bool -> sid -> M A)
    : M A :=
  measure_guards s t ;;
  fun g =>
    if decide (running_measurement g = Some s)
    then (wait_while_paused s ;; body false s) g
    else (let* r := running in
          measure_guards r t ;;
          wait_while_paused r ;;
          body true r) g.

(** [name or default]: an empty name counts as none. *)
Definition name_or (nm : option string) (dflt : string) : string :=
  match nm with
  | Some n => if decide (n = "") then dflt else n
  | None => dflt
  end.

Definition _measure_parameter (r : sid) (p : DeviceParameter)
    (nm label unit : option string) : M raw_value :=
  let n := name_or nm (p_name p) in
  _verify_action r (Some (p_name p)) n true ;;
  let result := p_result p in
  let* m := the_session r in
  _add_measurement_result r (action_indices m) result
    (Some (info_of_parameter p)) true (Some n) label unit ;;
  ret result.

Definition convert_numpy (v : raw_value) : raw_value :=
  match v with
  | RNpInteger z => RInt z
  | RNpFloating b => RFloat b
  | RNpBool b => RBool b
  | _ => v
  end.

Definition _measure_value (r : sid) (v : raw_value) (nm : option string)
    (parameter : option param_info) (label unit : option string)
    : M raw_value :=
  match nm with
  | None => raise (RuntimeError MustProvideName)
  | Some n =>
      _verify_action r None n true ;;
      let result := convert_numpy v in
      let* m := the_session r in
      _add_measurement_result r (action_indices m) result parameter true
        (Some n) label unit ;;
      ret result
  end.

(** [dict(zip(names, values))]: a repeated name keeps its first place and
    its last value. *)
Fixpoint py_dict {A} (acc : list (string * A)) (kvs : list (string * A))
    : list (string * A) :=
  match kvs with
  | [] => acc
  | (k, v) :: rest =>
      py_dict
        (if bool_decide (k ∈ acc.*1)
         then (fun kv => if decide (kv.1 = k) then (k, v) else kv) <$> acc
         else acc ++ [(k, v)])
        rest
  end.

(** The name [_measure_callable] settles on. *)
Definition callable_name (nm node_name fn_name : option string)
    (at_indices : list Z) : string :=
  match nm, node_name, fn_name with
  | Some n, _, _ => n
  | None, Some n, _ => n
  | None, None, Some n => n
  | None, None, None =>
      "data_group_" +:+ String.concat "_" (pretty <$> at_indices)
  end.

(** Whether the callable already performed a nested measurement: a data
    group registered at its place, with the current loop indices. *)
Definition nested_measurement_done (r : sid) (at_indices : list Z) : M bool :=
  let* g := get_runtime in
  let* msmt := running in
  let* mm := the_session msmt in
  let* m := the_session r in
  match _data_groups mm !! at_indices with
  | Some grp =>
      match sessions g !! grp with
      | Some gm => ret (bool_decide (loop_indices gm = loop_indices m))
      | None => ret false
      end
  | None => ret false
  end.

(** The last two branches of the dispatch: a raw value is stored and the
    action index advances; anything else cannot be measured. *)
Definition measure_raw (r : sid) (v : raw_value) (nm : option string)
    (parameter : option param_info) (label unit' : option string)
    : M measurable :=
  if isinstance v RAW_VALUE_TYPES then
    let* v' := _measure_value r v nm parameter label unit' in
    skip r 1 ;;
    ret (MValue v')
  else raise (RuntimeError CannotMeasure).

(** The dispatch of [measure], in its priority order; [r] is the running
    measurement. *)
Fixpoint dispatch (t : tid) (x : measurable) (nm label unit' : option string)
    (parameter : option param_info) (r : sid) {struct x} : M measurable :=
  let measure_items :=
    (fix go (items : list (string * measurable)) (n : sid) : M unit :=
       match items with
       | [] => ret tt
       | (key, val) :: rest =>
           guarded_measure t n
             (fun _ r' => dispatch t val (Some key) None None None r') ;;
           go rest n
       end) in
  match x with
  | MParameter p =>
      let* v := _measure_parameter r p nm label unit' in
      skip r 1 ;;
      ret (MValue v)
  | MMultiParameter mp =>
      let n := name_or nm (mp_name mp) in
      _verify_action r (Some (mp_name mp)) n true ;;
      let results := py_dict [] (zip (mp_names mp) (mp_results mp)) in
      with_measurement n t (fun msmt =>
        for_each (imap (fun k kv => (k, kv)) results) (fun kkv =>
          match mp_labels mp !! kkv.1, mp_units mp !! kkv.1 with
          | Some l, Some u =>
              guarded_measure t msmt (fun _ r' =>
                measure_raw r' kkv.2.2 (Some kkv.2.1)
                  (Some (info_of_multi mp)) l u) ;;
              ret tt
          | _, _ => raise IndexError
          end)) ;;
      ret (MDict (prod_map id MValue <$> results))
  | MCallable node_name fn_name returns other =>
      let* m := the_session r in
      let n := callable_name nm node_name fn_name (action_indices m) in
      _verify_action r fn_name n true ;;
      let at_indices := action_indices m in
      let* done := nested_measurement_done r at_indices in
      (if done then ret tt
       else match returns with
            | None => raise (SyntaxError (ResultsMustBeDict n))
            | Some items => with_measurement n t (measure_items items)
            end) ;;
      ret (match returns with
           | Some items => MDict items
           | None => MValue other
           end)
  | MDict items =>
      match nm with
      | None => raise (SyntaxError DictNeedsName)
      | Some n =>
          if decide (n = "") then raise (SyntaxError DictNeedsName)
          else
            _verify_action r None n true ;;
            with_measurement n t (measure_items items) ;;
            ret (MDict items)
      end
  | MValue v => measure_raw r v nm parameter label unit'
  end.

(** The two measurements that [timestamp=True] adds; the wall-clock offset
    itself is not tracked. *)
Definition stamp (t : tid) (r : sid) (label : string) : M unit :=
  let* m := the_session r in
  match _t_start m with
  | None => raise TypeError
  | Some _ =>
      guarded_measure t r (fun _ r' =>
        dispatch t (MValue (RFloat 0)) (Some label) None (Some "s") None r') ;;
      skip r 1 ;;
      ret tt
  end.

Definition measure (s : sid) (x : measurable) (nm label unit' : option string)
    (timestamp : bool) (parameter : option param_info) (t : tid)
    : M measurable :=
  guarded_measure t s (fun delegated r =>
    let stamped := timestamp && negb delegated in
    (if stamped then stamp t r "T_pre" else ret tt) ;;
    let* result := dispatch t x nm label unit' parameter r in
    (if stamped then stamp t r "T_post" else ret tt) ;;
    ret result).

(** ** Sweeps *)

Definition the_sweep (w : swid) : M Sweep :=
  fun g =>
    match sweeps g !! w with
    | Some sw => (g, Return sw)
    | None => (g, Raise AttributeError)
    end.

Definition update_sweep (w : swid) (f : Sweep -> Sweep) : M unit :=
  modify (fun g => set_sweeps (alter f w (sweeps g)) g).

(** [Sweep.create_set_array], called on the running measurement [r]. *)
Definition create_set_array (r : sid) (sq : Sequence) (nm unit' : option string)
    : M DataArray :=
  let* rm := the_session r in
  match seq_parameter sq with
  | Some (_, pname) =>
      _create_data_array r (action_indices rm)
        (ResSequence (length (seq_values sq)))
        (Some (mkParamInfo pname true [] None)) true None None None
  | None =>
      _create_data_array r (action_indices rm)
        (ResSequence (length (seq_values sq)))
        None true (Some (name_or nm "iterator")) None unit'
  end.

(** [Sweep(sequence, name, unit, reverse, restore)]. *)
Definition new_sweep (sq : Sequence) (nm unit' : option string)
    (rev_ restore_ : bool) : M swid :=
  let* g := get_runtime in
  match running_measurement g with
  | None => raise (RuntimeError SweepOutsideMeasurement)
  | Some r =>
      let* rm := the_session r in
      let dim := length (loop_shape rm) in
      let* sets := set_arrays r in
      let* a :=
        match sets !! action_indices rm with
        | Some a => ret a
        | None => create_set_array r sq nm unit'
        end in
      fun g =>
        let w := fresh (dom (sweeps g)) in
        let sw := mkSweep nm unit' sq dim None None rev_ restore_
                    (da_array_id a) in
        (set_sweeps (<[w := sw]> (sweeps g)) g, Return w)
  end.

Definition __iter__ (w : swid) (t : tid) : M swid :=
  let* g := get_runtime in
  if decide (measurement_thread g = Some t) then
    let* sw := the_sweep w in
    (if restore sw then
       match seq_parameter (sequence sw) with
       | Some (p, _) =>
           let* r := running in
           let* v := param_get p in
           mask r p v [] ;; ret tt
       | None => raise NotImplementedError
       end
     else ret tt) ;;
    let values := seq_values (sequence sw) in
    let first := if reverse sw then (Z.of_nat (length values) - 1)%Z else 0%Z in
    update_sweep w (fun sw =>
      set_iterator (Some (if reverse sw then rev values else values))
        (set_loop_index (Some first) sw)) ;;
    let* r := running in
    update_session r (fun m => set_loop_shape (loop_shape m ++ [length values]) m) ;;
    let* r := running in
    update_session r (fun m => set_loop_indices (loop_indices m ++ [first]) m) ;;
    let* r := running in
    update_session r (fun m => set_action_indices (action_indices m ++ [0%Z]) m) ;;
    ret w
  else raise (RuntimeError SweepOtherThread).

(** [Sweep.exit_sweep]. *)
Definition exit_sweep {A} : M A :=
  let* msmt := running in
  step_out msmt true ;;
  raise StopIteration.

(** [Sweep.__next__]. The element written into the set array is data of the
    array and is not tracked. A sweep that was never iterated has no loop
    index to write and no iterator to advance: that is the [TypeError]. *)
Definition __next__ (w : swid) : M pyval :=
  let* msmt := running in
  let* m := the_session msmt in
  if negb (is_context_manager m)
  then raise (RuntimeError MustUseContextManager)
  else if is_stopped m then raise SystemExit
  else
    wait_while_paused msmt ;;
    let* sw := the_sweep w in
    let* m := the_session msmt in
    match loop_index sw with
    | None => raise TypeError
    | Some idx =>
        (if decide (dimension sw < length (loop_indices m))
         then update_session msmt
                (set_loop_indices (<[dimension sw := idx]> (loop_indices m)))
         else raise IndexError) ;;
        match iterator sw with
        | None => raise TypeError
        | Some [] =>
            (if restore sw then
               match seq_parameter (sequence sw) with
               | Some (p, _) => unmask msmt p None None
               | None => ret tt
               end
             else ret tt) ;;
            exit_sweep
        | Some (sweep_value :: rest) =>
            update_sweep w (set_iterator (Some rest)) ;;
            let* m := the_session msmt in
            match last_set 0 (action_indices m) with
            | None => raise IndexError
            | Some a =>
                update_session msmt (set_action_indices a) ;;
                (match seq_parameter (sequence sw) with
                 | Some (p, _) => param_set p sweep_value
                 | None => ret tt
                 end) ;;
                update_sweep w (fun sw =>
                  set_loop_index
                    ((fun i => if reverse sw then (i - 1)%Z else (i + 1)%Z)
                       <$> loop_index sw) sw) ;;
                ret sweep_value
            end
        end
    end.

(** ** Concrete states *)

(** A process in which nothing was measured yet. *)
Definition idle : Runtime := mkRuntime None None [] [] 100 None ∅ ∅ ∅ ∅ [] [].

(** [with Measurement("msmt") as msmt:], entered in thread 0. *)
Definition started : Runtime :=
  ((let* s := new_measurement "msmt" false false in
    __enter__ quiet_enter s 0) idle).1.

(** A parameter that holds 1 and accepts any value, a dictionary and an
    object, at hand while [msmt] runs. *)
Definition bench : gmap string heap_obj :=
  <["p" := HParameter (PInt 1) (fun _ => true) ∅]>
    (<["d" := HDict {["k" := PInt 2]}]>
       (<["o" := HObject {["x" := PInt 3]}]> ∅)).

Definition masking : Runtime := set_world bench started.

(** A parameter that holds [None] and accepts integers only, with a label,
    masked twice while [msmt] runs: first its label, then its value. *)
Definition strict_bench : gmap string heap_obj :=
  {["q" := HParameter PNone
             (fun v => match v with PInt _ => true | _ => false end)
             {["label" := PStr "a"]}]}.

Definition masked_twice : Runtime :=
  ((mask 0 "q" PNone [("label", PStr "b")] ;; mask 0 "q" (PInt 5) [])
     (set_world strict_bench started)).1.

(** ** Notions the properties are stated with *)

(** The registry of [m] binds the place [a] to the name [nm]. *)
Definition registered (m : Measurement) (a : list Z) (nm : string) : Prop :=
  is_Some (actions m !! a) ∧ action_names m !! a = Some nm.

(** One step of a nested action sequence, seen from the registry: the
    engine has moved the action indices to [c.1] and the action called [c.2]
    is verified there. *)
Definition visit (s : sid) (c : list Z * string) : M unit :=
  update_session s (set_action_indices c.1) ;;
  _verify_action s None c.2 true.

(** A nested action sequence, stopped by the first exception. *)
Definition run_sequence (s : sid) (cs : list (list Z * string)) : M unit :=
  for_each cs (visit s).

(** The state after any verifications, failed or not. *)
Definition after_visits (s : sid) (cs : list (list Z * string)) (g : Runtime)
    : Runtime :=
  foldl (fun g c => (visit s c g).1) g cs.

(** Every parameter accepts the value it holds: the set-contract of the
    device parameter, for the values its own get returns. *)
Definition world_ok (w : gmap string heap_obj) : Prop :=
  ∀ p v vals a, w !! p = Some (HParameter v vals a) -> vals v = true.

(** One restore of the whole-stack unmask, on the object store and the log:
    the write is made, or its failure is logged. *)
Definition attempt (s : sid) (wl : gmap string heap_obj * list log_entry)
    (r : masked_property) : gmap string heap_obj * list log_entry :=
  match w_restore r wl.1 with
  | inl w => (w, wl.2)
  | inr _ => (wl.1, wl.2 ++ [LogCouldNotUnmask s r])
  end.

(** All restores of a stack, last pushed first. *)
Definition undo_all (s : sid) (l : list masked_property)
    (wl : gmap string heap_obj * list log_entry)
    : gmap string heap_obj * list log_entry :=
  foldl (attempt s) wl (rev l).

Definition with_world_logs (wl : gmap string heap_obj * list log_entry)
    (g : Runtime) : Runtime :=
  set_logs wl.2 (set_world wl.1 g).

(** The mask records of a measurement. *)
Definition stack_of (s : sid) (g : Runtime) : list masked_property :=
  from_option _masked_properties [] (sessions g !! s).

(** A sequence of [mask] calls on one measurement, stopped by the first
    exception. *)
Definition run_masks (s : sid)
    (calls : list (ref * pyval * list (string * pyval))) : M unit :=
  for_each calls (fun c => mask s c.1.1 c.1.2 c.2 ;; ret tt).

(** A computation keeps a property of the state, whatever its outcome. *)
Definition preserves {A} (P : Runtime -> Prop) (c : M A) : Prop :=
  ∀ g, P g -> P (c g).1.

(** The records pushed on the stack of [s] since it was [l0] undo, last
    pushed first and without a failure, what was written since the object
    store was [w0]. *)
Definition mask_inv (s : sid) (w0 : gmap string heap_obj)
    (l0 : list masked_property) (g : Runtime) : Prop :=
  world_ok (world g) ∧
  ∃ m pushed,
    sessions g !! s = Some m ∧
    _masked_properties m = l0 ++ pushed ∧
    ∀ L, foldl (attempt s) (world g, L) (rev pushed) = (w0, L).

(** What no write changes of an object: its kind and, for a node, its
    parameters. *)
Definition skeleton (h : heap_obj) : nat + gmap string ref :=
  match h with
  | HParameter _ _ _ => inl 0
  | HDict _ => inl 1
  | HNode ps _ => inr ps
  | HObject _ => inl 2
  end.

(** The restores of [unmask(obj, ...)], on the object store and the log:
    they stop at the first write that fails, which is logged and raised. *)
Fixpoint undo_strict (s : sid) (l : list masked_property)
    (wl : gmap string heap_obj * list log_entry)
    : gmap string heap_obj * list log_entry * option exn :=
  match l with
  | [] => (wl, None)
  | r :: l' =>
      match w_restore r wl.1 with
      | inl w => undo_strict s l' (w, wl.2)
      | inr e => ((wl.1, wl.2 ++ [LogCouldNotUnmask s r]), Some e)
      end
  end.

(** The loop geometry of a measurement is consistent: as many extents as
    indices. *)
Definition geom_session (m : Measurement) : Prop :=
  length (loop_shape m) = length (loop_indices m).

Definition geom (g : Runtime) : Prop :=
  ∀ s m, sessions g !! s = Some m -> geom_session m.

(** Where a measurement stands: its loop geometry and its action indices. *)
Definition place (m : Measurement) : list nat * list Z * list Z :=
  (loop_shape m, loop_indices m, action_indices m).

(** The running-measurement pointer is [ptr] and the measurement [r] stands
    at [pl]. *)
Definition placed (r : sid) (pl : option (list nat * list Z * list Z))
    (ptr : option sid) (g : Runtime) : Prop :=
  running_measurement g = ptr ∧ place <$> sessions g !! r = pl.

(** A computation never raises [StopIteration]. *)
Definition no_stop {A} (c : M A) : Prop := ∀ g, (c g).2 ≠ Raise StopIteration.

(** What a measurement script does, one call at a time. *)
Inductive op :=
  | OpNew (nm : string) (fct ntf : bool)
  | OpEnter (env : enter_env) (s : sid) (t : tid)
  | OpExit (env : exit_env) (s : sid) (exc : option exn)
  | OpSweep (sq : Sequence) (nm unit' : option string) (rev_ restore_ : bool)
  | OpIter (w : swid) (t : tid)
  | OpNext (w : swid)
  | OpStepOut (s : sid) (reduce_dimension : bool)
  | OpMeasure (s : sid) (x : measurable) (nm label unit' : option string)
      (timestamp : bool) (t : tid)
  | OpSkip (s : sid) (n : Z)
  | OpRevert (s : sid) (n : Z)
  | OpMask (s : sid) (obj : ref) (val : pyval) (kwargs : list (string * pyval))
  | OpUnmask (s : sid) (obj : ref) (attr key : option string)
  | OpControl (c : control).

Definition run_op (o : op) : M unit :=
  match o with
  | OpNew nm fct ntf => new_measurement nm fct ntf ;; ret tt
  | OpEnter env s t => __enter__ env s t ;; ret tt
  | OpExit env s exc => __exit__ env s exc
  | OpSweep sq nm unit' rev_ restore_ =>
      new_sweep sq nm unit' rev_ restore_ ;; ret tt
  | OpIter w t => __iter__ w t ;; ret tt
  | OpNext w => __next__ w ;; ret tt
  | OpStepOut s reduce_dimension => step_out s reduce_dimension
  | OpMeasure s x nm label unit' timestamp t =>
      measure s x nm label unit' timestamp None t ;; ret tt
  | OpSkip s n => skip s n ;; ret tt
  | OpRevert s n => revert s n ;; ret tt
  | OpMask s obj val kwargs => mask s obj val kwargs ;; ret tt
  | OpUnmask s obj attr key => unmask s obj attr key
  | OpControl c => apply_control c
  end.

(** The states a script goes through: before its first call and after each
    call, whether the call returned, raised or is still waiting. *)
Fixpoint states_along (ops : list op) (g : Runtime) : list Runtime :=
  match ops with
  | [] => [g]
  | o :: ops' => g :: states_along ops' (run_op o g).1
  end.

(** The running-measurement pointer is [ptr]. *)
Definition pointer (ptr : option sid) (g : Runtime) : Prop :=
  running_measurement g = ptr.
(** From [g] the computation returns normally, with a value and a state
    that satisfy [Q]. *)
Definition wp {A} (c : M A) (Q : A -> Runtime -> Prop) (g : Runtime) : Prop :=
  ∃ g' a, c g = (g', Return a) ∧ Q a g'.

(** The log entries of the actions that fail. *)
Definition action_failures (s : sid) (label : string) (acts : list action)
    : list log_entry :=
  (fun a => LogActionFailed s label a) <$> filter (fun a => act_raises a = true) acts.
(** What [__exit__] keeps: the object store and the mask stacks. *)
Definition kept (w : gmap string heap_obj)
    (stacks : sid -> option (list masked_property)) (g : Runtime) : Prop :=
  world g = w ∧ ∀ s, _masked_properties <$> sessions g !! s = stacks s.

(** A measurement that was created and not entered yet. *)
Definition created : Runtime := (new_measurement "msmt" false false idle).1.

(** Collaborators that fail: [new_data] on entry, [add_metadata] on exit. *)
Definition no_new_data : enter_env := mkEnterEnv None false None false false.
Definition no_add_metadata : exit_env := mkExitEnv true false true false.

(** [with Measurement("inner") as inner:] entered in thread 0 while [msmt]
    runs, with the bench at hand. *)
Definition nested_masking : Runtime :=
  ((let* n := new_measurement "inner" false false in
    __enter__ quiet_enter n 0) masking).1.

(** The mask stack of [s], when [s] exists. *)
Definition stack_at (s : sid) (g : Runtime) : option (list masked_property) :=
  _masked_properties <$> sessions g !! s.

(** The mask stack of [n] is [l0] and what was pushed since. *)
Definition grown (n : sid) (l0 : list masked_property) (g : Runtime) : Prop :=
  ∃ pushed, stack_at n g = Some (l0 ++ pushed).

(** What the creation of an array leaves of the measurement [s]: the
    measurement apart from its dataset, its ceiling on the number of arrays,
    and the dictionary of its measured arrays. [None] when the measurement
    has no dataset or no array dictionaries yet. *)
Definition array_view (s : sid) (g : Runtime)
    : option (Measurement * nat * gmap (list Z) DataArray) :=
  match sessions g !! s with
  | Some m =>
      match dataset m, arrays_of m with
      | Some _, Some k =>
          match array_dicts g !! k with
          | Some d => Some (set_dataset None m, the_max_arrays g m, d.1)
          | None => None
          end
      | _, _ => None
      end
  | None => None
  end.

(** The array that [s] holds at a place, among its set arrays or among its
    measured arrays. *)
Definition array_at (s : sid) (setpoint : bool) (at_indices : list Z)
    (g : Runtime) : option DataArray :=
  match sessions g !! s with
  | Some m =>
      match arrays_of m with
      | Some k =>
          match array_dicts g !! k with
          | Some d => (if setpoint then d.2 else d.1) !! at_indices
          | None => None
          end
      | None => None
      end
  | None => None
  end.

(** The array of the dataset of [s] with a given identifier. *)
Definition dataset_array (s : sid) (i : array_id) (g : Runtime)
    : option DataArray :=
  match sessions g !! s with
  | Some m =>
      match dataset m with
      | Some d => ds_arrays d !! i
      | None => None
      end
  | None => None
  end.

(** The shape [_create_data_array] gives an array: the loop shape, followed
    by the shape of the result for a setpoint array and for an array result;
    [(1,)] when that is empty. *)
Definition array_shape (sh : list nat) (setpoint : bool) (res : result_value)
    : list nat :=
  match (if setpoint || is_array res then sh ++ np_shape res else sh) with
  | [] => [1]
  | l => l
  end.

(** [msmt.max_arrays = 1], then [msmt.measure(1, "x")]. *)
Definition one_measured : Runtime :=
  (measure 0 (MValue (RInt 1)) (Some "x") None None false None 0
     (update_session 0 (set_max_arrays (Some 1)) started).1).1.

(** What the dataset of [s] was last asked to store: the loop indices and
    the identifiers of the arrays. *)
Definition last_stored (s : sid) (g : Runtime)
    : option (list Z * list array_id) :=
  match sessions g !! s with
  | Some m =>
      match dataset m with
      | Some d => last (ds_stored d)
      | None => None
      end
  | None => None
  end.

(** [msmt.pause()] while [msmt] runs. *)
Definition paused : Runtime := (pause started).1.

(** [get_arrays(action_indices=None)]. In the list comprehension of the
    source the loop variable is called [action_indices] too, so the filter
    compares each key with its own first [num_indices] entries. The list that
    is returned follows the insertion order of the dictionary, which the
    dictionary of the model does not record: the selection is given as the
    sub-dictionary of the arrays returned. The argument is always a tuple
    here, so the [SyntaxError] for other arguments has no counterpart. *)
Definition get_arrays (s : sid) (at_indices : option (list Z))
    : M (gmap (list Z) DataArray) :=
  let* m := the_session s in
  let at_indices := default (action_indices m) at_indices in
  let num_indices := length at_indices in
  let* darrs := data_arrays s in
  ret (filter (fun ka => take num_indices ka.1 = ka.1) darrs).

(** [for k in Sweep(range(3), "k"):] at the start of [msmt], before the
    first step: the sweep was created and [iter] was called on it. *)
Definition three_values : Sequence :=
  mkSequence [PInt 0; PInt 1; PInt 2] None.

Definition sweeping : Runtime :=
  ((let* w := new_sweep three_values (Some "k") None false false in
    __iter__ w 0) started).1.

(** The states that differ from [g0] in their measurements and array
    dictionaries at most. *)
Definition beside_arrays (g0 g : Runtime) : Prop :=
  set_array_dicts (array_dicts g0) (set_sessions (sessions g0) g) = g0.

(** From [g] the computation ends with an outcome and a state that satisfy
    [Q]. *)
Definition wpo {A} (c : M A) (Q : outcome A -> Runtime -> Prop) (g : Runtime)
    : Prop :=
  Q (c g).2 (c g).1.

(** [list(sweep)] through the iterator protocol: [iter], then [next] until
    [StopIteration]. [fuel] bounds the number of calls of [next]; a list that
    is not complete by then is still being built. *)
Fixpoint next_values (fuel : nat) (w : swid) : M (list pyval) :=
  match fuel with
  | 0 => waiting
  | S f =>
      fun g =>
        match __next__ w g with
        | (g', Return v) => (let* vs := next_values f w in ret (v :: vs)) g'
        | (g', Raise e) =>
            match e with
            | StopIteration => (g', Return [])
            | _ => (g', Raise e)
            end
        | (g', Waiting) => (g', Waiting)
        end
  end.

Definition list_of_sweep (fuel : nat) (w : swid) (t : tid) : M (list pyval) :=
  __iter__ w t ;; next_values fuel w.

(** The states that differ from [g0] in their measurements and sweeps at
    most, and there in the measurement [r] and the sweep [w] only. *)
Definition beside_sweep (r : sid) (w : swid) (g0 g : Runtime) : Prop :=
  set_sweeps (sweeps g0) (set_sessions (sessions g0) g) = g0 ∧
  (∀ z, z ≠ r -> sessions g !! z = sessions g0 !! z) ∧
  (∀ z, z ≠ w -> sweeps g !! z = sweeps g0 !! z).

(** The sweep [w] of the measurement [r], which stood at [mr] when the sweep
    began in [g0], has [rest] to go; the next loop index is [idx], and the
    last one written is [j]. *)
Definition sweep_going (r : sid) (w : swid) (g0 : Runtime) (mr : Measurement)
    (sw : Sweep) (a : list Z) (x : Z) (rest : list pyval) (idx j : Z)
    (g : Runtime) : Prop :=
  running_measurement g = Some r ∧
  sessions g !! r =
    Some (set_action_indices (a ++ [x; 0%Z])
            (set_loop_indices (loop_indices mr ++ [j])
               (set_loop_shape
                  (loop_shape mr ++ [length (seq_values (sequence sw))]) mr))) ∧
  sweeps g !! w = Some (set_iterator (Some rest) (set_loop_index (Some idx) sw)) ∧
  beside_sweep r w g0 g.

(** The sweep is over: the measurement is back where it stood, one action
    index further. *)
Definition sweep_over (r : sid) (w : swid) (g0 : Runtime) (mr : Measurement)
    (sw : Sweep) (a : list Z) (x : Z) (idx : Z) (g : Runtime) : Prop :=
  running_measurement g = Some r ∧
  sessions g !! r = Some (set_action_indices (a ++ [(x + 1)%Z]) mr) ∧
  sweeps g !! w = Some (set_iterator (Some []) (set_loop_index (Some idx) sw)) ∧
  beside_sweep r w g0 g.

(** * Properties *)

(** ** The monad *)

Lemma bind_Return {A B} (c : M A) (k : A -> M B) g g' a :
  c g = (g', Return a) -> bind c k g = k a g'.
Proof. intros H. unfold bind. by rewrite H. Qed.

Lemma bind_Raise {A B} (c : M A) (k : A -> M B) g g' e :
  c g = (g', Raise e) -> bind c k g = (g', Raise e).
Proof. intros H. unfold bind. by rewrite H. Qed.

Lemma bind_Waiting {A B} (c : M A) (k : A -> M B) g g' :
  c g = (g', Waiting) -> bind c k g = (g', Waiting).
Proof. intros H. unfold bind. by rewrite H. Qed.

Lemma the_session_Some s g m :
  sessions g !! s = Some m -> the_session s g = (g, Return m).
Proof. intros H. unfold the_session. by rewrite H. Qed.

Lemma running_Some g r :
  running_measurement g = Some r -> running g = (g, Return r).
Proof. intros H. unfold running. by rewrite H. Qed.

(** ** Action indices *)

Lemma last_add_app n a x : last_add n (a ++ [x]) = Some (a ++ [(x + n)%Z]).
Proof. unfold last_add. rewrite rev_app_distr. simpl. by rewrite rev_involutive. Qed.

Lemma last_add_nil n : last_add n [] = None.
Proof. done. Qed.

Lemma last_add_length n l l' : last_add n l = Some l' -> length l' = length l.
Proof.
  destruct l as [|y l _] using rev_ind; [done|].
  rewrite last_add_app. intros [= <-]. by rewrite !length_app.
Qed.

Lemma shift_action_indices_spec g r m a x n :
  sessions g !! r = Some m ->
  action_indices m = a ++ [x] ->
  shift_action_indices r n g =
    (set_sessions (alter (set_action_indices (a ++ [(x + n)%Z])) r (sessions g)) g,
     Return (a ++ [(x + n)%Z])).
Proof.
  intros Hm Ha. unfold shift_action_indices.
  rewrite (bind_Return _ _ _ _ _ (the_session_Some _ _ _ Hm)).
  by rewrite Ha, last_add_app.
Qed.

Lemma skip_running g s r n :
  running_measurement g = Some r ->
  skip s n g = shift_action_indices r n g.
Proof.
  intros Hr. unfold skip. case_decide as Hs.
  - by simplify_eq.
  - by rewrite (bind_Return _ _ _ _ _ (running_Some _ _ Hr)).
Qed.

Lemma revert_running g s r n :
  running_measurement g = Some r ->
  revert s n g = shift_action_indices r (- n) g.
Proof.
  intros Hr. unfold revert. case_decide as Hs.
  - by simplify_eq.
  - by rewrite (bind_Return _ _ _ _ _ (running_Some _ _ Hr)).
Qed.

(** C8, as the claim states it, fails: [skip] is not a pure function of an
    address. It takes no address; it moves the action indices of the running
    measurement, here from [(0,)] to [(1,)], so the state after the call is
    not the state before it. *)
Lemma skip_is_not_pure :
  (action_indices <$> sessions started !! 0 = Some [0%Z]) ∧
  (skip 0 1 started).2 = Return [1%Z] ∧
  (action_indices <$> sessions (skip 0 1 started).1 !! 0 = Some [1%Z]) ∧
  (skip 0 1 started).1 ≠ started.
Proof.
  split_and!; try (vm_compute; reflexivity).
  intros H.
  apply (f_equal (fun g => action_indices <$> sessions g !! 0)) in H.
  vm_compute in H. discriminate.
Qed.

(** C8, amended: [skip(N)] and [revert(N)], called on any measurement, act on
    the running one: its current action indices [a ++ [x]] become
    [a ++ [x + N]] (respectively [a ++ [x - N]]), the new indices are
    returned, and nothing else in the process changes. *)
Theorem skip_revert_move_the_running_indices g s r m a x n :
  running_measurement g = Some r ->
  sessions g !! r = Some m ->
  action_indices m = a ++ [x] ->
  skip s n g =
    (set_sessions (alter (set_action_indices (a ++ [(x + n)%Z])) r (sessions g)) g,
     Return (a ++ [(x + n)%Z])) ∧
  revert s n g =
    (set_sessions (alter (set_action_indices (a ++ [(x - n)%Z])) r (sessions g)) g,
     Return (a ++ [(x - n)%Z])).
Proof.
  intros Hr Hm Ha. split.
  - rewrite (skip_running _ _ _ _ Hr).
    by apply (shift_action_indices_spec _ _ m).
  - rewrite (revert_running _ _ _ _ Hr).
    by rewrite (shift_action_indices_spec _ _ _ _ _ _ Hm Ha).
Qed.

Lemma skip_revert_witness :
  (skip 0 2 started).2 = Return [2%Z] ∧ (revert 0 2 started).2 = Return [(-2)%Z].
Proof.
  destruct (skip_revert_move_the_running_indices started 0 0
              (mkMeasurement "msmt"
                 (Some (mkDataSet "" true ∅ ["config"; "measurement_type"] 1 []
                          false false))
                 [] [] [0%Z] ∅ ∅ ∅ true false false false false [] [] []
                 (Some 0) None None)
              [] 0%Z 2%Z) as [H1 H2].
  - vm_compute. reflexivity.
  - vm_compute. reflexivity.
  - reflexivity.
  - rewrite H1, H2. split; reflexivity.
Defined.

(** ** The registry of actions *)

Lemma update_session_lookup s f g :
  sessions (update_session s f g).1 !! s = f <$> sessions g !! s.
Proof. simpl. apply lookup_alter_eq. Qed.

Lemma verify_action_fresh g s m act nm :
  sessions g !! s = Some m ->
  actions m !! action_indices m = None ->
  _verify_action s act nm true g =
    (set_sessions (alter (register_action act nm) s (sessions g)) g, Return tt).
Proof.
  intros Hm Hnone. unfold _verify_action.
  rewrite (bind_Return _ _ _ _ _ (the_session_Some _ _ _ Hm)).
  by rewrite Hnone.
Qed.

Lemma verify_action_registered g s m act nm nm' b :
  sessions g !! s = Some m ->
  registered m (action_indices m) nm ->
  _verify_action s act nm' b g =
    (g, if decide (nm' = nm) then Return tt
        else Raise (RuntimeError (WrongMeasurement (action_indices m) nm nm'))).
Proof.
  intros Hm [[x Hx] Hn]. unfold _verify_action.
  rewrite (bind_Return _ _ _ _ _ (the_session_Some _ _ _ Hm)).
  rewrite Hx, Hn. by case_decide.
Qed.

Lemma register_action_keeps act nm' m a nm :
  actions m !! action_indices m = None ->
  registered m a nm ->
  registered (register_action act nm' m) a nm.
Proof.
  intros Hnone [[x Hx] Hn].
  assert (action_indices m ≠ a) as Hne
    by (intros Heq; rewrite Heq in Hnone; congruence).
  split; simpl.
  - rewrite lookup_insert_ne by done. eauto.
  - by rewrite lookup_insert_ne.
Qed.

Lemma verify_action_keeps g s m act nm' b a nm :
  sessions g !! s = Some m ->
  registered m a nm ->
  ∃ m', sessions (_verify_action s act nm' b g).1 !! s = Some m' ∧
        registered m' a nm ∧ action_indices m' = action_indices m.
Proof.
  intros Hm Hreg. unfold _verify_action.
  rewrite (bind_Return _ _ _ _ _ (the_session_Some _ _ _ Hm)).
  destruct (actions m !! action_indices m) as [x|] eqn:Hx.
  - destruct (action_names m !! action_indices m) as [e|]; [case_decide|];
      simpl; eauto.
  - destruct b; simpl; [|by eauto].
    rewrite lookup_alter_eq, Hm. simpl. eexists. split; [done|].
    split; [by apply register_action_keeps|done].
Qed.

Lemma visit_keeps g s m c a nm :
  sessions g !! s = Some m ->
  registered m a nm ->
  ∃ m', sessions (visit s c g).1 !! s = Some m' ∧ registered m' a nm.
Proof.
  intros Hm Hreg. unfold visit, bind at 1. simpl.
  set (g1 := set_sessions _ g).
  assert (sessions g1 !! s = Some (set_action_indices c.1 m)) as Hm1.
  { subst g1. simpl. by rewrite lookup_alter_eq, Hm. }
  destruct (verify_action_keeps g1 s _ None c.2 true a nm Hm1) as (m' & ? & ? & ?);
    [done|eauto].
Qed.

Lemma after_visits_keep s cs : ∀ g m a nm,
  sessions g !! s = Some m ->
  registered m a nm ->
  ∃ m', sessions (after_visits s cs g) !! s = Some m' ∧ registered m' a nm.
Proof.
  induction cs as [|c cs IH]; intros g m a nm Hm Hreg; simpl; [by eauto|].
  destruct (visit_keeps g s m c a nm Hm Hreg) as (m1 & Hm1 & Hreg1).
  by apply (IH _ m1).
Qed.

Lemma visit_registered g s m a nm nm' :
  sessions g !! s = Some m ->
  registered m a nm ->
  visit s (a, nm') g =
    (set_sessions (alter (set_action_indices a) s (sessions g)) g,
     if decide (nm' = nm) then Return tt
     else Raise (RuntimeError (WrongMeasurement a nm nm'))).
Proof.
  intros Hm Hreg. unfold visit, bind at 1. simpl.
  set (g1 := set_sessions _ g).
  assert (sessions g1 !! s = Some (set_action_indices a m)) as Hm1.
  { subst g1. simpl. by rewrite lookup_alter_eq, Hm. }
  by rewrite (verify_action_registered g1 s _ None nm nm' true Hm1).
Qed.

Lemma visit_Return_registers g s m c g1 :
  sessions g !! s = Some m ->
  visit s c g = (g1, Return tt) ->
  ∃ m1, sessions g1 !! s = Some m1 ∧ registered m1 c.1 c.2.
Proof.
  intros Hm. unfold visit, bind at 1. simpl.
  set (g0 := set_sessions _ g).
  assert (sessions g0 !! s = Some (set_action_indices c.1 m)) as Hm0.
  { subst g0. simpl. by rewrite lookup_alter_eq, Hm. }
  unfold _verify_action.
  rewrite (bind_Return _ _ _ _ _ (the_session_Some _ _ _ Hm0)). simpl.
  destruct (actions m !! c.1) as [x|] eqn:Hx.
  - destruct (action_names m !! c.1) as [e|] eqn:He; [|done].
    case_decide; [|done]. intros [= <-]. subst e.
    eexists. split; [done|]. split; simpl; eauto.
  - unfold update_session, modify. intros [= <-]. simpl.
    rewrite !lookup_alter_eq, Hm. simpl.
    eexists. split; [done|]. split; simpl; by rewrite lookup_insert_eq.
Qed.

Lemma run_sequence_keeps s a nm cs : ∀ g m g1,
  sessions g !! s = Some m ->
  registered m a nm ->
  run_sequence s cs g = (g1, Return tt) ->
  ∃ m1, sessions g1 !! s = Some m1 ∧ registered m1 a nm.
Proof.
  induction cs as [|c cs IH]; intros g m g1 Hm Hreg Hrun.
  - injection Hrun as <-. eauto.
  - unfold run_sequence in Hrun. simpl in Hrun. unfold bind in Hrun.
    destruct (visit s c g) as [g' [[]| |]] eqn:Hv; [|done..].
    destruct (visit_keeps g s m c _ _ Hm Hreg) as (m' & Hm' & Hreg').
    rewrite Hv in Hm'. by apply (IH g' m').
Qed.

Lemma run_sequence_registers s cs : ∀ g m g1,
  sessions g !! s = Some m ->
  run_sequence s cs g = (g1, Return tt) ->
  ∀ a nm, (a, nm) ∈ cs ->
    ∃ m1, sessions g1 !! s = Some m1 ∧ registered m1 a nm.
Proof.
  induction cs as [|c cs IH]; intros g m g1 Hm Hrun a nm Hin; [by inv Hin|].
  unfold run_sequence in Hrun. simpl in Hrun. unfold bind in Hrun.
  destruct (visit s c g) as [g' [[]| |]] eqn:Hv; [|done..].
  destruct (visit_Return_registers g s m c g' Hm Hv) as (m' & Hm' & Hreg').
  apply elem_of_cons in Hin as [Heq|Hin].
  - subst c. by apply (run_sequence_keeps s a nm cs g' m').
  - by apply (IH g' m' g1).
Qed.

Lemma run_sequence_again s cs : ∀ g m,
  sessions g !! s = Some m ->
  (∀ a nm, (a, nm) ∈ cs -> registered m a nm) ->
  ∃ g', run_sequence s cs g = (g', Return tt).
Proof.
  induction cs as [|[a nm] cs IH]; intros g m Hm Hall; [by eexists|].
  unfold run_sequence. simpl. unfold bind.
  rewrite (visit_registered g s m a nm nm Hm) by (apply Hall; left).
  rewrite decide_True by done.
  apply (IH _ (set_action_indices a m)).
  - simpl. by rewrite lookup_alter_eq, Hm.
  - intros a' nm' Hin. apply Hall. by right.
Qed.

(** C2: the first action verified at an address registers [(address, name)];
    after any further verifications, a verification at that address succeeds
    with the same name and fails with [RuntimeError("Wrong measurement at
    action_indices ... Expected: ... Received: ...")], naming both, with any
    other name; and a nested action sequence that ran once runs again. *)
Theorem verify_action_registers_then_checks g s m act nm :
  sessions g !! s = Some m ->
  actions m !! action_indices m = None ->
  ∃ g1,
    _verify_action s act nm true g = (g1, Return tt) ∧
    (∃ m1, sessions g1 !! s = Some m1 ∧ registered m1 (action_indices m) nm) ∧
    (∀ later nm',
       (visit s (action_indices m, nm') (after_visits s later g1)).2 =
         if decide (nm' = nm) then Return tt
         else Raise (RuntimeError (WrongMeasurement (action_indices m) nm nm'))) ∧
    (∀ cs g' g'',
       is_Some (sessions g' !! s) ->
       run_sequence s cs g' = (g'', Return tt) ->
       ∃ g3, run_sequence s cs g'' = (g3, Return tt)).
Proof.
  intros Hm Hnone. eexists. split; [by apply (verify_action_fresh g s m)|].
  assert (∃ m1, sessions (set_sessions (alter (register_action act nm) s
                  (sessions g)) g) !! s = Some m1 ∧
                registered m1 (action_indices m) nm) as (m1 & Hm1 & Hreg1).
  { simpl. rewrite lookup_alter_eq, Hm. simpl. eexists. split; [done|].
    split; simpl; by rewrite lookup_insert_eq. }
  split; [by eauto|]. split.
  - intros later nm'.
    destruct (after_visits_keep s later _ m1 _ _ Hm1 Hreg1) as (m2 & Hm2 & Hreg2).
    by rewrite (visit_registered _ s m2 _ nm nm' Hm2 Hreg2).
  - intros cs g' g'' [m' Hm'] Hrun.
    destruct cs as [|[a0 n0] cs]; [by eexists|].
    destruct (run_sequence_registers s _ g' m' g'' Hm' Hrun a0 n0) as (m'' & Hm'' & _);
      [by left|].
    apply (run_sequence_again s _ g'' m'' Hm'').
    intros a1 n1 Hin.
    destruct (run_sequence_registers s _ g' m' g'' Hm' Hrun a1 n1 Hin)
      as (m3 & Hm3 & Hreg3).
    by simplify_eq.
Qed.

Lemma verify_action_witness :
  ∃ g1,
    _verify_action 0 None "y" true started = (g1, Return tt) ∧
    (visit 0 ([0%Z], "y") g1).2 = Return tt ∧
    (visit 0 ([0%Z], "z") g1).2 =
      Raise (RuntimeError (WrongMeasurement [0%Z] "y" "z")).
Proof.
  destruct (verify_action_registers_then_checks started 0
              (mkMeasurement "msmt"
                 (Some (mkDataSet "" true ∅ ["config"; "measurement_type"] 1 []
                          false false))
                 [] [] [0%Z] ∅ ∅ ∅ true false false false false [] [] []
                 (Some 0) None None)
              None "y") as (g1 & Hrun & _ & Hlater & _).
  - vm_compute. reflexivity.
  - vm_compute. reflexivity.
  - exists g1. split; [exact Hrun|]. split.
    + exact (Hlater [] "y").
    + exact (Hlater [] "z").
Defined.

(** ** Preservation of a property of the state *)

Section Preserves.
Context (P : Runtime -> Prop).

Lemma preserves_ret {A} (a : A) : preserves P (ret a).
Proof. by intros g. Qed.

Lemma preserves_raise {A} e : preserves P (@raise A e).
Proof. by intros g. Qed.

Lemma preserves_bind {A B} (c : M A) (k : A -> M B) :
  preserves P c -> (∀ a, preserves P (k a)) -> preserves P (bind c k).
Proof.
  intros Hc Hk g HP. unfold bind. specialize (Hc g HP).
  destruct (c g) as [g' [a|e|]]; simpl in *; [by apply Hk|done..].
Qed.

Lemma preserves_try_except {A} (c : M A) h :
  preserves P c -> (∀ e, preserves P (h e)) -> preserves P (try_except c h).
Proof.
  intros Hc Hh g HP. unfold try_except. specialize (Hc g HP).
  destruct (c g) as [g' [a|e|]]; simpl in *; [done| |done].
  destruct (is_Exception e); [by apply Hh|done].
Qed.

Lemma preserves_try_bare {A} (c : M A) h :
  preserves P c -> (∀ e, preserves P (h e)) -> preserves P (try_bare c h).
Proof.
  intros Hc Hh g HP. unfold try_bare. specialize (Hc g HP).
  destruct (c g) as [g' [a|e|]]; simpl in *; [done|by apply Hh|done].
Qed.

Lemma preserves_for_each {A} (l : list A) body :
  (∀ x, preserves P (body x)) -> preserves P (for_each l body).
Proof.
  intros Hb. induction l as [|x l IH]; simpl; [apply preserves_ret|].
  apply preserves_bind; [done|by intros _].
Qed.

Lemma preserves_collect {A B} (l : list A) (f : A -> M B) :
  (∀ x, preserves P (f x)) -> preserves P (collect l f).
Proof.
  intros Hf. induction l as [|x l IH]; simpl; [apply preserves_ret|].
  apply preserves_bind; [done|intros y].
  apply preserves_bind; [done|intros ys]. apply preserves_ret.
Qed.

Lemma preserves_modify f :
  (∀ g, P g -> P (f g)) -> preserves P (modify f).
Proof. intros Hf g HP. by apply Hf. Qed.

Lemma preserves_read {A} (c : M A) :
  (∀ g, (c g).1 = g) -> preserves P c.
Proof. intros Hc g HP. by rewrite Hc. Qed.

(** A computation chosen from the state it starts in. *)
Lemma preserves_from_state {A} (c : Runtime -> M A) :
  (∀ g0, preserves P (c g0)) -> preserves P (fun g => c g g).
Proof. intros Hc g HP. by apply Hc. Qed.
End Preserves.

Lemma the_session_state s g : (the_session s g).1 = g.
Proof. unfold the_session. by destruct (sessions g !! s). Qed.

Lemma running_state g : (running g).1 = g.
Proof. unfold running. by destruct (running_measurement g). Qed.

Lemma get_runtime_state g : (get_runtime g).1 = g.
Proof. done. Qed.

Lemma read_world_state {A} (f : gmap string heap_obj -> A + exn) g :
  (read_world f g).1 = g.
Proof. unfold read_world. by destruct (f (world g)). Qed.

Lemma the_object_state o g : (the_object o g).1 = g.
Proof. unfold the_object. by destruct (world g !! o). Qed.

(** ** Unmasking the whole stack *)

Lemma w_param_set_Exception p v w e :
  w_param_set p v w = inr e -> is_Exception e = true.
Proof.
  unfold w_param_set. intros H.
  repeat case_match; by simplify_eq.
Qed.

Lemma w_restore_Exception r w e :
  w_restore r w = inr e -> is_Exception e = true.
Proof.
  unfold w_restore, w_setitem, w_setattr. intros H.
  repeat case_match; simplify_eq; try done; by eapply w_param_set_Exception.
Qed.

Lemma unmask_property_false s r g :
  unmask_property s r false g =
    (with_world_logs (attempt s (world g, logs g) r) g, Return tt).
Proof.
  unfold unmask_property, try_except, restore_write, write_world, attempt.
  simpl. destruct (w_restore r (world g)) as [w|e] eqn:Hr; [done|].
  by rewrite (w_restore_Exception _ _ _ Hr).
Qed.

Lemma with_world_logs_twice wl wl' g :
  with_world_logs wl (with_world_logs wl' g) = with_world_logs wl g.
Proof. done. Qed.

Lemma for_each_unmask_false s l : ∀ g,
  for_each l (fun r => unmask_property s r false) g =
    (with_world_logs (foldl (attempt s) (world g, logs g) l) g, Return tt).
Proof.
  induction l as [|r l IH]; intros g; simpl.
  - by destruct g.
  - unfold bind. rewrite unmask_property_false. rewrite IH.
    rewrite with_world_logs_twice. simpl.
    by destruct (attempt s (world g, logs g) r).
Qed.

Lemma unmask_all_spec g s m :
  sessions g !! s = Some m ->
  unmask_all s g =
    (set_sessions (alter (set_masked_properties []) s (sessions g))
       (with_world_logs (undo_all s (_masked_properties m) (world g, logs g)) g),
     Return tt).
Proof.
  intros Hm. unfold unmask_all.
  rewrite (bind_Return _ _ _ _ _ (the_session_Some _ _ _ Hm)).
  unfold bind. by rewrite for_each_unmask_false.
Qed.

(** ** Masking, then unmasking *)

Lemma world_ok_insert w o h :
  world_ok w ->
  (∀ v vals a, h = HParameter v vals a -> vals v = true) ->
  world_ok (<[o := h]> w).
Proof.
  intros Hw Hh p v vals a. destruct (decide (o = p)) as [->|Hne].
  - rewrite lookup_insert_eq. intros [= ->]. by eapply Hh.
  - rewrite lookup_insert_ne by done. apply Hw.
Qed.

Lemma insert_back (w : gmap string heap_obj) o h h' :
  w !! o = Some h -> <[o := h]> (<[o := h']> w) = w.
Proof. intros H. by rewrite insert_insert_eq, insert_id. Qed.

Lemma insert_back_val (d : gmap string pyval) k v v' :
  d !! k = Some v -> <[k := v]> (<[k := v']> d) = d.
Proof. intros H. by rewrite insert_insert_eq, insert_id. Qed.

Lemma w_param_roundtrip w p v0 v w' :
  world_ok w ->
  w_param_get p w = inl v0 ->
  w_param_set p v w = inl w' ->
  world_ok w' ∧ w_param_set p v0 w' = inl w.
Proof.
  unfold w_param_get, w_param_set. intros Hw Hget Hset.
  destruct (w !! p) as [[l vals a| | |]|] eqn:Hp; simplify_eq.
  destruct (vals v) eqn:Hv; simplify_eq. split.
  - apply world_ok_insert; [done|]. intros ??? [= <- <- <-]. done.
  - rewrite lookup_insert_eq. rewrite (Hw _ _ _ _ Hp). by rewrite insert_back.
Qed.

Lemma w_item_roundtrip w o k v0 v w' :
  world_ok w ->
  w_getitem o k w = inl v0 ->
  w_setitem o k v w = inl w' ->
  world_ok w' ∧ w_setitem o k v0 w' = inl w.
Proof.
  unfold w_getitem, w_setitem. intros Hw Hget Hset.
  destruct (w !! o) as [[| d | |]|] eqn:Ho; simplify_eq.
  destruct (d !! k) as [x|] eqn:Hk; simplify_eq. split.
  - apply world_ok_insert; [done|]. by intros ??? [=].
  - rewrite lookup_insert_eq. by rewrite insert_back_val, insert_back.
Qed.

Lemma w_attr_roundtrip w o attr v0 v w' :
  world_ok w ->
  (∀ ps a, w !! o = Some (HNode ps a) -> ps !! attr = None) ->
  w_getattr o attr w = inl v0 ->
  w_setattr o attr v w = inl w' ->
  world_ok w' ∧ w_setattr o attr v0 w' = inl w.
Proof.
  unfold w_getattr, w_setattr. intros Hw Hnode Hget Hset.
  destruct (w !! o) as [[l vals a| d | ps a | a]|] eqn:Ho; simplify_eq.
  - destruct (a !! attr) as [x|] eqn:Hk; simplify_eq. split.
    + apply world_ok_insert; [done|]. intros ??? [= <- <- <-]. by eapply Hw.
    + rewrite lookup_insert_eq. by rewrite insert_back_val, insert_back.
  - rewrite (Hnode _ _ eq_refl) in Hset. simplify_eq.
    destruct (a !! attr) as [x|] eqn:Hk; simplify_eq. split.
    + apply world_ok_insert; [done|]. by intros ??? [=].
    + rewrite lookup_insert_eq, (Hnode _ _ eq_refl).
      by rewrite insert_back_val, insert_back.
  - destruct (a !! attr) as [x|] eqn:Hk; simplify_eq. split.
    + apply world_ok_insert; [done|]. by intros ??? [=].
    + rewrite lookup_insert_eq. by rewrite insert_back_val, insert_back.
Qed.

Lemma mask_inv_push s w0 l0 g w' r :
  mask_inv s w0 l0 g ->
  world_ok w' ->
  w_restore r w' = inl (world g) ->
  mask_inv s w0 l0 (push_masked s r (set_world w' g)).1.
Proof.
  intros (Hw & m & pushed & Hm & Hl & Hundo) Hw' Hr. split; [done|].
  exists (set_masked_properties (_masked_properties m ++ [r]) m), (pushed ++ [r]).
  split; [|split].
  - simpl. by rewrite lookup_alter_eq, Hm.
  - simpl. by rewrite Hl, app_assoc.
  - intros L. rewrite rev_app_distr. simpl. unfold attempt at 2. simpl.
    rewrite Hr. apply Hundo.
Qed.

Lemma _mask_parameter_inv s w0 l0 p v :
  preserves (mask_inv s w0 l0) (_mask_parameter s p v).
Proof.
  intros g Hinv. unfold _mask_parameter, param_get, param_set, bind,
    read_world, write_world.
  destruct (w_param_get p (world g)) as [v0|e] eqn:Hget; [|done].
  destruct (w_param_set p v (world g)) as [w'|e] eqn:Hset; [|done].
  destruct (w_param_roundtrip _ _ _ _ _ (proj1 Hinv) Hget Hset) as [Hw' Hback].
  pose proof (mask_inv_push s w0 l0 g w' (mkMasked (TParameter p) v0 v)
                Hinv Hw' Hback) as H.
  by destruct (push_masked _ _ _) as [g' [[]| |]].
Qed.

Lemma _mask_key_inv s w0 l0 o k v :
  preserves (mask_inv s w0 l0) (_mask_key s o k v).
Proof.
  intros g Hinv. unfold _mask_key, py_getitem, py_setitem, bind,
    read_world, write_world.
  destruct (w_getitem o k (world g)) as [v0|e] eqn:Hget; [|done].
  destruct (w_setitem o k v (world g)) as [w'|e] eqn:Hset; [|done].
  destruct (w_item_roundtrip _ _ _ _ _ _ (proj1 Hinv) Hget Hset) as [Hw' Hback].
  pose proof (mask_inv_push s w0 l0 g w' (mkMasked (TKey o k) v0 v)
                Hinv Hw' Hback) as H.
  by destruct (push_masked _ _ _) as [g' [[]| |]].
Qed.

Lemma _mask_attr_inv s w0 l0 o attr v g :
  (∀ ps a, world g !! o = Some (HNode ps a) -> ps !! attr = None) ->
  mask_inv s w0 l0 g ->
  mask_inv s w0 l0 (_mask_attr s o attr v g).1.
Proof.
  intros Hnode Hinv. unfold _mask_attr, py_getattr, py_setattr, bind,
    read_world, write_world.
  destruct (w_getattr o attr (world g)) as [v0|e] eqn:Hget; [|done].
  destruct (w_setattr o attr v (world g)) as [w'|e] eqn:Hset; [|done].
  destruct (w_attr_roundtrip _ _ _ _ _ _ (proj1 Hinv) Hnode Hget Hset)
    as [Hw' Hback].
  pose proof (mask_inv_push s w0 l0 g w' (mkMasked (TAttr o attr) v0 v)
                Hinv Hw' Hback) as H.
  by destruct (push_masked _ _ _) as [g' [[]| |]].
Qed.

Lemma w_param_set_skeleton p v w w' x :
  w_param_set p v w = inl w' -> skeleton <$> w' !! x = skeleton <$> w !! x.
Proof.
  unfold w_param_set. intros H.
  destruct (w !! p) as [[l vals a| | |]|] eqn:Hp; simplify_eq.
  destruct (vals v); simplify_eq.
  destruct (decide (p = x)) as [->|Hne].
  - by rewrite lookup_insert_eq, Hp.
  - by rewrite lookup_insert_ne.
Qed.

Lemma w_setitem_skeleton o k v w w' x :
  w_setitem o k v w = inl w' -> skeleton <$> w' !! x = skeleton <$> w !! x.
Proof.
  unfold w_setitem. intros H.
  destruct (w !! o) as [[| d | |]|] eqn:Hp; simplify_eq.
  destruct (decide (o = x)) as [->|Hne].
  - by rewrite lookup_insert_eq, Hp.
  - by rewrite lookup_insert_ne.
Qed.

Lemma w_setattr_skeleton o attr v w w' x :
  w_setattr o attr v w = inl w' -> skeleton <$> w' !! x = skeleton <$> w !! x.
Proof.
  unfold w_setattr. intros H.
  destruct (w !! o) as [[l vals a| d | ps a | a]|] eqn:Hp; simplify_eq.
  - destruct (decide (o = x)) as [->|Hne].
    + by rewrite lookup_insert_eq, Hp.
    + by rewrite lookup_insert_ne.
  - destruct (ps !! attr); [by eapply w_param_set_skeleton|]. simplify_eq.
    destruct (decide (o = x)) as [->|Hne].
    + by rewrite lookup_insert_eq, Hp.
    + by rewrite lookup_insert_ne.
  - destruct (decide (o = x)) as [->|Hne].
    + by rewrite lookup_insert_eq, Hp.
    + by rewrite lookup_insert_ne.
Qed.

Lemma _mask_attr_skeleton s o attr v x K :
  preserves (fun g => skeleton <$> world g !! x = K) (_mask_attr s o attr v).
Proof.
  intros g HK. unfold _mask_attr, py_getattr, py_setattr, bind,
    read_world, write_world.
  destruct (w_getattr o attr (world g)) as [v0|e] eqn:Hget; [|done].
  destruct (w_setattr o attr v (world g)) as [w'|e] eqn:Hset; [|done].
  simpl. by rewrite (w_setattr_skeleton _ _ _ _ _ x Hset).
Qed.

Lemma _mask_attr_plain_inv s w0 l0 o attr v K :
  preserves (fun g => mask_inv s w0 l0 g ∧ skeleton <$> world g !! o = Some (inl K))
    (_mask_attr s o attr v).
Proof.
  intros g [Hinv HK]. split; [|by apply _mask_attr_skeleton].
  apply _mask_attr_inv; [|done]. intros ps a Hn. by rewrite Hn in HK.
Qed.

Lemma mask_inv_preserved s w0 l0 obj val kwargs :
  preserves (mask_inv s w0 l0) (mask s obj val kwargs).
Proof.
  intros g Hinv. unfold mask, bind at 1, the_object.
  destruct (world g !! obj) as [h|] eqn:Hobj; [|done].
  destruct h as [l vals a| d | ps a | a].
  - destruct kwargs as [|kv kwargs].
    + apply (preserves_bind (mask_inv s w0 l0)); [apply _mask_parameter_inv| |done].
      intros ?. apply preserves_ret.
    + eapply (preserves_collect _ _ _
                (fun x => _mask_attr_plain_inv s w0 l0 obj x.1 x.2 0)).
      split; [done|by rewrite Hobj].
  - destruct kwargs as [|kv kwargs]; [done|].
    apply (preserves_collect (mask_inv s w0 l0)); [|done].
    intros x. apply _mask_key_inv.
  - case_decide; [|done].
    apply (preserves_collect (mask_inv s w0 l0)); [|done].
    intros x g' Hg'. unfold bind at 1, the_object.
    destruct (world g' !! obj) as [h|] eqn:Hobj'; [|done].
    destruct h as [| | ps' a' |];
      try (apply _mask_attr_inv; [by intros ?? Hn; rewrite Hobj' in Hn|done]).
    destruct (ps' !! x.1) as [p|] eqn:Hp.
    + by apply _mask_parameter_inv.
    + apply _mask_attr_inv; [|done].
      intros ?? Hn. rewrite Hobj' in Hn. by simplify_eq.
  - destruct kwargs as [|kv kwargs]; [done|].
    eapply (preserves_collect _ _ _
              (fun x => _mask_attr_plain_inv s w0 l0 obj x.1 x.2 2)).
    split; [done|by rewrite Hobj].
Qed.

Lemma run_masks_inv s w0 l0 calls :
  preserves (mask_inv s w0 l0) (run_masks s calls).
Proof.
  apply preserves_for_each. intros c.
  apply preserves_bind; [apply mask_inv_preserved|]. intros ?. apply preserves_ret.
Qed.

Lemma attempt_fst s l : ∀ w L L',
  (foldl (attempt s) (w, L) l).1 = (foldl (attempt s) (w, L') l).1.
Proof.
  induction l as [|r l IH]; intros w L L'; [done|]. simpl.
  unfold attempt at 2 4. simpl. destruct (w_restore r w); apply IH.
Qed.

Lemma unmask_all_empty g s m :
  sessions g !! s = Some m ->
  _masked_properties m = [] ->
  unmask_all s g = (g, Return tt).
Proof.
  intros Hm Hl. rewrite (unmask_all_spec g s m Hm), Hl.
  unfold undo_all, with_world_logs. simpl. f_equal.
  assert (alter (set_masked_properties []) s (sessions g) = sessions g) as ->.
  { apply map_eq. intros i. destruct (decide (s = i)) as [<-|Hne].
    - rewrite lookup_alter_eq, Hm. simpl. f_equal.
      destruct m; simpl in *. by subst.
    - by rewrite lookup_alter_ne. }
  by destruct g.
Qed.


Lemma world_ok_bench : world_ok bench.
Proof.
  unfold bench. repeat apply world_ok_insert; try by intros ??? [=].
  - by intros ????.
  - by intros ??? [= <- <- <-].
Qed.


(** ** Restores that fail *)

Lemma unmask_property_true s r g :
  unmask_property s r true g =
    match w_restore r (world g) with
    | inl w => (set_world w g, Return tt)
    | inr e => (set_logs (logs g ++ [LogCouldNotUnmask s r]) g, Raise e)
    end.
Proof.
  unfold unmask_property, try_except, restore_write, write_world.
  destruct (w_restore r (world g)) as [w|e] eqn:Hr; [done|].
  by rewrite (w_restore_Exception _ _ _ Hr).
Qed.

Lemma for_each_unmask_true s l : ∀ g,
  for_each l (fun r => unmask_property s r true) g =
    match undo_strict s l (world g, logs g) with
    | (wl, None) => (with_world_logs wl g, Return tt)
    | (wl, Some e) => (with_world_logs wl g, Raise e)
    end.
Proof.
  induction l as [|r l IH]; intros g; simpl.
  - by destruct g.
  - unfold bind. rewrite unmask_property_true.
    destruct (w_restore r (world g)) as [w|e]; [|by destruct g].
    rewrite IH. simpl.
    by destruct (undo_strict s l (w, logs g)) as [wl [e|]].
Qed.

(** C5, as the claim states it, fails for the records that match a target:
    the parameter [q] had its label masked, then its value; [unmask(q)]
    restores the value first, which [q] rejects; the failure is logged and
    raised, the label, pushed earlier, stays masked, and both records stay
    on the stack. [unmask_all] on the same stack restores the label. *)
Lemma unmask_stops_at_a_failed_restore :
  (unmask 0 "q" None None masked_twice).2 = Raise ValueError ∧
  w_getattr "q" "label" (world (unmask 0 "q" None None masked_twice).1)
    = inl (PStr "b") ∧
  stack_of 0 (unmask 0 "q" None None masked_twice).1
    = [mkMasked (TAttr "q" "label") (PStr "a") (PStr "b");
       mkMasked (TParameter "q") PNone (PInt 5)] ∧
  logs (unmask 0 "q" None None masked_twice).1
    = [LogStarted 0;
       LogCouldNotUnmask 0 (mkMasked (TParameter "q") PNone (PInt 5))] ∧
  (unmask_all 0 masked_twice).2 = Return tt ∧
  w_getattr "q" "label" (world (unmask_all 0 masked_twice).1) = inl (PStr "a").
Proof. vm_compute. done. Qed.

(** C5, amended: [unmask_all] attempts the restore of every record, last
    pushed first, logs each failure and goes on, empties the stack and
    returns; [unmask(obj, attr, key)] restores the records it selects, last
    pushed first, up to the first failure, which it logs and raises again,
    and then leaves the whole stack in place; without a failure it keeps the
    records it did not select. *)
Theorem unmask_all_goes_on_unmask_raises g s m obj attr key :
  sessions g !! s = Some m ->
  let l := _masked_properties m in
  let sel := selects (world g) obj attr key in
  unmask_all s g =
    (set_sessions (alter (set_masked_properties []) s (sessions g))
       (with_world_logs (foldl (attempt s) (world g, logs g) (rev l)) g),
     Return tt) ∧
  unmask s obj attr key g =
    match undo_strict s (rev (filter (fun r => sel r = true) l))
            (world g, logs g) with
    | (wl, None) =>
        (set_sessions
           (alter (set_masked_properties (filter (fun r => sel r ≠ true) l))
              s (sessions g))
           (with_world_logs wl g),
         Return tt)
    | (wl, Some e) => (with_world_logs wl g, Raise e)
    end.
Proof.
  intros Hm l sel. split; [by apply unmask_all_spec|].
  unfold unmask.
  rewrite (bind_Return _ _ _ _ _ (the_session_Some _ _ _ Hm)).
  unfold bind at 1. simpl. unfold bind. rewrite for_each_unmask_true.
  fold l sel.
  by destruct (undo_strict s _ _) as [wl [e|]].
Qed.

Lemma unmask_all_goes_on_witness :
  stack_of 0 (unmask_all 0 masked_twice).1 = [] ∧
  logs (unmask_all 0 masked_twice).1
    = [LogStarted 0;
       LogCouldNotUnmask 0 (mkMasked (TParameter "q") PNone (PInt 5))] ∧
  stack_of 0 (unmask 0 "q" None None masked_twice).1
    = stack_of 0 masked_twice.
Proof.
  destruct (unmask_all_goes_on_unmask_raises masked_twice 0
              (mkMeasurement "msmt"
                 (Some (mkDataSet "" true ∅ ["config"; "measurement_type"] 1 []
                          false false))
                 [] [] [0%Z] ∅ ∅ ∅ true false false false false [] []
                 [mkMasked (TAttr "q" "label") (PStr "a") (PStr "b");
                  mkMasked (TParameter "q") PNone (PInt 5)]
                 (Some 0) None None)
              "q" None None) as [Hall Hone].
  - vm_compute. reflexivity.
  - rewrite Hall, Hone. vm_compute. done.
Defined.

(** ** Induction on what is measured *)

Section measurable_induction.
Variable P : measurable -> Prop.
Hypothesis P_parameter : ∀ p, P (MParameter p).
Hypothesis P_multi : ∀ mp, P (MMultiParameter mp).
Hypothesis P_callable : ∀ node_name fn_name returns other,
  Forall (fun kv => P kv.2) (default [] returns) ->
  P (MCallable node_name fn_name returns other).
Hypothesis P_dict : ∀ items,
  Forall (fun kv => P kv.2) items -> P (MDict items).
Hypothesis P_value : ∀ v, P (MValue v).

Fixpoint measurable_nested_ind (x : measurable) : P x :=
  let items_ind :=
    fix go (l : list (string * measurable)) : Forall (fun kv => P kv.2) l :=
      match l with
      | [] => @List.Forall_nil _ _
      | kv :: l' =>
          @List.Forall_cons _ _ kv l' (measurable_nested_ind kv.2) (go l')
      end in
  match x with
  | MParameter p => P_parameter p
  | MMultiParameter mp => P_multi mp
  | MCallable node_name fn_name returns other =>
      P_callable node_name fn_name returns other
        (match returns as r
               return Forall (fun kv => P kv.2) (default [] r) with
         | Some items => items_ind items
         | None => @List.Forall_nil _ _
         end)
  | MDict items => P_dict items (items_ind items)
  | MValue v => P_value v
  end.
End measurable_induction.

(** ** The loop geometry *)

Ltac pres_read :=
  apply preserves_read;
  first [ apply the_session_state | apply running_state
        | apply get_runtime_state | apply read_world_state
        | apply the_object_state ].

Ltac pres_struct :=
  first
    [ apply preserves_ret
    | apply preserves_raise
    | pres_read
    | apply preserves_bind; [|intros ?]
    | apply preserves_for_each; intros ?
    | apply preserves_collect; intros ?
    | apply preserves_try_except; [|intros ?]
    | apply preserves_try_bare; [|intros ?]
    | match goal with
      | |- preserves _ (match ?x with _ => _ end) => destruct x
      end ].

Lemma geom_update_session s f :
  (∀ m, geom_session m -> geom_session (f m)) ->
  preserves geom (update_session s f).
Proof.
  intros Hf g Hg s' m'. simpl. destruct (decide (s = s')) as [<-|Hne].
  - rewrite lookup_alter_eq. destruct (sessions g !! s) as [m|] eqn:Hm; [|done].
    intros [= <-]. apply Hf. by eapply Hg.
  - rewrite lookup_alter_ne by done. apply Hg.
Qed.

Lemma geom_modify f :
  (∀ g, sessions (f g) = sessions g) -> preserves geom (modify f).
Proof. intros Hf g Hg s m. simpl. rewrite Hf. apply Hg. Qed.

Lemma geom_write_world f : preserves geom (write_world f).
Proof. intros g Hg. unfold write_world. by destruct (f (world g)). Qed.

Create HintDb geom discriminated.
#[local] Hint Resolve geom_write_world : geom.

Ltac geom_leaf :=
  first
    [ apply geom_update_session; intros ? ?; assumption
    | apply geom_update_session; intros ? Hm; exact Hm
    | apply geom_update_session; intros ? Hm; reflexivity
    | apply geom_modify; intros ?; reflexivity ].

Ltac pres_geom :=
  repeat first [ solve [eauto 2 with geom] | geom_leaf | pres_struct ].

Lemma log_geom e : preserves geom (log e).
Proof. unfold log. pres_geom. Qed.
#[local] Hint Resolve log_geom : geom.

Lemma _verify_action_geom s a n b : preserves geom (_verify_action s a n b).
Proof. unfold _verify_action. pres_geom. Qed.
#[local] Hint Resolve _verify_action_geom : geom.

Lemma shift_geom s n : preserves geom (shift_action_indices s n).
Proof. unfold shift_action_indices. pres_geom. Qed.
#[local] Hint Resolve shift_geom : geom.

Lemma geom_state_if {A} (d : Runtime -> bool) (c1 c2 : M A) :
  preserves geom c1 -> preserves geom c2 ->
  preserves geom (fun g => if d g then c1 g else c2 g).
Proof. intros H1 H2 g Hg. destruct (d g); [by apply H1|by apply H2]. Qed.

Lemma skip_geom s n : preserves geom (skip s n).
Proof.
  intros g Hg. unfold skip. case_decide; [by apply shift_geom|].
  clear H; revert g Hg. pres_geom.
Qed.
Lemma revert_geom s n : preserves geom (revert s n).
Proof.
  intros g Hg. unfold revert. case_decide; [by apply shift_geom|].
  clear H; revert g Hg. pres_geom.
Qed.
#[local] Hint Resolve skip_geom revert_geom : geom.

Lemma removelast_length {A} (l : list A) :
  length (removelast l) = pred (length l).
Proof. rewrite removelast_firstn_len, length_take. lia. Qed.

Lemma step_out_here_geom s b : preserves geom (step_out_here s b).
Proof.
  unfold step_out_here. pres_geom.
  apply geom_update_session. intros m Hm. unfold geom_session in *. simpl.
  by rewrite !removelast_length, Hm.
Qed.
#[local] Hint Resolve step_out_here_geom : geom.

Lemma step_out_geom s b : preserves geom (step_out s b).
Proof.
  intros g Hg. unfold step_out. case_decide; [by apply step_out_here_geom|].
  clear H; revert g Hg. pres_geom.
Qed.
#[local] Hint Resolve step_out_geom : geom.

Lemma the_runtime_arrays_state o g : (the_runtime_arrays o g).1 = g.
Proof. unfold the_runtime_arrays. by repeat case_match. Qed.

Lemma data_arrays_geom s : preserves geom (data_arrays s).
Proof.
  unfold data_arrays. pres_geom. apply preserves_read, the_runtime_arrays_state.
Qed.
Lemma set_arrays_geom s : preserves geom (set_arrays s).
Proof.
  unfold set_arrays. pres_geom. apply preserves_read, the_runtime_arrays_state.
Qed.
Lemma update_arrays_geom s f : preserves geom (update_arrays s f).
Proof. unfold update_arrays. pres_geom. Qed.
Lemma the_dataset_geom s : preserves geom (the_dataset s).
Proof. unfold the_dataset. pres_geom. Qed.
#[local] Hint Resolve data_arrays_geom set_arrays_geom update_arrays_geom the_dataset_geom : geom.
Lemma update_dataset_geom s f : preserves geom (update_dataset s f).
Proof. unfold update_dataset. pres_geom. Qed.
#[local] Hint Resolve update_dataset_geom : geom.

Lemma plain_array_naming_geom a b c : preserves geom (plain_array_naming a b c).
Proof. unfold plain_array_naming. pres_geom. Qed.
Lemma name_or_parameter_geom a b : preserves geom (name_or_parameter a b).
Proof. unfold name_or_parameter. pres_geom. Qed.
#[local] Hint Resolve plain_array_naming_geom name_or_parameter_geom : geom.

Lemma create_data_array_with_geom add s a r p i n l u :
  (∀ a r n p, preserves geom (add a r n p)) ->
  preserves geom (create_data_array_with add s a r p i n l u).
Proof. intros Hadd. unfold create_data_array_with. pres_geom. Qed.

Lemma create_setpoint_array_geom s a r p n l u :
  preserves geom (create_setpoint_array s a r p n l u).
Proof.
  unfold create_setpoint_array. apply create_data_array_with_geom.
  intros. pres_geom.
Qed.
#[local] Hint Resolve create_setpoint_array_geom : geom.

Lemma setpoint_info_geom p n k : preserves geom (setpoint_info p n k).
Proof. unfold setpoint_info. pres_geom. Qed.
#[local] Hint Resolve setpoint_info_geom : geom.

Lemma _add_set_arrays_geom s a r n p : preserves geom (_add_set_arrays s a r n p).
Proof. unfold _add_set_arrays. pres_geom. Qed.
#[local] Hint Resolve _add_set_arrays_geom : geom.

Lemma _create_data_array_geom s a r p i n l u :
  preserves geom (_create_data_array s a r p i n l u).
Proof.
  unfold _create_data_array. apply create_data_array_with_geom. intros. pres_geom.
Qed.
#[local] Hint Resolve _create_data_array_geom : geom.

Lemma _add_measurement_result_geom s a r p st n l u :
  preserves geom (_add_measurement_result s a r p st n l u).
Proof. unfold _add_measurement_result. pres_geom. Qed.
#[local] Hint Resolve _add_measurement_result_geom : geom.

Lemma _measure_value_geom r v n p l u : preserves geom (_measure_value r v n p l u).
Proof. unfold _measure_value. pres_geom. Qed.
Lemma _measure_parameter_geom r p n l u : preserves geom (_measure_parameter r p n l u).
Proof. unfold _measure_parameter. pres_geom. Qed.
#[local] Hint Resolve _measure_value_geom _measure_parameter_geom : geom.
Lemma measure_raw_geom r v n p l u : preserves geom (measure_raw r v n p l u).
Proof. unfold measure_raw. pres_geom. Qed.
#[local] Hint Resolve measure_raw_geom : geom.

Lemma geom_insert_session g s m :
  geom g -> geom_session m -> geom (set_sessions (<[s := m]> (sessions g)) g).
Proof.
  intros Hg Hm s' m'. simpl. destruct (decide (s = s')) as [<-|Hne].
  - rewrite lookup_insert_eq. by intros [= <-].
  - rewrite lookup_insert_ne by done. apply Hg.
Qed.

Lemma param_get_geom p : preserves geom (param_get p).
Proof. unfold param_get. pres_geom. Qed.
Lemma param_set_geom p v : preserves geom (param_set p v).
Proof. unfold param_set. pres_geom. Qed.
Lemma py_getattr_geom o a : preserves geom (py_getattr o a).
Proof. unfold py_getattr. pres_geom. Qed.
Lemma py_setattr_geom o a v : preserves geom (py_setattr o a v).
Proof. unfold py_setattr. pres_geom. Qed.
Lemma py_getitem_geom o a : preserves geom (py_getitem o a).
Proof. unfold py_getitem. pres_geom. Qed.
Lemma py_setitem_geom o a v : preserves geom (py_setitem o a v).
Proof. unfold py_setitem. pres_geom. Qed.
Lemma push_masked_geom s r : preserves geom (push_masked s r).
Proof. unfold push_masked. pres_geom. Qed.
#[local] Hint Resolve param_get_geom param_set_geom py_getattr_geom py_setattr_geom
  py_getitem_geom py_setitem_geom push_masked_geom : geom.

Lemma _mask_attr_geom s o a v : preserves geom (_mask_attr s o a v).
Proof. unfold _mask_attr. pres_geom. Qed.
Lemma _mask_parameter_geom s o v : preserves geom (_mask_parameter s o v).
Proof. unfold _mask_parameter. pres_geom. Qed.
Lemma _mask_key_geom s o a v : preserves geom (_mask_key s o a v).
Proof. unfold _mask_key. pres_geom. Qed.
#[local] Hint Resolve _mask_attr_geom _mask_parameter_geom _mask_key_geom : geom.

Lemma mask_geom s o v kw : preserves geom (mask s o v kw).
Proof. unfold mask. pres_geom. Qed.
#[local] Hint Resolve mask_geom : geom.

Lemma unmask_property_geom s r b : preserves geom (unmask_property s r b).
Proof. unfold unmask_property, restore_write. pres_geom. Qed.
#[local] Hint Resolve unmask_property_geom : geom.
Lemma unmask_geom s o a k : preserves geom (unmask s o a k).
Proof. unfold unmask. pres_geom. Qed.
Lemma unmask_all_geom s : preserves geom (unmask_all s).
Proof. unfold unmask_all. pres_geom. Qed.
#[local] Hint Resolve unmask_geom unmask_all_geom : geom.

Lemma new_measurement_geom n f b : preserves geom (new_measurement n f b).
Proof. intros g Hg. unfold new_measurement. simpl. by apply geom_insert_session. Qed.
#[local] Hint Resolve new_measurement_geom : geom.

Lemma _apply_actions_geom s a l : preserves geom (_apply_actions s a l).
Proof. unfold _apply_actions. pres_geom. Qed.
#[local] Hint Resolve _apply_actions_geom : geom.
Lemma _initialize_metadata_geom e s : preserves geom (_initialize_metadata e s).
Proof. unfold _initialize_metadata. pres_geom. Qed.
#[local] Hint Resolve _initialize_metadata_geom : geom.
Lemma new_array_dicts_geom : preserves geom new_array_dicts.
Proof. by intros g Hg. Qed.
#[local] Hint Resolve new_array_dicts_geom : geom.

Lemma enter_primary_geom e s t : preserves geom (enter_primary e s t).
Proof. unfold enter_primary. pres_geom. Qed.

Lemma geom_bind_session {A} r (k : Measurement -> M A) :
  (∀ m, geom_session m -> preserves geom (k m)) ->
  preserves geom (bind (the_session r) k).
Proof.
  intros Hk g Hg. unfold bind, the_session.
  destruct (sessions g !! r) as [m|] eqn:Hm; [|done].
  apply Hk; [by eapply Hg|done].
Qed.

Lemma enter_nested_geom s t r : preserves geom (enter_nested s t r).
Proof.
  unfold enter_nested. apply preserves_bind; [pres_geom|intros g0].
  case_decide; [|pres_geom].
  apply preserves_bind; [pres_geom|intros msmt].
  do 3 (apply preserves_bind; [pres_geom|intros _]).
  apply geom_bind_session. intros m Hm.
  apply geom_update_session. intros m' _. exact Hm.
Qed.
#[local] Hint Resolve enter_primary_geom enter_nested_geom : geom.

Lemma clear_running_if_geom s : preserves geom (clear_running_if s).
Proof. intros g Hg. unfold clear_running_if. by case_decide. Qed.
#[local] Hint Resolve clear_running_if_geom : geom.

Lemma __enter___geom e s t : preserves geom (__enter__ e s t).
Proof.
  unfold __enter__. apply preserves_bind; [pres_geom|intros _].
  apply preserves_try_bare; [|intros ?; pres_geom].
  apply preserves_bind; [|intros ?; pres_geom].
  intros g Hg. destruct (running_measurement g);
    [by apply enter_nested_geom|by apply enter_primary_geom].
Qed.
#[local] Hint Resolve __enter___geom : geom.

Lemma close_dataset_geom e s : preserves geom (close_dataset e s).
Proof. unfold close_dataset. pres_geom. Qed.
#[local] Hint Resolve close_dataset_geom : geom.
Lemma exit_actions_geom s e b : preserves geom (exit_actions s e b).
Proof. unfold exit_actions. pres_geom. Qed.
Lemma exit_finish_geom e s b m : preserves geom (exit_finish e s b m).
Proof. unfold exit_finish. pres_geom. Qed.
#[local] Hint Resolve exit_actions_geom exit_finish_geom : geom.
Lemma __exit___geom e s x : preserves geom (__exit__ e s x).
Proof. unfold __exit__. pres_geom. Qed.
#[local] Hint Resolve __exit___geom : geom.

Lemma with_measurement_geom {A} n t (body : sid -> M A) :
  (∀ n, preserves geom (body n)) -> preserves geom (with_measurement n t body).
Proof.
  intros Hb. unfold with_measurement.
  apply preserves_bind; [pres_geom|intros s].
  apply preserves_bind; [pres_geom|intros _].
  intros g Hg. specialize (Hb s g Hg).
  destruct (body s g) as [g' [a|e|]]; simpl in *; [| |done].
  - revert g' Hb. change (preserves geom (__exit__ quiet_exit s None ;; ret a)). pres_geom.
  - revert g' Hb. change (preserves geom (__exit__ quiet_exit s (Some e) ;; @raise A e)). pres_geom.
Qed.

Lemma pause_geom : preserves geom pause.
Proof. unfold pause. pres_geom. Qed.
Lemma resume_geom : preserves geom resume.
Proof. unfold resume. pres_geom. Qed.
#[local] Hint Resolve pause_geom resume_geom : geom.
Lemma stop_geom : preserves geom stop.
Proof. unfold stop. pres_geom. Qed.
#[local] Hint Resolve stop_geom : geom.
Lemma apply_control_geom c : preserves geom (apply_control c).
Proof. destruct c; simpl; pres_geom. Qed.
#[local] Hint Resolve apply_control_geom : geom.

Lemma poll_paused_geom s l : preserves geom (poll_paused s l).
Proof.
  induction l as [|c l IH]; intros g Hg; simpl;
    destruct (sessions g !! s) as [m|]; try done; destruct (is_paused m); try done.
  apply IH. by apply apply_control_geom.
Qed.
Lemma wait_while_paused_geom s : preserves geom (wait_while_paused s).
Proof. intros g Hg. by apply poll_paused_geom. Qed.
#[local] Hint Resolve wait_while_paused_geom : geom.

Lemma measure_guards_geom s t : preserves geom (measure_guards s t).
Proof.
  unfold measure_guards. pres_geom. intros g Hg. by case_decide.
Qed.
#[local] Hint Resolve measure_guards_geom : geom.

Lemma guarded_measure_geom {A} t s (body : bool -> sid -> M A) :
  (∀ b r, preserves geom (body b r)) -> preserves geom (guarded_measure t s body).
Proof.
  intros Hb. unfold guarded_measure. apply preserves_bind; [pres_geom|intros _].
  intros g Hg. case_decide as Hd; clear Hd; revert g Hg; pres_geom.
Qed.

Lemma dispatch_geom t x : ∀ nm label u parameter r,
  preserves geom (dispatch t x nm label u parameter r).
Proof.
  induction x as [p|mp|node_name fn_name returns other IH|items IH|v]
    using measurable_nested_ind; intros nm label u parameter r.
  - simpl. pres_geom.
  - simpl. apply preserves_bind; [pres_geom|intros _].
    apply preserves_bind; [|intros ?; pres_geom].
    apply with_measurement_geom. intros n.
    apply preserves_for_each. intros kkv.
    destruct (mp_labels mp !! kkv.1); [|pres_geom].
    destruct (mp_units mp !! kkv.1); [|pres_geom].
    apply preserves_bind; [|intros ?; pres_geom].
    apply guarded_measure_geom. intros _ r'. pres_geom.
  - simpl. apply preserves_bind; [pres_geom|intros m].
    apply preserves_bind; [pres_geom|intros _].
    apply preserves_bind; [unfold nested_measurement_done; pres_geom|intros done].
    apply preserves_bind; [|intros ?; pres_geom].
    destruct done; [pres_geom|]. destruct returns as [items|]; [|pres_geom].
    apply with_measurement_geom. intros n. simpl in IH.
    induction IH as [|kv items Hkv _ IHitems]; [pres_geom|].
    destruct kv as [key val].
    apply preserves_bind; [|intros _; exact IHitems].
    apply guarded_measure_geom. intros _ r'. apply Hkv.
  - simpl. destruct nm as [n|]; [|pres_geom]. case_decide; [pres_geom|].
    apply preserves_bind; [pres_geom|intros _].
    apply preserves_bind; [|intros ?; pres_geom].
    apply with_measurement_geom. intros n'.
    induction IH as [|kv items Hkv _ IHitems]; [pres_geom|].
    destruct kv as [key val].
    apply preserves_bind; [|intros _; exact IHitems].
    apply guarded_measure_geom. intros _ r'. apply Hkv.
  - simpl. pres_geom.
Qed.
#[local] Hint Resolve dispatch_geom : geom.

Lemma stamp_geom t r l : preserves geom (stamp t r l).
Proof.
  unfold stamp. apply preserves_bind; [pres_geom|intros m].
  destruct (_t_start m); [|pres_geom].
  apply preserves_bind; [|intros ?; pres_geom].
  apply guarded_measure_geom. intros. pres_geom.
Qed.
#[local] Hint Resolve stamp_geom : geom.

Lemma measure_geom s x nm label u ts parameter t :
  preserves geom (measure s x nm label u ts parameter t).
Proof.
  unfold measure. apply guarded_measure_geom. intros b r. pres_geom.
Qed.

Lemma create_set_array_geom r sq n u : preserves geom (create_set_array r sq n u).
Proof. unfold create_set_array. pres_geom. Qed.
#[local] Hint Resolve create_set_array_geom : geom.

Lemma new_sweep_geom sq n u a b : preserves geom (new_sweep sq n u a b).
Proof.
  unfold new_sweep. pres_geom; by intros g Hg.
Qed.

Lemma the_sweep_state w g : (the_sweep w g).1 = g.
Proof. unfold the_sweep. by destruct (sweeps g !! w). Qed.
Lemma update_sweep_geom w f : preserves geom (update_sweep w f).
Proof. unfold update_sweep. pres_geom. Qed.
#[local] Hint Resolve update_sweep_geom : geom.

Lemma exit_sweep_geom {A} : preserves geom (@exit_sweep A).
Proof. unfold exit_sweep. pres_geom. Qed.

Lemma geom_bind_session_at {A} r (k : Measurement -> M A) :
  (∀ m g, geom g -> sessions g !! r = Some m -> geom (k m g).1) ->
  preserves geom (bind (the_session r) k).
Proof.
  intros Hk g Hg. unfold bind, the_session.
  destruct (sessions g !! r) as [m|] eqn:Hm; [|done]. by apply Hk.
Qed.

Lemma geom_update_session_at g s m f :
  geom g -> sessions g !! s = Some m -> geom_session (f m) ->
  geom (update_session s f g).1.
Proof.
  intros Hg Hm Hf s' m'. simpl. destruct (decide (s = s')) as [<-|Hne].
  - rewrite lookup_alter_eq, Hm. by intros [= <-].
  - rewrite lookup_alter_ne by done. apply Hg.
Qed.

Lemma __next___geom w : preserves geom (__next__ w).
Proof.
  unfold __next__.
  apply preserves_bind; [pres_geom|intros msmt].
  apply preserves_bind; [pres_geom|intros m].
  destruct (negb (is_context_manager m)); [pres_geom|].
  destruct (is_stopped m); [pres_geom|].
  apply preserves_bind; [pres_geom|intros _].
  apply preserves_bind; [apply preserves_read, the_sweep_state|intros sw].
  apply geom_bind_session_at. intros m' g Hg Hm'.
  destruct (loop_index sw) as [idx|]; [|done].
  unfold bind at 1. case_decide; [|done].
  assert (geom (update_session msmt
            (set_loop_indices (<[dimension sw:=idx]> (loop_indices m'))) g).1) as Hg1.
  { apply (geom_update_session_at g msmt m'); [done..|].
    unfold geom_session. simpl. rewrite length_insert. by apply (Hg msmt). }
  revert Hg1. simpl. generalize (set_sessions
    (alter (set_loop_indices (<[dimension sw:=idx]> (loop_indices m'))) msmt
       (sessions g)) g). clear. intros g Hg. revert g Hg.
  destruct (iterator sw) as [[|v rest]|]; [| |pres_geom].
  - apply preserves_bind; [pres_geom|intros _]. apply exit_sweep_geom.
  - pres_geom.
Qed.

Lemma update_session_Return s f g :
  update_session s f g = (set_sessions (alter f s (sessions g)) g, Return tt).
Proof. done. Qed.

(** The three assignments that end [__iter__]. *)
Lemma iter_extends_geometry {A} g r n i (a : A) :
  running_measurement g = Some r ->
  (let* r := running in
   update_session r (fun m => set_loop_shape (loop_shape m ++ [n]) m) ;;
   let* r := running in
   update_session r (fun m => set_loop_indices (loop_indices m ++ [i]) m) ;;
   let* r := running in
   update_session r (fun m => set_action_indices (action_indices m ++ [0%Z]) m) ;;
   ret a) g =
  (set_sessions
     (alter (fun m =>
        set_action_indices (action_indices m ++ [0%Z])
          (set_loop_indices (loop_indices m ++ [i])
             (set_loop_shape (loop_shape m ++ [n]) m))) r (sessions g)) g,
   Return a).
Proof.
  intros Hr. unfold bind, running, update_session, modify, ret. simpl.
  repeat (rewrite Hr; simpl). by rewrite !alter_alter_eq.
Qed.

Lemma __iter___geom w t : preserves geom (__iter__ w t).
Proof.
  unfold __iter__. apply preserves_bind; [pres_geom|intros g0].
  case_decide; [|pres_geom].
  apply preserves_bind; [apply preserves_read, the_sweep_state|intros sw].
  apply preserves_bind; [pres_geom|intros _].
  apply preserves_bind; [pres_geom|intros _].
  intros g Hg.
  destruct (running_measurement g) as [r|] eqn:Hr;
    [|by unfold bind at 1, running; rewrite Hr].
  rewrite (iter_extends_geometry g r _ _ w Hr).
  refine (geom_update_session r _ _ g Hg).
  intros m Hm. unfold geom_session in *. simpl. rewrite !length_app. simpl.
  by rewrite Hm.
Qed.

Lemma placed_update_session r pl ptr s f :
  (∀ m, place (f m) = place m) ->
  preserves (placed r pl ptr) (update_session s f).
Proof.
  intros Hf g [Hp Hs]. split; [done|]. simpl.
  destruct (decide (s = r)) as [->|Hne].
  - rewrite lookup_alter_eq. destruct (sessions g !! r); [|done].
    simpl in *. by rewrite Hf.
  - by rewrite lookup_alter_ne.
Qed.

Lemma placed_modify r pl ptr f :
  (∀ g, sessions (f g) = sessions g) ->
  (∀ g, running_measurement (f g) = running_measurement g) ->
  preserves (placed r pl ptr) (modify f).
Proof. intros H1 H2 g [Hp Hs]. split; simpl; by rewrite ?H1, ?H2. Qed.

Lemma placed_write_world r pl ptr f : preserves (placed r pl ptr) (write_world f).
Proof. intros g Hg. unfold write_world. by destruct (f (world g)). Qed.

Create HintDb placed discriminated.
#[local] Hint Resolve placed_write_world : placed.

Ltac placed_leaf :=
  first
    [ solve [eauto 2 with placed]
    | apply placed_update_session; intros ?; reflexivity
    | apply placed_modify; intros ?; reflexivity ].
Ltac pres_placed := repeat first [ placed_leaf | pres_struct ].

Section placed.
Context (r : sid) (pl : option (list nat * list Z * list Z)) (ptr : option sid).
Local Abbreviation P := (placed r pl ptr).

Lemma log_placed e : preserves P (log e).
Proof. unfold log. pres_placed. Qed.
Hint Resolve log_placed : placed.
Lemma push_masked_placed s x : preserves P (push_masked s x).
Proof. unfold push_masked. pres_placed. Qed.
Hint Resolve push_masked_placed : placed.
Lemma mask_placed s o v kw : preserves P (mask s o v kw).
Proof.
  unfold mask, _mask_attr, _mask_parameter, _mask_key, param_get, param_set,
    py_getattr, py_setattr, py_getitem, py_setitem. pres_placed.
Qed.
Lemma unmask_property_placed s x b : preserves P (unmask_property s x b).
Proof. unfold unmask_property, restore_write. pres_placed. Qed.
Hint Resolve unmask_property_placed : placed.
Lemma unmask_placed s o a k : preserves P (unmask s o a k).
Proof. unfold unmask. pres_placed. Qed.
Lemma apply_control_placed c : preserves P (apply_control c).
Proof. destruct c; unfold apply_control, stop, pause, resume; pres_placed. Qed.
Lemma poll_paused_placed s l : preserves P (poll_paused s l).
Proof.
  induction l as [|c l IH]; intros g Hg; simpl;
    destruct (sessions g !! s) as [m|]; try done;
    destruct (is_paused m); try done.
  apply IH. by apply apply_control_placed.
Qed.
Lemma wait_while_paused_placed s : preserves P (wait_while_paused s).
Proof. intros g Hg. by apply poll_paused_placed. Qed.
End placed.

Lemma no_stop_ret {A} (a : A) : no_stop (ret a).
Proof. by intros g. Qed.
Lemma no_stop_raise {A} e : e ≠ StopIteration -> no_stop (@raise A e).
Proof. intros He g. simpl. congruence. Qed.
Lemma no_stop_bind {A B} (c : M A) (k : A -> M B) :
  no_stop c -> (∀ a, no_stop (k a)) -> no_stop (bind c k).
Proof.
  intros Hc Hk g. unfold bind. specialize (Hc g).
  destruct (c g) as [g' [a|e|]]; simpl in *; [apply Hk| |done].
  intros [= ->]. by apply Hc.
Qed.
Lemma no_stop_for_each {A} (l : list A) body :
  (∀ x, no_stop (body x)) -> no_stop (for_each l body).
Proof.
  intros Hb. induction l as [|x l IH]; simpl; [apply no_stop_ret|].
  apply no_stop_bind; [done|by intros _].
Qed.
Lemma no_stop_try_except {A} (c : M A) h :
  no_stop c -> (∀ e, no_stop (h e)) -> no_stop (try_except c h).
Proof.
  intros Hc Hh g. unfold try_except. specialize (Hc g).
  destruct (c g) as [g' [a|e|]]; simpl in *; [done| |done].
  destruct (is_Exception e); [apply Hh|done].
Qed.
Lemma no_stop_modify f : no_stop (modify f).
Proof. by intros g. Qed.
Lemma no_stop_the_session s : no_stop (the_session s).
Proof. intros g. unfold the_session. by destruct (sessions g !! s). Qed.
Lemma no_stop_running : no_stop running.
Proof. intros g. unfold running. by destruct (running_measurement g). Qed.
Lemma no_stop_get_runtime : no_stop get_runtime.
Proof. by intros g. Qed.

Lemma w_restore_no_stop r w e : w_restore r w = inr e -> e ≠ StopIteration.
Proof.
  unfold w_restore, w_setitem, w_setattr, w_param_set. intros H.
  repeat case_match; by simplify_eq.
Qed.

Lemma unmask_property_no_stop s r b : no_stop (unmask_property s r b).
Proof.
  intros g. unfold unmask_property, try_except, restore_write, write_world.
  destruct (w_restore r (world g)) as [w|e] eqn:Hr; [done|].
  rewrite (w_restore_Exception _ _ _ Hr). unfold bind. simpl.
  destruct b; simpl; [|done]. intros [= ->]. by eapply w_restore_no_stop.
Qed.

Lemma unmask_no_stop s o a k : no_stop (unmask s o a k).
Proof.
  unfold unmask. apply no_stop_bind; [apply no_stop_the_session|intros m].
  apply no_stop_bind; [apply no_stop_get_runtime|intros g].
  apply no_stop_bind; [|intros _; apply no_stop_modify].
  apply no_stop_for_each. intros r. apply unmask_property_no_stop.
Qed.

Lemma poll_paused_no_stop s l : no_stop (poll_paused s l).
Proof.
  induction l as [|c l IH]; intros g; simpl;
    destruct (sessions g !! s) as [m|]; try done;
    destruct (is_paused m); try done.
Qed.

Lemma bind_stop_inv {A B} (c : M A) (k : A -> M B) g g' :
  bind c k g = (g', Raise StopIteration) ->
  no_stop c ->
  ∃ g1 a, c g = (g1, Return a) ∧ k a g1 = (g', Raise StopIteration).
Proof.
  unfold bind. intros H Hc. specialize (Hc g).
  destruct (c g) as [g1 [a|e|]]; simpl in *; [by eauto| |done].
  injection H as -> ->. done.
Qed.

Lemma bind_Return_inv {A B} (c : M A) (k : A -> M B) g g' b :
  bind c k g = (g', Return b) ->
  ∃ g1 a, c g = (g1, Return a) ∧ k a g1 = (g', Return b).
Proof.
  unfold bind. intros H. destruct (c g) as [g1 [a|e|]]; by eauto.
Qed.

Lemma placed_lookup r pl ptr g :
  placed r (Some pl) ptr g -> ∃ m, sessions g !! r = Some m ∧ place m = pl.
Proof.
  intros [_ H]. destruct (sessions g !! r) as [m|]; [|done].
  injection H as <-. eauto.
Qed.

Lemma no_stop_write_param p v : no_stop (param_set p v).
Proof.
  intros g. unfold param_set, write_world, w_param_set.
  repeat case_match; by simplify_eq.
Qed.

Lemma __iter___appends g r m w t g' w' :
  running_measurement g = Some r ->
  sessions g !! r = Some m ->
  __iter__ w t g = (g', Return w') ->
  ∃ m' n i,
    sessions g' !! r = Some m' ∧
    loop_shape m' = loop_shape m ++ [n] ∧
    loop_indices m' = loop_indices m ++ [i] ∧
    action_indices m' = action_indices m ++ [0%Z].
Proof.
  intros Hr Hm. unfold __iter__. unfold bind at 1. simpl.
  case_decide as Ht; [|done].
  intros H. apply bind_Return_inv in H as (g1 & sw & Hsw & H).
  assert (g1 = g) as -> by (by rewrite <- (the_sweep_state w g), Hsw).
  apply bind_Return_inv in H as (g1 & [] & Hc1 & H).
  assert (placed r (Some (place m)) (Some r) g1) as Hg1.
  { assert (placed r (Some (place m)) (Some r) g) as Hg
      by (split; [done|by rewrite Hm]).
    revert Hc1. match goal with |- ?c g = _ -> _ =>
      assert (preserves (placed r (Some (place m)) (Some r)) c) as Hp end.
    { destruct (restore sw); [|apply preserves_ret].
      destruct (seq_parameter (sequence sw)) as [[p pn]|]; [|apply preserves_raise].
      apply preserves_bind; [pres_placed|intros r0].
      apply preserves_bind; [unfold param_get; pres_placed|intros v].
      apply preserves_bind; [apply mask_placed|intros ?]. apply preserves_ret. }
    intros Hc1. specialize (Hp g Hg). by rewrite Hc1 in Hp. }
  apply bind_Return_inv in H as (g2 & [] & Hc2 & H).
  injection Hc2 as <-.
  destruct Hg1 as [Hr1 Hpl1].
  destruct (sessions g1 !! r) as [m1|] eqn:Hm1; [|done].
  injection Hpl1 as E1 E2 E3.
  rewrite (iter_extends_geometry _ r _ _ w) in H by done.
  injection H as <- <-. simpl. rewrite lookup_alter_eq, Hm1. simpl.
  eexists _, _, _. split; [done|]. simpl.
  by rewrite E1, E2, E3.
Qed.

Lemma step_out_here_removes g r m g' :
  sessions g !! r = Some m ->
  step_out_here r true g = (g', Return tt) ->
  ∃ m' a,
    sessions g' !! r = Some m' ∧
    loop_shape m' = removelast (loop_shape m) ∧
    loop_indices m' = removelast (loop_indices m) ∧
    last_add 1 (removelast (action_indices m)) = Some a ∧
    action_indices m' = a.
Proof.
  intros Hm. unfold step_out_here. unfold bind at 1. simpl.
  unfold bind at 1, the_session. simpl. rewrite lookup_alter_eq, Hm. simpl.
  destruct (last_add 1 (removelast (action_indices m))) as [a|] eqn:Ha; [|done].
  intros [= <-]. simpl. rewrite !lookup_alter_eq, Hm. simpl.
  eexists _, a. by split_and!.
Qed.

Lemma __next___removes g r m w g' :
  running_measurement g = Some r ->
  sessions g !! r = Some m ->
  geom_session m ->
  __next__ w g = (g', Raise StopIteration) ->
  ∃ m',
    sessions g' !! r = Some m' ∧
    loop_shape m' = removelast (loop_shape m) ∧
    S (length (loop_shape m')) = length (loop_shape m) ∧
    S (length (loop_indices m')) = length (loop_indices m) ∧
    S (length (action_indices m')) = length (action_indices m).
Proof.
  intros Hr Hm Hgeom. unfold __next__.
  rewrite (bind_Return _ _ _ _ _ (running_Some _ _ Hr)).
  rewrite (bind_Return _ _ _ _ _ (the_session_Some _ _ _ Hm)).
  destruct (negb (is_context_manager m)); [done|].
  destruct (is_stopped m); [done|].
  intros H. apply bind_stop_inv in H as (g1 & [] & Hw & H);
    [|intros ?; apply poll_paused_no_stop].
  assert (placed r (Some (place m)) (Some r) g1) as [Hr1 Hpl1].
  { assert (placed r (Some (place m)) (Some r) g) as Hg
      by (split; [done|by rewrite Hm]).
    apply (wait_while_paused_placed _ _ _ r) in Hg. by rewrite Hw in Hg. }
  destruct (sessions g1 !! r) as [m1|] eqn:Hm1; [|done].
  injection Hpl1 as E1 E2 E3.
  unfold bind at 1 in H. destruct (the_sweep w g1) as [g1' [sw| |]] eqn:Hsw;
    [|by unfold the_sweep in Hsw; destruct (sweeps g1 !! w); simplify_eq|done].
  assert (g1' = g1) as -> by (by rewrite <- (the_sweep_state w g1), Hsw).
  rewrite (bind_Return _ _ _ _ _ (the_session_Some _ _ _ Hm1)) in H.
  destruct (loop_index sw) as [idx|]; [|done].
  unfold bind at 1 in H. case_decide as Hdim; [|done]. simpl in H.
  destruct (iterator sw) as [[|v rest]|]; [| |done].
  - apply bind_stop_inv in H as (g3 & [] & Hc3 & H).
    2:{ destruct (restore sw); [|apply no_stop_ret].
        destruct (seq_parameter (sequence sw)) as [[p pn]|];
          [apply unmask_no_stop|apply no_stop_ret]. }
    set (m2 := set_loop_indices (<[dimension sw:=idx]> (loop_indices m1)) m1) in *.
    assert (placed r (Some (place m2)) (Some r) g3) as [Hr3 Hpl3].
    { revert Hc3. match goal with |- ?c ?g2 = _ -> _ =>
        assert (preserves (placed r (Some (place m2)) (Some r)) c) as Hp;
        [|intros Hc3; specialize (Hp g2); rewrite Hc3 in Hp; apply Hp] end.
      - destruct (restore sw); [|apply preserves_ret].
        destruct (seq_parameter (sequence sw)) as [[p pn]|];
          [apply unmask_placed|apply preserves_ret].
      - split; [done|]. simpl. by rewrite lookup_alter_eq, Hm1. }
    destruct (sessions g3 !! r) as [m3|] eqn:Hm3; [|done].
    injection Hpl3 as F1 F2 F3. simpl in F1, F2, F3.
    unfold exit_sweep in H.
    rewrite (bind_Return _ _ _ _ _ (running_Some _ _ Hr3)) in H.
    unfold bind, step_out in H. rewrite decide_True in H by done.
    destruct (step_out_here r true g3) as [g4 [[]|e|]] eqn:Hso;
      [|by injection H as _ ->; revert Hso; unfold step_out_here, bind,
          the_session; simpl; rewrite lookup_alter_eq, Hm3; simpl;
          destruct (last_add _ _)|done].
    injection H as <-.
    destruct (step_out_here_removes g3 r m3 g4 Hm3 Hso)
      as (m' & a & Hm' & G1 & G2 & Ha & G3).
    exists m'. split; [done|].
    rewrite F1, E1 in G1. rewrite F2 in G2. rewrite F3, E3 in Ha.
    assert (length a = pred (length (action_indices m))) as Hla
      by (by rewrite (last_add_length _ _ _ Ha), removelast_length).
    assert (2 <= length (action_indices m)).
    { destruct (action_indices m) as [|x [|y l]]; simpl in *; [done..|lia]. }
    assert (length (loop_indices m') = pred (length (loop_indices m))) as Hli
      by (by rewrite G2, removelast_length, length_insert, E2).
    assert (length (loop_shape m') = pred (length (loop_shape m))) as Hls
      by (by rewrite G1, removelast_length).
    rewrite E2 in Hdim. unfold geom_session in Hgeom.
    rewrite G3. split_and!; [done|lia..].
  - exfalso. revert H.
    match goal with |- ?c ?g2 = _ -> _ => assert (no_stop c) as Hn end.
    { apply no_stop_bind; [apply no_stop_modify|intros _].
      apply no_stop_bind; [apply no_stop_the_session|intros m2].
      destruct (last_set 0 (action_indices m2)); [|by apply no_stop_raise].
      apply no_stop_bind; [apply no_stop_modify|intros _].
      apply no_stop_bind.
      { destruct (seq_parameter (sequence sw)) as [[p pn]|];
          [apply no_stop_write_param|apply no_stop_ret]. }
      intros _. apply no_stop_bind; [apply no_stop_modify|intros _].
      apply no_stop_ret. }
    intros H. eapply Hn. by erewrite H.
Qed.

Lemma run_op_geom o : preserves geom (run_op o).
Proof.
  destruct o; simpl;
    try (apply preserves_bind; [|intros ?; apply preserves_ret]);
    eauto 2 using measure_geom, new_sweep_geom, __iter___geom, __next___geom
      with geom.
Qed.

Lemma states_along_geom ops : ∀ g, geom g -> Forall geom (states_along ops g).
Proof.
  induction ops as [|o ops IH]; intros g Hg; simpl.
  - by apply Forall_singleton.
  - apply Forall_cons. split; [done|]. apply IH. by apply run_op_geom.
Qed.

Lemma geom_idle : geom idle.
Proof. intros s m. unfold idle. simpl. by rewrite lookup_empty. Qed.

Lemma geom_started : geom started.
Proof.
  unfold started.
  apply (preserves_bind geom); [apply new_measurement_geom| |apply geom_idle].
  intros s. apply __enter___geom.
Qed.

(** C1: inside a running measurement whose loop geometry is consistent,
    [len(loop_shape) == len(loop_indices)] holds for every measurement
    before and after each call of any script of sweep entries, sweep steps,
    sweep exits, measure calls and the other calls of the engine, hence at
    the start and at the end of every [measure] call; an entry
    ([Sweep.__iter__] returning) appends one extent to [loop_shape], one
    index to [loop_indices] and a zero to [action_indices]; an exhaustion
    ([Sweep.__next__] raising [StopIteration]) removes one entry from
    each. *)
Theorem loop_geometry_is_consistent g r m :
  running_measurement g = Some r ->
  sessions g !! r = Some m ->
  geom g ->
  (∀ ops, Forall geom (states_along ops g)) ∧
  (∀ s x nm label unit' timestamp parameter t,
     geom (measure s x nm label unit' timestamp parameter t g).1) ∧
  (∀ w t g' w',
     __iter__ w t g = (g', Return w') ->
     ∃ m' n i,
       sessions g' !! r = Some m' ∧
       loop_shape m' = loop_shape m ++ [n] ∧
       loop_indices m' = loop_indices m ++ [i] ∧
       action_indices m' = action_indices m ++ [0%Z]) ∧
  (∀ w g',
     __next__ w g = (g', Raise StopIteration) ->
     ∃ m',
       sessions g' !! r = Some m' ∧
       loop_shape m' = removelast (loop_shape m) ∧
       S (length (loop_shape m')) = length (loop_shape m) ∧
       S (length (loop_indices m')) = length (loop_indices m) ∧
       S (length (action_indices m')) = length (action_indices m)).
Proof.
  intros Hr Hm Hg. split_and!.
  - intros ops. by apply states_along_geom.
  - intros. by apply measure_geom.
  - intros w t g' w' H. by apply (__iter___appends g r m w t g' w').
  - intros w g' H. apply (__next___removes g r m w g'); try done.
    by apply (Hg r).
Qed.

Lemma loop_geometry_witness :
  let script :=
    [OpSweep (mkSequence [PInt 0; PInt 1] None) (Some "x") None false false;
     OpIter 0 0; OpNext 0;
     OpMeasure 0 (MValue (RFloat 1)) (Some "y") None None false 0;
     OpNext 0;
     OpMeasure 0 (MDict [("a", MValue (RInt 1))]) (Some "grp") None None false 0;
     OpNext 0] in
  Forall geom (states_along script started) ∧
  (place <$> sessions (default started (last (states_along script started))) !! 0
     = Some ([], [], [1%Z])).
Proof.
  intros script.
  destruct (loop_geometry_is_consistent started 0
              (mkMeasurement "msmt"
                 (Some (mkDataSet "" true ∅ ["config"; "measurement_type"] 1 []
                          false false))
                 [] [] [0%Z] ∅ ∅ ∅ true false false false false [] [] []
                 (Some 0) None None)) as (Hall & _).
  - vm_compute. reflexivity.
  - vm_compute. reflexivity.
  - exact geom_started.
  - split; [exact (Hall script)|]. vm_compute. reflexivity.
Defined.

Lemma pointer_update_session ptr s f : preserves (pointer ptr) (update_session s f).
Proof. by intros g Hg. Qed.
Lemma pointer_modify ptr f :
  (∀ g, running_measurement (f g) = running_measurement g) ->
  preserves (pointer ptr) (modify f).
Proof. intros Hf g Hg. unfold pointer. simpl. by rewrite Hf. Qed.
Lemma pointer_write_world ptr f : preserves (pointer ptr) (write_world f).
Proof. intros g Hg. unfold write_world. by destruct (f (world g)). Qed.

Create HintDb pointer discriminated.
#[local] Hint Resolve pointer_update_session pointer_write_world : pointer.

Ltac pointer_leaf :=
  first
    [ solve [eauto 2 with pointer]
    | apply pointer_modify; intros ?; reflexivity ].
Ltac pres_pointer := repeat first [ pointer_leaf | pres_struct ].

Ltac red_state :=
  cbn [fst snd fmap option_fmap option_map default from_option
       running_measurement measurement_thread cls_final_actions
       cls_except_actions cls_max_arrays notify_function sessions sweeps
       array_dicts world logs incoming
       set_running_measurement set_measurement_thread set_cls_except_actions
       set_sessions set_sweeps set_array_dicts set_world set_logs set_incoming
       name dataset loop_shape loop_indices action_indices _data_groups
       actions action_names is_context_manager is_paused is_stopped notify
       force_cell_thread final_actions except_actions _masked_properties
       arrays_of max_arrays _t_start
       set_dataset set_loop_shape set_loop_indices set_action_indices
       set_data_groups set_actions set_action_names set_is_context_manager
       set_is_paused set_is_stopped set_final_actions set_except_actions
       set_masked_properties set_arrays_of set_max_arrays set_t_start
       location active ds_arrays ds_metadata ds_saved_metadata ds_stored
       ds_finalized ds_file_closed
       set_active set_ds_arrays set_ds_metadata set_ds_saved_metadata
       set_ds_stored set_ds_finalized set_ds_file_closed
       add_array add_metadata save_metadata store
       place] in *.

Section pointer.
Context (ptr : option sid).
Local Abbreviation P := (pointer ptr).

Lemma log_pointer e : preserves P (log e).
Proof. unfold log. pres_pointer. Qed.
Hint Resolve log_pointer : pointer.
Lemma _apply_actions_pointer s a l : preserves P (_apply_actions s a l).
Proof. unfold _apply_actions. pres_pointer. Qed.
Hint Resolve _apply_actions_pointer : pointer.
Lemma exit_actions_pointer s e b : preserves P (exit_actions s e b).
Proof. unfold exit_actions. pres_pointer. Qed.
Lemma unmask_all_pointer s : preserves P (unmask_all s).
Proof. unfold unmask_all, unmask_property, restore_write. pres_pointer. Qed.
Lemma update_dataset_pointer s f : preserves P (update_dataset s f).
Proof. unfold update_dataset, the_dataset. pres_pointer. Qed.
Hint Resolve update_dataset_pointer : pointer.
Lemma close_dataset_pointer e s : preserves P (close_dataset e s).
Proof. unfold close_dataset, the_dataset. pres_pointer. Qed.
Hint Resolve close_dataset_pointer : pointer.
Lemma step_out_pointer s b : preserves P (step_out s b).
Proof.
  intros g Hg. unfold step_out.
  case_decide as Hd; clear Hd; revert g Hg;
    unfold step_out_here; pres_pointer.
Qed.
Hint Resolve step_out_pointer : pointer.
Lemma exit_finish_pointer e s b m : preserves P (exit_finish e s b m).
Proof. unfold exit_finish. pres_pointer. Qed.
Lemma _initialize_metadata_pointer e s : preserves P (_initialize_metadata e s).
Proof. unfold _initialize_metadata. pres_pointer. Qed.
Hint Resolve _initialize_metadata_pointer : pointer.
Lemma new_array_dicts_pointer : preserves P new_array_dicts.
Proof. by intros g Hg. Qed.
Hint Resolve new_array_dicts_pointer : pointer.
End pointer.

Lemma enter_primary_pointer env s t g :
  running_measurement (enter_primary env s t g).1 = Some s.
Proof.
  unfold enter_primary. unfold bind at 1. simpl.
  match goal with |- running_measurement (?c ?g1).1 = _ =>
    assert (preserves (pointer (Some s)) c) as Hp end.
  { pres_pointer. }
  by apply Hp.
Qed.

Lemma __exit___clears env s exc g :
  running_measurement g = Some s ->
  __exit__ env s exc g =
    (exit_actions s exc true ;;
     unmask_all s ;;
     exit_finish env s true (Some s) ;;
     update_session s (set_is_context_manager false))
      (set_running_measurement None g).
Proof.
  intros Hr. unfold __exit__. unfold bind at 1. simpl. rewrite Hr.
  rewrite bool_decide_eq_true_2 by done. done.
Qed.

Lemma __exit___pointer env s exc g :
  running_measurement g = Some s ->
  running_measurement (__exit__ env s exc g).1 = None.
Proof.
  intros Hr. rewrite (__exit___clears env s exc g Hr).
  match goal with |- running_measurement (?c ?g1).1 = _ =>
    assert (preserves (pointer None) c) as Hp end.
  { apply preserves_bind; [apply exit_actions_pointer|intros _].
    apply preserves_bind; [apply unmask_all_pointer|intros _].
    apply preserves_bind; [apply exit_finish_pointer|intros _].
    apply pointer_update_session. }
  by apply Hp.
Qed.

Lemma __enter___raise_pointer env s t g g' e :
  running_measurement g = None ->
  __enter__ env s t g = (g', Raise e) ->
  running_measurement g' = None.
Proof.
  intros Hr. unfold __enter__. unfold bind at 1. simpl.
  unfold try_bare. unfold bind at 1. simpl. rewrite Hr.
  pose proof (enter_primary_pointer env s t
                (set_sessions (alter (set_is_context_manager true) s (sessions g)) g)) as Hp.
  destruct (enter_primary env s t _) as [g1 [[]|e1|]]; simpl in Hp.
  - unfold bind at 1. unfold the_session.
    destruct (sessions g1 !! s) as [m1|]; simpl.
    + unfold bind at 1. simpl. rewrite Hp.
      rewrite bool_decide_eq_true_2 by done.
      destruct (force_cell_thread m1 && true); [|done].
      destruct (in_cell_main_thread env); [|done].
      simpl. unfold bind, clear_running_if. simpl. rewrite Hp, decide_True by done.
      by intros [= <- _].
    + unfold bind, clear_running_if. rewrite Hp, decide_True by done.
      by intros [= <- _].
  - unfold bind, clear_running_if. rewrite Hp, decide_True by done.
    by intros [= <- _].
  - done.
Qed.

Lemma update_dataset_Return s f g m d :
  sessions g !! s = Some m -> dataset m = Some d ->
  update_dataset s f g =
    (set_sessions (alter (fun m => set_dataset (f <$> dataset m) m) s (sessions g)) g,
     Return tt).
Proof.
  intros Hm Hd. unfold update_dataset, the_dataset.
  unfold bind at 1.
  rewrite (bind_Return _ _ _ _ _ (the_session_Some _ _ _ Hm)). by rewrite Hd.
Qed.

Lemma wp_bind {A B} (c : M A) (k : A -> M B) Q g :
  wp c (fun a g' => wp (k a) Q g') g -> wp (bind c k) Q g.
Proof.
  intros (g1 & a & Hc & g2 & b & Hk & HQ). exists g2, b.
  by rewrite (bind_Return _ _ _ _ _ Hc).
Qed.
Lemma wp_ret {A} (a : A) (Q : A -> Runtime -> Prop) g : Q a g -> wp (ret a) Q g.
Proof. intros HQ. by exists g, a. Qed.
Lemma wp_modify f (Q : unit -> Runtime -> Prop) g : Q tt (f g) -> wp (modify f) Q g.
Proof. intros HQ. by exists (f g), tt. Qed.
Lemma wp_update_session s f (Q : unit -> Runtime -> Prop) g :
  Q tt (set_sessions (alter f s (sessions g)) g) -> wp (update_session s f) Q g.
Proof. apply wp_modify. Qed.
Lemma wp_log e (Q : unit -> Runtime -> Prop) g :
  Q tt (set_logs (logs g ++ [e]) g) -> wp (log e) Q g.
Proof. apply wp_modify. Qed.
Lemma wp_get_runtime (Q : Runtime -> Runtime -> Prop) g : Q g g -> wp get_runtime Q g.
Proof. intros HQ. by exists g, g. Qed.
Lemma wp_the_session s m (Q : Measurement -> Runtime -> Prop) g :
  sessions g !! s = Some m -> Q m g -> wp (the_session s) Q g.
Proof. intros Hm HQ. exists g, m. by rewrite (the_session_Some _ _ _ Hm). Qed.
Lemma wp_running r (Q : sid -> Runtime -> Prop) g :
  running_measurement g = Some r -> Q r g -> wp running Q g.
Proof. intros Hr HQ. exists g, r. by rewrite (running_Some _ _ Hr). Qed.
Lemma wp_the_dataset s m d (Q : DataSet -> Runtime -> Prop) g :
  sessions g !! s = Some m -> dataset m = Some d -> Q d g -> wp (the_dataset s) Q g.
Proof.
  intros Hm Hd HQ. exists g, d. unfold the_dataset.
  rewrite (bind_Return _ _ _ _ _ (the_session_Some _ _ _ Hm)). by rewrite Hd.
Qed.
Lemma wp_update_dataset s f m d (Q : unit -> Runtime -> Prop) g :
  sessions g !! s = Some m -> dataset m = Some d ->
  Q tt (set_sessions (alter (fun m => set_dataset (f <$> dataset m) m) s (sessions g)) g) ->
  wp (update_dataset s f) Q g.
Proof.
  intros Hm Hd HQ. eexists _, tt. split; [|exact HQ].
  by apply (update_dataset_Return s f g m d).
Qed.

Lemma wp_try_bare {A} (c : M A) h Q g : wp c Q g -> wp (try_bare c h) Q g.
Proof.
  intros (g' & a & Hc & HQ). exists g', a. unfold try_bare. by rewrite Hc.
Qed.
Lemma wp_try_except {A} (c : M A) h Q g : wp c Q g -> wp (try_except c h) Q g.
Proof.
  intros (g' & a & Hc & HQ). exists g', a. unfold try_except. by rewrite Hc.
Qed.
Lemma wp_same {A} (c c' : M A) Q g : c g = c' g -> wp c' Q g -> wp c Q g.
Proof. intros Heq (g' & a & Hc & HQ). exists g', a. by rewrite Heq. Qed.
Lemma wp_new_array_dicts (Q : nat -> Runtime -> Prop) g :
  Q (fresh (dom (array_dicts g)))
    (set_array_dicts (<[fresh (dom (array_dicts g)) := (∅, ∅)]> (array_dicts g)) g) ->
  wp new_array_dicts Q g.
Proof. intros HQ. by eexists _, _. Qed.

Ltac solve_lookup :=
  red_state; rewrite ?lookup_alter_eq; red_state;
  repeat match goal with
         | H : sessions _ !! _ = Some _ |- _ => rewrite H
         end;
  red_state; reflexivity.

Ltac wp_step :=
  lazymatch goal with
  | |- wp (bind _ _) _ _ => apply wp_bind
  | |- wp (ret _) _ _ => apply wp_ret
  | |- wp (update_session _ _) _ _ => apply wp_update_session
  | |- wp (modify _) _ _ => apply wp_modify
  | |- wp (log _) _ _ => apply wp_log
  | |- wp get_runtime _ _ => apply wp_get_runtime
  | |- wp (the_session _) _ _ => eapply wp_the_session; [solve_lookup|]
  | |- wp (the_dataset _) _ _ =>
      eapply wp_the_dataset; [solve_lookup|red_state; reflexivity|]
  | |- wp (update_dataset _ _) _ _ =>
      eapply wp_update_dataset; [solve_lookup|red_state; reflexivity|]
  | |- wp (try_bare _ _) _ _ => apply wp_try_bare
  | |- wp (try_except _ _) _ _ => apply wp_try_except
  | |- wp new_array_dicts _ _ => apply wp_new_array_dicts
  end; red_state.
Ltac wp_go := repeat wp_step.

Lemma __enter___starts env s t g m loc :
  sessions g !! s = Some m ->
  running_measurement g = None ->
  new_data_location env = Some loc ->
  save_metadata_fails env = false ->
  force_cell_thread m && in_cell_main_thread env = false ->
  wp (__enter__ env s t) (fun a g' =>
    a = s ∧
    running_measurement g' = Some s ∧
    measurement_thread g' = Some t ∧
    ∃ m' d k,
      sessions g' !! s = Some m' ∧
      place m' = ([], [], [0%Z]) ∧
      is_context_manager m' = true ∧
      _masked_properties m' = _masked_properties m ∧
      dataset m' = Some d ∧ active d = true ∧ ds_arrays d = ∅ ∧
      arrays_of m' = Some k ∧ array_dicts g' !! k = Some (∅, ∅)) g.
Proof.
  intros Hm Hr Hloc Hsave Hfct.
  unfold __enter__. wp_go.
  eapply (wp_same _ (enter_primary env s t)); [by red_state; rewrite Hr|].
  unfold enter_primary, _initialize_metadata. rewrite Hloc, Hsave. wp_go.
  destruct (station_default env); wp_go;
    (destruct (using_ipython env); wp_go);
    rewrite bool_decide_eq_true_2 by done; rewrite andb_true_r;
    (destruct (force_cell_thread m); cbn [andb] in Hfct; rewrite ?Hfct);
    wp_go; (split; [done|]); (split; [done|]); (split; [done|]);
    eexists _, _, _; (split; [solve_lookup|]); red_state;
    split_and!; try reflexivity; by rewrite lookup_insert_eq.
Qed.

Lemma _apply_actions_Return s acts label : ∀ g,
  _apply_actions s acts label g =
    (set_logs (logs g ++ action_failures s label acts) g, Return tt).
Proof.
  unfold _apply_actions, action_failures.
  induction acts as [|a acts IH]; intros g; simpl.
  - rewrite app_nil_r. by destruct g.
  - unfold bind. destruct (act_raises a) eqn:Ha.
    + rewrite filter_cons_True by done. simpl. rewrite IH. simpl.
      by rewrite <- app_assoc.
    + rewrite filter_cons_False by (by rewrite Ha). simpl. by rewrite IH.
Qed.

Lemma wp__apply_actions s acts label (Q : unit -> Runtime -> Prop) g :
  Q tt (set_logs (logs g ++ action_failures s label acts) g) ->
  wp (_apply_actions s acts label) Q g.
Proof. intros HQ. eexists _, tt. by rewrite _apply_actions_Return. Qed.

Lemma wp_unmask_all s m (Q : unit -> Runtime -> Prop) g :
  sessions g !! s = Some m ->
  Q tt (set_sessions (alter (set_masked_properties []) s (sessions g))
          (with_world_logs (undo_all s (_masked_properties m) (world g, logs g)) g)) ->
  wp (unmask_all s) Q g.
Proof. intros Hm HQ. eexists _, tt. by rewrite (unmask_all_spec g s m Hm). Qed.

Ltac wp_step2 :=
  lazymatch goal with
  | |- wp (_apply_actions _ _ _) _ _ => apply wp__apply_actions; red_state
  | |- wp (unmask_all _) _ _ =>
      eapply wp_unmask_all; [solve_lookup|]; red_state
  | |- _ => wp_step
  end.
Ltac wp_run := repeat wp_step2.

Lemma kept_update_session w st s f :
  (∀ m, _masked_properties (f m) = _masked_properties m) ->
  preserves (kept w st) (update_session s f).
Proof.
  intros Hf g [Hw Hs]. split; [done|]. intros s'. simpl.
  destruct (decide (s = s')) as [<-|Hne].
  - rewrite lookup_alter_eq, <- Hs. destruct (sessions g !! s); [|done].
    simpl. by rewrite Hf.
  - by rewrite lookup_alter_ne.
Qed.
Lemma kept_modify w st f :
  (∀ g, sessions (f g) = sessions g) -> (∀ g, world (f g) = world g) ->
  preserves (kept w st) (modify f).
Proof. intros H1 H2 g [Hw Hs]. split; simpl; by rewrite ?H1, ?H2. Qed.

Create HintDb kept discriminated.
Ltac kept_leaf :=
  first
    [ solve [eauto 2 with kept]
    | apply kept_update_session; intros ?; reflexivity
    | apply kept_modify; intros ?; reflexivity ].
Ltac pres_kept := repeat first [ kept_leaf | pres_struct ].

Section kept.
Context (w : gmap string heap_obj) (st : sid -> option (list masked_property)).
Local Abbreviation P := (kept w st).
Lemma log_kept e : preserves P (log e).
Proof. unfold log. pres_kept. Qed.
Hint Resolve log_kept : kept.
Lemma _apply_actions_kept s a l : preserves P (_apply_actions s a l).
Proof. unfold _apply_actions. pres_kept. Qed.
Hint Resolve _apply_actions_kept : kept.
Lemma update_dataset_kept s f : preserves P (update_dataset s f).
Proof. unfold update_dataset, the_dataset. pres_kept. Qed.
Hint Resolve update_dataset_kept : kept.
Lemma close_dataset_kept e s : preserves P (close_dataset e s).
Proof. unfold close_dataset, the_dataset. pres_kept. Qed.
Hint Resolve close_dataset_kept : kept.
Lemma step_out_kept s b : preserves P (step_out s b).
Proof.
  intros g Hg. unfold step_out.
  case_decide as Hd; clear Hd; revert g Hg; unfold step_out_here; pres_kept.
Qed.
Hint Resolve step_out_kept : kept.
Lemma exit_finish_kept e s b m : preserves P (exit_finish e s b m).
Proof. unfold exit_finish. pres_kept. Qed.
Lemma exit_actions_kept s e b : preserves P (exit_actions s e b).
Proof. unfold exit_actions. pres_kept. Qed.
End kept.

(** ** The running-measurement pointer (C10) *)

(** C10: the running-measurement pointer never outlives its measurement.
    When no measurement is running and [__enter__] raises, the pointer is
    [None] again in the state the exception leaves. When the running
    measurement exits, the pointer is cleared first: the except and final
    actions, the unmasking and the closing of the dataset all run from the
    state where the pointer is already [None], so the pointer is [None]
    after the exit whatever these steps do and however the exit ends; and
    from that state every measurement that exists enters as the outermost
    one and becomes the running measurement, provided its own
    collaborators work. *)
Theorem running_pointer_never_outlives_its_measurement
    (env : enter_env) (xenv : exit_env) (s : sid) (t : tid) (exc : option exn)
    (g g1 : Runtime) :
  running_measurement g = None ->
  running_measurement g1 = Some s ->
  (∀ g' e, __enter__ env s t g = (g', Raise e) -> running_measurement g' = None) ∧
  __exit__ xenv s exc g1 =
    (exit_actions s exc true ;;
     unmask_all s ;;
     exit_finish xenv s true (Some s) ;;
     update_session s (set_is_context_manager false))
      (set_running_measurement None g1) ∧
  running_measurement (__exit__ xenv s exc g1).1 = None ∧
  (∀ env' s' m' t' loc,
     sessions (__exit__ xenv s exc g1).1 !! s' = Some m' ->
     new_data_location env' = Some loc ->
     save_metadata_fails env' = false ->
     in_cell_main_thread env' = false ->
     wp (__enter__ env' s' t')
        (fun a g2 => a = s' ∧ running_measurement g2 = Some s')
        (__exit__ xenv s exc g1).1).
Proof.
  intros Hg Hg1. split_and!.
  - intros g' e. by apply __enter___raise_pointer.
  - by apply __exit___clears.
  - by apply __exit___pointer.
  - intros env' s' m' t' loc Hm' Hloc Hsave Hcell.
    destruct (__enter___starts env' s' t' _ m' loc Hm'
                (__exit___pointer xenv s exc g1 Hg1) Hloc Hsave)
      as (g2 & a & Hrun & -> & Hptr & _).
    { by rewrite Hcell, andb_false_r. }
    by exists g2, s'.
Qed.

Lemma running_pointer_witness :
  (__enter__ no_new_data 0 0 created).2 = Raise (ExternalError "new_data") ∧
  running_measurement (__enter__ no_new_data 0 0 created).1 = None ∧
  (__exit__ no_add_metadata 0 (Some SystemExit) started).2
    = Raise (ExternalError "add_metadata") ∧
  running_measurement (__exit__ no_add_metadata 0 (Some SystemExit) started).1
    = None ∧
  wp (__enter__ quiet_enter 0 0)
     (fun a g2 => a = 0 ∧ running_measurement g2 = Some 0)
     (__exit__ no_add_metadata 0 (Some SystemExit) started).1.
Proof.
  destruct (running_pointer_never_outlives_its_measurement
              no_new_data no_add_metadata 0 0 (Some SystemExit) created started)
    as (Henter & _ & Hexit & Hagain).
  - vm_compute. reflexivity.
  - vm_compute. reflexivity.
  - split_and!.
    + vm_compute. reflexivity.
    + apply (Henter _ (ExternalError "new_data")). vm_compute. reflexivity.
    + vm_compute. reflexivity.
    + exact Hexit.
    + eapply (Hagain quiet_enter 0 _ 0 "").
      * vm_compute. reflexivity.
      * reflexivity.
      * reflexivity.
      * reflexivity.
Defined.

(** ** Whose mask stack a mask goes on (C4) *)

Lemma stack_of_at s g : stack_of s g = default [] (stack_at s g).
Proof. unfold stack_of, stack_at. by destruct (sessions g !! s). Qed.

Lemma other_stack_update_session s n K f :
  s ≠ n -> preserves (fun g => stack_at s g = K) (update_session n f).
Proof. intros Hne g Hg. unfold stack_at. simpl. by rewrite lookup_alter_ne. Qed.

Lemma other_stack_write_world s K f :
  preserves (fun g => stack_at s g = K) (write_world f).
Proof. intros g Hg. unfold write_world. by destruct (f (world g)). Qed.

Lemma mask_other_stack s n K o v kw :
  s ≠ n -> preserves (fun g => stack_at s g = K) (mask n o v kw).
Proof.
  intros Hne.
  unfold mask, _mask_parameter, _mask_attr, _mask_key, push_masked,
    param_get, param_set, py_getattr, py_setattr, py_getitem, py_setitem.
  repeat first [ apply other_stack_write_world
               | by apply other_stack_update_session
               | pres_struct ].
Qed.

Lemma grown_push n l0 r : preserves (grown n l0) (push_masked n r).
Proof.
  intros g [pushed Hg]. exists (pushed ++ [r]). revert Hg.
  unfold stack_at, push_masked. simpl. rewrite lookup_alter_eq.
  destruct (sessions g !! n) as [m|]; [|done]. simpl. intros [= ->].
  by rewrite app_assoc.
Qed.

Lemma grown_write_world n l0 f : preserves (grown n l0) (write_world f).
Proof. intros g Hg. unfold write_world. by destruct (f (world g)). Qed.

Lemma mask_grown n l0 o v kw : preserves (grown n l0) (mask n o v kw).
Proof.
  unfold mask, _mask_parameter, _mask_attr, _mask_key,
    param_get, param_set, py_getattr, py_setattr, py_getitem, py_setitem.
  repeat first [ apply grown_write_world | apply grown_push | pres_struct ].
Qed.

Lemma exit_actions_returns s exc b g m :
  sessions g !! s = Some m ->
  ∃ g', exit_actions s exc b g = (g', Return tt).
Proof.
  intros Hm.
  assert (wp (exit_actions s exc b) (fun _ _ => True) g) as (g' & [] & H & _);
    [|by exists g'].
  unfold exit_actions. destruct exc as [e|]; [destruct b|]; wp_run; done.
Qed.

Lemma __exit___nested env n exc g r :
  running_measurement g = Some r -> r ≠ n ->
  __exit__ env n exc g =
    (exit_actions n exc false ;;
     unmask_all n ;;
     exit_finish env n false (Some r) ;;
     update_session n (set_is_context_manager false)) g.
Proof.
  intros Hr Hne. unfold __exit__. unfold bind at 1. simpl. rewrite Hr.
  rewrite bool_decide_eq_false_2 by congruence. done.
Qed.

(** The exit of a measurement that is not the running one: its own stack is
    undone and emptied, the pointer and the other stacks stay. *)
Lemma __exit___nested_unmasks env n exc g r l :
  running_measurement g = Some r -> r ≠ n ->
  stack_at n g = Some l ->
  let g' := (__exit__ env n exc g).1 in
  stack_at n g' = Some [] ∧
  world g' = (undo_all n l (world g, [])).1 ∧
  running_measurement g' = Some r ∧
  ∀ s, s ≠ n -> stack_at s g' = stack_at s g.
Proof.
  intros Hr Hne Hl g'. subst g'.
  rewrite (__exit___nested env n exc g r Hr Hne).
  assert (∃ m, sessions g !! n = Some m) as [m Hm].
  { unfold stack_at in Hl. destruct (sessions g !! n); [by eexists|done]. }
  destruct (exit_actions_returns n exc false g m Hm) as [ga Ha].
  pose proof (exit_actions_kept (world g) (fun s => stack_at s g) n exc false g
                (conj eq_refl (fun s => eq_refl))) as [Hwa Hsa].
  pose proof (exit_actions_pointer (Some r) n exc false g Hr) as Hpa.
  rewrite Ha in Hwa, Hsa, Hpa. simpl in Hwa, Hsa, Hpa.
  rewrite (bind_Return _ _ _ _ _ Ha).
  assert (∃ ma, sessions ga !! n = Some ma ∧ _masked_properties ma = l)
    as (ma & Hma & Hla).
  { specialize (Hsa n). rewrite Hl in Hsa.
    destruct (sessions ga !! n) as [ma|]; [|done]. exists ma.
    split; [done|]. by injection Hsa. }
  rewrite (bind_Return _ _ _ _ _ (unmask_all_spec ga n ma Hma)).
  set (gb := set_sessions _ _).
  match goal with |- context [ (?c gb).1 ] =>
    assert (preserves (kept (world gb) (fun s => stack_at s gb)) c) as Hk;
    [|assert (preserves (pointer (Some r)) c) as Hp] end.
  { apply preserves_bind; [apply exit_finish_kept|intros _].
    by apply kept_update_session. }
  { apply preserves_bind; [apply exit_finish_pointer|intros _].
    apply pointer_update_session. }
  destruct (Hk gb (conj eq_refl (fun s => eq_refl))) as [Hw Hs].
  specialize (Hp gb Hpa). unfold pointer in Hp.
  unfold stack_at in *. rewrite Hw, Hp. split_and!; [| |done|].
  - rewrite Hs. subst gb. simpl. by rewrite lookup_alter_eq, Hma.
  - subst gb. simpl. rewrite Hla, Hwa. apply attempt_fst.
  - intros s Hsn. rewrite Hs. subst gb. simpl.
    rewrite lookup_alter_ne by done. apply Hsa.
Qed.

Lemma run_masks_pointer ptr n calls : preserves (pointer ptr) (run_masks n calls).
Proof.
  unfold run_masks, mask, _mask_parameter, _mask_attr, _mask_key, push_masked,
    param_get, param_set, py_getattr, py_setattr, py_getitem, py_setitem.
  repeat first [ apply pointer_write_world | apply pointer_update_session
               | pres_struct ].
Qed.




(** ** Returning normally: the array functions *)

Lemma wp_wand {A} (c : M A) (Q Q' : A -> Runtime -> Prop) g :
  wp c Q g -> (∀ a g', Q a g' -> Q' a g') -> wp c Q' g.
Proof. intros (g' & a & Hc & HQ) H. exists g', a. split; [done|by apply H]. Qed.

Lemma wp_data_arrays (s : sid) (m : Measurement) (k : nat)
    (d : gmap (list Z) DataArray * gmap (list Z) DataArray)
    (Q : gmap (list Z) DataArray -> Runtime -> Prop) g :
  sessions g !! s = Some m -> arrays_of m = Some k -> array_dicts g !! k = Some d ->
  Q d.1 g -> wp (data_arrays s) Q g.
Proof.
  intros Hm Hk Hd HQ. exists g, d.1. split; [|done]. unfold data_arrays.
  rewrite (bind_Return _ _ _ _ _ (the_session_Some _ _ _ Hm)).
  unfold bind, the_runtime_arrays. by rewrite Hk, Hd.
Qed.

Lemma wp_set_arrays (s : sid) (m : Measurement) (k : nat)
    (d : gmap (list Z) DataArray * gmap (list Z) DataArray)
    (Q : gmap (list Z) DataArray -> Runtime -> Prop) g :
  sessions g !! s = Some m -> arrays_of m = Some k -> array_dicts g !! k = Some d ->
  Q d.2 g -> wp (set_arrays s) Q g.
Proof.
  intros Hm Hk Hd HQ. exists g, d.2. split; [|done]. unfold set_arrays.
  rewrite (bind_Return _ _ _ _ _ (the_session_Some _ _ _ Hm)).
  unfold bind, the_runtime_arrays. by rewrite Hk, Hd.
Qed.

Lemma wp_update_arrays (s : sid) f (m : Measurement) (k : nat) (Q : unit -> Runtime -> Prop) g :
  sessions g !! s = Some m -> arrays_of m = Some k ->
  Q tt (set_array_dicts (alter f k (array_dicts g)) g) ->
  wp (update_arrays s f) Q g.
Proof.
  intros Hm Hk HQ. eexists _, tt. split; [|exact HQ]. unfold update_arrays.
  rewrite (bind_Return _ _ _ _ _ (the_session_Some _ _ _ Hm)). by rewrite Hk.
Qed.

Lemma array_view_Some s g v :
  array_view s g = Some v ->
  ∃ m d k dd,
    sessions g !! s = Some m ∧ dataset m = Some d ∧ arrays_of m = Some k ∧
    array_dicts g !! k = Some dd ∧
    v = (set_dataset None m, the_max_arrays g m, dd.1).
Proof.
  unfold array_view. intros H.
  destruct (sessions g !! s) as [m|]; [|done].
  destruct (dataset m) as [d|] eqn:Hd; [|done].
  destruct (arrays_of m) as [k|] eqn:Hk; [|done].
  destruct (array_dicts g !! k) as [dd|] eqn:Hdd; [|done].
  exists m, d, k, dd. by simplify_eq.
Qed.

Lemma default_label_Some n : n ≠ "" -> is_Some (default_label n).
Proof. destruct n; [done|]. by eexists. Qed.

Ltac use_facts :=
  repeat match goal with
         | H : sessions _ !! _ = Some _ |- _ => rewrite H
         | H : dataset _ = Some _ |- _ => rewrite H
         | H : arrays_of _ = Some _ |- _ => rewrite H
         | H : array_dicts _ !! _ = Some _ |- _ => rewrite H
         | H : running_measurement _ = Some _ |- _ => rewrite H
         end.

Ltac reduce_facts :=
  red_state;
  repeat (progress (rewrite ?lookup_alter_eq; use_facts; red_state)).

Ltac fact := reduce_facts; reflexivity.

Ltac wp_array_step :=
  lazymatch goal with
  | |- wp (the_session _) _ _ => eapply wp_the_session; [fact|]; red_state
  | |- wp running _ _ => eapply wp_running; [fact|]; red_state
  | |- wp (the_dataset _) _ _ => eapply wp_the_dataset; [fact|fact|]; red_state
  | |- wp (update_dataset _ _) _ _ =>
      eapply wp_update_dataset; [fact|fact|]; red_state
  | |- wp (data_arrays _) _ _ => eapply wp_data_arrays; [fact|fact|fact|]; red_state
  | |- wp (set_arrays _) _ _ => eapply wp_set_arrays; [fact|fact|fact|]; red_state
  | |- wp (update_arrays _ _) _ _ =>
      eapply wp_update_arrays; [fact|fact|]; red_state
  | |- _ => wp_step2
  end.
Ltac wp_arrays := repeat wp_array_step.

(** The end of [_create_data_array]: the array is added to the dataset, the
    metadata saved, and the array put in one of the two dictionaries. *)
Lemma wp_register_array s at_indices (a : DataArray) (sp : bool) v
    (Q : DataArray -> Runtime -> Prop) g :
  running_measurement g = Some s ->
  array_view s g = Some v ->
  (∀ g',
     running_measurement g' = Some s ->
     array_view s g' = Some (v.1, if sp then v.2 else <[at_indices := a]> v.2) ->
     array_at s sp at_indices g' = Some a ->
     dataset_array s (da_array_id a) g' = Some a ->
     Q a g') ->
  wp (update_dataset s (add_array a) ;;
      update_dataset s save_metadata ;;
      (if sp
       then update_arrays s (fun d => (d.1, <[at_indices := a]> d.2))
       else update_arrays s (fun d => (<[at_indices := a]> d.1, d.2))) ;;
      ret a) Q g.
Proof.
  intros Hr Hv HQ.
  destruct (array_view_Some s g v Hv) as (m & d & k & [da sa] & Hm & Hd & Hk & Hdd & ->).
  wp_arrays.
  destruct sp; wp_arrays; apply HQ;
    unfold array_view, array_at, dataset_array, the_max_arrays;
    reduce_facts; rewrite ?lookup_insert_eq; done.
Qed.

Lemma wp_plain_array_naming (n : string) label unit'
    (Q : option string * option string * option string * option string ->
         Runtime -> Prop) g :
  n ≠ "" ->
  (∀ l, Q (Some n, Some n, Some l, Some (default "" unit')) g) ->
  wp (plain_array_naming (Some n) label unit') Q g.
Proof.
  intros Hn HQ. unfold plain_array_naming. destruct label as [l|].
  - apply wp_ret, HQ.
  - destruct (default_label_Some n Hn) as [l ->]. apply wp_ret, HQ.
Qed.

(** Below the ceiling [create_data_array_with] returns, for an array that is
    given a name and no parameter, when the set arrays can be added. *)
Lemma wp_create_data_array_with add s at_indices res (sp : bool) n label unit' v
    (Q : DataArray -> Runtime -> Prop) g :
  running_measurement g = Some s ->
  array_view s g = Some v ->
  size v.2 < v.1.2 ->
  n ≠ "" ->
  (sp = false ->
   wp (add at_indices res n None)
      (fun _ g' => running_measurement g' = Some s ∧ array_view s g' = Some v) g) ->
  (∀ a g',
     running_measurement g' = Some s ->
     array_view s g' = Some (v.1, if sp then v.2 else <[at_indices := a]> v.2) ->
     array_at s sp at_indices g' = Some a ->
     dataset_array s (da_array_id a) g' = Some a ->
     da_name a = n -> is_setpoint a = sp -> da_action_indices a = at_indices ->
     da_shape a = array_shape (loop_shape v.1.1) sp res ->
     Q a g') ->
  wp (create_data_array_with add s at_indices res None sp (Some n) label unit')
     Q g.
Proof.
  intros Hr Hv Hcap Hn Hadd HQ.
  destruct (array_view_Some s g v Hv) as (m & d & k & [da sa] & Hm & Hd & Hk & Hdd & ->).
  simpl in Hcap.
  unfold create_data_array_with.
  rewrite (bool_decide_eq_false_2 (Some n = None)) by done. rewrite andb_false_r.
  wp_arrays.
  rewrite bool_decide_eq_false_2 by lia.
  wp_arrays.
  apply wp_plain_array_naming; [done|]. intros l.
  destruct sp.
  - do 4 wp_array_step. simpl.
    eapply (wp_register_array s at_indices _ true); [done|exact Hv|].
    intros g' ????. apply HQ; try done.
    unfold array_shape. simpl. by destruct (loop_shape m ++ np_shape res).
  - unfold name_or_parameter. rewrite decide_False by done.
    do 3 wp_array_step.
    eapply wp_wand; [by apply Hadd|]. intros sets g1 [Hr1 Hv1]. red_state.
    do 2 wp_array_step. simpl.
    eapply (wp_register_array s at_indices _ false); [done|exact Hv1|].
    intros g' ????. apply HQ; try done.
    unfold array_shape. simpl. by destruct (if is_array res then _ else _).
Qed.

Lemma wp_create_setpoint_array s at_indices res n label unit' v
    (Q : DataArray -> Runtime -> Prop) g :
  running_measurement g = Some s ->
  array_view s g = Some v ->
  size v.2 < v.1.2 ->
  n ≠ "" ->
  (∀ a g',
     running_measurement g' = Some s ->
     array_view s g' = Some v ->
     array_at s true at_indices g' = Some a ->
     dataset_array s (da_array_id a) g' = Some a ->
     da_name a = n -> is_setpoint a = true -> da_action_indices a = at_indices ->
     da_shape a = array_shape (loop_shape v.1.1) true res ->
     Q a g') ->
  wp (create_setpoint_array s at_indices res None (Some n) label unit') Q g.
Proof.
  intros Hr Hv Hcap Hn HQ. unfold create_setpoint_array.
  eapply wp_create_data_array_with; try done.
  intros a g' ? Hv'. destruct v as [p da]. by apply HQ.
Qed.

Lemma wp_collect_inv {A B} (I : Runtime -> Prop) (l : list A) (f : A -> M B)
    (Q : list B -> Runtime -> Prop) g :
  I g ->
  (∀ x g0, I g0 -> wp (f x) (fun _ g' => I g') g0) ->
  (∀ ys g', I g' -> length ys = length l -> Q ys g') ->
  wp (collect l f) Q g.
Proof.
  intros Hg Hf. revert g Hg Q.
  induction l as [|x l IH]; intros g Hg Q HQ; simpl.
  - apply wp_ret. by apply HQ.
  - apply wp_bind. eapply wp_wand; [by apply Hf|]. intros y g1 Hg1. simpl.
    apply wp_bind. apply IH; [done|]. intros ys g2 Hg2 Hlen.
    apply wp_ret. apply HQ; [done|]. simpl. by rewrite Hlen.
Qed.

Lemma set_name_nonempty n k : n +:+ "_set" +:+ k ≠ "".
Proof. by destruct n. Qed.

(** [_add_set_arrays] for a result without a parameter: every set array it
    creates is below the ceiling too, because the ceiling counts the
    measured arrays only. *)
Lemma wp__add_set_arrays s at_indices res n v
    (Q : list array_id -> Runtime -> Prop) g :
  running_measurement g = Some s ->
  array_view s g = Some v ->
  size v.2 < v.1.2 ->
  (∀ ids g',
     running_measurement g' = Some s -> array_view s g' = Some v -> Q ids g') ->
  wp (_add_set_arrays s at_indices res n None) Q g.
Proof.
  intros Hr Hv Hcap HQ.
  destruct (array_view_Some s g v Hv) as (m & d & k & [da sa] & Hm & Hd & Hk & Hdd & Heq).
  unfold _add_set_arrays. wp_array_step. wp_array_step.
  apply wp_bind.
  assert (wp (if is_array res
              then collect (seq 0 (length (np_shape res)))
                     (fun k0 =>
                        let* lu := setpoint_info None n k0 in
                        let* a := create_setpoint_array s
                                    (at_indices ++ replicate k0 0%Z)
                                    (ResRaw (RNdarray (take (S k0) (np_shape res))))
                                    None (Some (n +:+ "_set" +:+ pretty k0))
                                    lu.1 lu.2 in
                        ret (da_array_id a))
              else ret [])
             (fun _ g' => running_measurement g' = Some s ∧ array_view s g' = Some v)
             g) as Haxes.
  { destruct (is_array res); [|by apply wp_ret].
    apply (wp_collect_inv
             (fun g' => running_measurement g' = Some s ∧ array_view s g' = Some v));
      [done| |done].
    intros k0 g0 [Hr0 Hv0]. simpl. apply wp_bind, wp_ret. simpl.
    apply wp_bind.
    eapply wp_create_setpoint_array; [done|exact Hv0|done|apply set_name_nonempty|].
    intros a g' ? ? _ _ _ _ _ _. by apply wp_ret. }
  eapply wp_wand; [exact Haxes|]. intros axes g1 [Hr1 Hv1]. simpl.
  destruct (array_view_Some s g1 v Hv1)
    as (m1 & d1 & k1 & [da1 sa1] & Hm1 & Hd1 & Hk1 & Hdd1 & Heq1).
  wp_array_step. wp_array_step.
  destruct (_ ++ axes) as [|i l]; [destruct (loop_indices m1)|].
  - wp_arrays.
    eapply wp_create_setpoint_array; [done|exact Hv1|done|done|].
    intros a g' ? ? _ _ _ _ _ _. wp_arrays. by apply HQ.
  - wp_arrays. by apply HQ.
  - wp_arrays. by apply HQ.
Qed.

Lemma wp__create_data_array s at_indices res (sp : bool) n label unit' v
    (Q : DataArray -> Runtime -> Prop) g :
  running_measurement g = Some s ->
  array_view s g = Some v ->
  size v.2 < v.1.2 ->
  n ≠ "" ->
  (∀ a g',
     running_measurement g' = Some s ->
     array_view s g' = Some (v.1, if sp then v.2 else <[at_indices := a]> v.2) ->
     array_at s sp at_indices g' = Some a ->
     dataset_array s (da_array_id a) g' = Some a ->
     da_name a = n -> is_setpoint a = sp -> da_action_indices a = at_indices ->
     da_shape a = array_shape (loop_shape v.1.1) sp res ->
     Q a g') ->
  wp (_create_data_array s at_indices res None sp (Some n) label unit') Q g.
Proof.
  intros Hr Hv Hcap Hn HQ. unfold _create_data_array.
  eapply wp_create_data_array_with; try done.
  intros _. by eapply wp__add_set_arrays.
Qed.

(** ** The ceiling on the number of arrays *)

(** At the ceiling [_create_data_array] raises before it changes anything:
    when it is given a parameter or a name and the running measurement [r]
    holds at least [self.max_arrays] measured arrays, it raises the
    [RuntimeError] on the number of arrays and leaves the state as it was.
    The count is that of the measured arrays of [r]; its set arrays [sa] do
    not enter it, and neither does the kind of array that is asked for. *)
Theorem create_data_array_at_the_ceiling
    (g : Runtime) (s r : sid) (m mr : Measurement) (k : nat)
    (da sa : gmap (list Z) DataArray) (at_indices : list Z)
    (res : result_value) (parameter : option param_info) (sp : bool)
    (nm label unit' : option string) :
  running_measurement g = Some r ->
  sessions g !! r = Some mr ->
  arrays_of mr = Some k ->
  array_dicts g !! k = Some (da, sa) ->
  sessions g !! s = Some m ->
  parameter ≠ None ∨ nm ≠ None ->
  the_max_arrays g m <= size da ->
  _create_data_array s at_indices res parameter sp nm label unit' g =
    (g, Raise (RuntimeError (TooManyArrays (the_max_arrays g m)))).
Proof.
  intros Hr Hmr Hk Hdd Hm Hgiven Hcap.
  unfold _create_data_array, create_data_array_with.
  assert (bool_decide (parameter = None) && bool_decide (nm = None) = false) as ->.
  { destruct Hgiven.
    - by rewrite bool_decide_eq_false_2.
    - rewrite (bool_decide_eq_false_2 (nm = None)) by done. apply andb_false_r. }
  unfold bind at 1. simpl.
  rewrite (bind_Return _ _ _ _ _ (running_Some _ _ Hr)).
  unfold bind at 1. unfold data_arrays.
  rewrite (bind_Return _ _ _ _ _ (the_session_Some _ _ _ Hmr)).
  unfold bind at 1. unfold the_runtime_arrays. rewrite Hk, Hdd. simpl.
  rewrite (bind_Return _ _ _ _ _ (the_session_Some _ _ _ Hm)).
  unfold bind at 1. simpl. unfold bind at 1.
  by rewrite bool_decide_eq_true_2.
Qed.

Lemma create_data_array_at_the_ceiling_witness :
  ∃ m,
    sessions one_measured !! 0 = Some m ∧
    the_max_arrays one_measured m = 1 ∧
    array_at 0 false [0%Z] one_measured ≠ None ∧
    array_at 0 true [1%Z] one_measured = None ∧
    _create_data_array 0 [1%Z] (ResSequence 3) None true (Some "iterator")
      None None one_measured =
      (one_measured, Raise (RuntimeError (TooManyArrays (the_max_arrays one_measured m)))).
Proof.
  eexists. split; [vm_compute; reflexivity|].
  split; [vm_compute; reflexivity|].
  split; [vm_compute; discriminate|].
  split; [vm_compute; reflexivity|].
  eapply (create_data_array_at_the_ceiling one_measured 0 0 _ _ 0 _ _).
  - vm_compute. reflexivity.
  - vm_compute. reflexivity.
  - reflexivity.
  - vm_compute. reflexivity.
  - vm_compute. reflexivity.
  - by right.
  - vm_compute. lia.
Defined.



(** ** Measuring a value *)

Lemma set_incoming_id g : set_incoming (incoming g) g = g.
Proof. by destruct g. Qed.

Lemma wait_while_paused_not_paused s m g :
  sessions g !! s = Some m -> is_paused m = false ->
  wait_while_paused s g = (g, Return tt).
Proof.
  intros Hm Hp. unfold wait_while_paused.
  destruct (incoming g) as [|c l] eqn:Hin; simpl; rewrite Hm, Hp, <- Hin;
    by rewrite set_incoming_id.
Qed.

Lemma measure_guards_pass s t m g :
  sessions g !! s = Some m ->
  is_context_manager m = true -> is_stopped m = false ->
  measurement_thread g = Some t ->
  measure_guards s t g = (g, Return tt).
Proof.
  intros Hm Hc Hs Ht. unfold measure_guards.
  rewrite (bind_Return _ _ _ _ _ (the_session_Some _ _ _ Hm)).
  rewrite Hc, Hs. simpl. by rewrite decide_True.
Qed.

(** The head of [measure] lets the running measurement through when it is
    used as a context manager, neither stopped nor paused, in the
    measurement thread. *)
Lemma guarded_measure_ready {A} s t m (body : bool -> sid -> M A) g :
  running_measurement g = Some s ->
  measurement_thread g = Some t ->
  sessions g !! s = Some m ->
  is_context_manager m = true -> is_stopped m = false -> is_paused m = false ->
  guarded_measure t s body g = body false s g.
Proof.
  intros Hr Ht Hm Hc Hs Hp. unfold guarded_measure.
  rewrite (bind_Return _ _ _ _ _ (measure_guards_pass s t m g Hm Hc Hs Ht)).
  rewrite decide_True by done.
  by rewrite (bind_Return _ _ _ _ _ (wait_while_paused_not_paused s m g Hm Hp)).
Qed.

Lemma dispatch_MValue t v nm label unit' parameter r :
  dispatch t (MValue v) nm label unit' parameter r =
    measure_raw r v nm parameter label unit'.
Proof. reflexivity. Qed.

Lemma bind_ret_r {A} (c : M A) g : (let* x := c in ret x) g = c g.
Proof. unfold bind. by destruct (c g) as [g' [a|e|]]. Qed.

Lemma measure_ready_raw s t m v nm label unit' parameter g :
  running_measurement g = Some s ->
  measurement_thread g = Some t ->
  sessions g !! s = Some m ->
  is_context_manager m = true -> is_stopped m = false -> is_paused m = false ->
  measure s (MValue v) nm label unit' false parameter t g =
    measure_raw s v nm parameter label unit' g.
Proof.
  intros Hr Ht Hm Hc Hs Hp. unfold measure.
  rewrite (guarded_measure_ready s t m _ g Hr Ht Hm Hc Hs Hp).
  simpl andb. cbv iota. rewrite dispatch_MValue. unfold bind, ret.
  by destruct (measure_raw s v nm parameter label unit' g) as [g' [a|e|]].
Qed.

Lemma wp__verify_action_fresh s action n m (Q : unit -> Runtime -> Prop) g :
  sessions g !! s = Some m ->
  actions m !! action_indices m = None ->
  Q tt (set_sessions (alter (register_action action n) s (sessions g)) g) ->
  wp (_verify_action s action n true) Q g.
Proof.
  intros Hm Hfree HQ. eexists _, tt. split; [|exact HQ]. unfold _verify_action.
  rewrite (bind_Return _ _ _ _ _ (the_session_Some _ _ _ Hm)). by rewrite Hfree.
Qed.

Lemma wp__verify_action_again s action n m x b (Q : unit -> Runtime -> Prop) g :
  sessions g !! s = Some m ->
  actions m !! action_indices m = Some x ->
  action_names m !! action_indices m = Some n ->
  Q tt g ->
  wp (_verify_action s action n b) Q g.
Proof.
  intros Hm Hx Hn HQ. exists g, tt. split; [|exact HQ]. unfold _verify_action.
  rewrite (bind_Return _ _ _ _ _ (the_session_Some _ _ _ Hm)).
  rewrite Hx, Hn. by rewrite decide_True.
Qed.

Lemma last_add_snoc n a x : last_add n (a ++ [x]) = Some (a ++ [(x + n)%Z]).
Proof. unfold last_add. rewrite rev_unit. by rewrite rev_involutive. Qed.

Lemma wp_skip s N m a x (Q : list Z -> Runtime -> Prop) g :
  running_measurement g = Some s ->
  sessions g !! s = Some m ->
  action_indices m = a ++ [x] ->
  Q (a ++ [(x + N)%Z])
    (set_sessions (alter (set_action_indices (a ++ [(x + N)%Z])) s (sessions g)) g) ->
  wp (skip s N) Q g.
Proof.
  intros Hr Hm Ha HQ. eexists _, _. split; [|exact HQ]. unfold skip.
  rewrite decide_True by done. unfold shift_action_indices.
  rewrite (bind_Return _ _ _ _ _ (the_session_Some _ _ _ Hm)).
  by rewrite Ha, last_add_snoc.
Qed.

Lemma same_but_dataset m1 m2 :
  set_dataset None m2 = set_dataset None m1 -> m2 = set_dataset (dataset m2) m1.
Proof. destruct m1, m2. simpl. by intros [= -> -> -> -> -> -> -> -> -> -> -> -> -> -> -> -> -> ->]. Qed.

Lemma wp_measure_raw_fresh s t m c cap da a x v n label unit'
    (Q : measurable -> Runtime -> Prop) g :
  running_measurement g = Some s ->
  measurement_thread g = Some t ->
  sessions g !! s = Some m ->
  is_context_manager m = true -> is_stopped m = false -> is_paused m = false ->
  action_indices m = a ++ [x] ->
  actions m !! (a ++ [x]) = None ->
  array_view s g = Some (c, cap, da) ->
  da !! (a ++ [x]) = None ->
  size da < cap ->
  isinstance v RAW_VALUE_TYPES = true ->
  is_array (ResRaw v) = false ->
  n ≠ "" ->
  (∀ g' arr,
     running_measurement g' = Some s ->
     array_view s g' =
       Some (set_action_indices (a ++ [(x + 1)%Z]) (register_action None n c),
             cap, <[a ++ [x] := arr]> da) ->
     da_name arr = n -> is_setpoint arr = false ->
     da_shape arr = array_shape (loop_shape m) false (ResRaw v) ->
     dataset_array s (da_array_id arr) g' = Some arr ->
     last_stored s g' =
       Some (match loop_indices m with [] => [0%Z] | l => l end,
             [da_array_id arr]) ->
     Q (MValue (convert_numpy v)) g') ->
  wp (measure s (MValue v) (Some n) label unit' false None t) Q g.
Proof.
  intros Hr Ht Hm Hc Hs Hp Ha Hfree Hv Hda Hcap Hinst Hscalar Hn HQ.
  destruct (array_view_Some s g _ Hv)
    as (m0 & d & k & [da0 sa] & Hm0 & Hd & Hk & Hdd & Heq).
  rewrite Hm in Hm0. injection Hm0 as <-. injection Heq as -> -> ->.
  eapply wp_same; [by apply (measure_ready_raw s t m)|].
  unfold measure_raw. rewrite Hinst. unfold _measure_value.
  do 2 apply wp_bind.
  eapply wp__verify_action_fresh; [exact Hm|by rewrite Ha|].
  unfold register_action. red_state.
  wp_array_step. wp_array_step.
  unfold _add_measurement_result.
  rewrite (bool_decide_eq_false_2 (Some n = None)) by done. rewrite andb_false_r.
  do 3 wp_array_step.
  do 2 wp_array_step. rewrite Ha, Hda.
  do 2 wp_array_step.
  eapply (wp__create_data_array s (a ++ [x]) _ false n label unit'
            (set_dataset None
               (set_action_names (<[a ++ [x] := n]> (action_names m))
                  (set_actions (<[a ++ [x] := None]> (actions m)) m)),
             the_max_arrays g m, da0)).
  { done. }
  { unfold array_view, the_max_arrays. reduce_facts. by rewrite Ha. }
  { done. }
  { done. }
  intros arr g2 Hr2 Hv2 Hat2 Hds2 Hname Hsp Hai Hshape. simpl in Hv2.
  destruct (array_view_Some s g2 _ Hv2)
    as (m2 & d2 & k2 & [da2 sa2] & Hm2 & Hd2 & Hk2 & Hdd2 & Heq2).
  pose proof (f_equal (fun p => p.1.1) Heq2) as Hsame.
  pose proof (f_equal (fun p => p.2) Heq2) as Hda2.
  pose proof (f_equal (fun p => p.1.2) Heq2) as Hcap2.
  cbn [fst snd] in Hsame, Hda2, Hcap2. clear Heq2.
  pose proof (same_but_dataset _ _ (eq_sym Hsame)) as Em2. rewrite Hd2 in Em2.
  clear Hsame. subst da2 m2. cbn [arrays_of set_dataset set_action_names set_actions] in Hk2.
  rewrite Hk in Hk2. injection Hk2 as <-.
  wp_array_step.
  do 2 wp_array_step. rewrite lookup_insert_eq.
  do 4 wp_array_step. rewrite decide_True by done.
  do 3 wp_array_step.
  assert (array_shape (loop_shape m) false (ResRaw (convert_numpy v))
          = array_shape (loop_shape m) false (ResRaw v)) as Hshape'.
  { by destruct v. }
  rewrite Hshape' in Hshape. clear Hshape'.
  destruct v; try discriminate Hscalar; cbn [convert_numpy];
    wp_arrays.
  all: eapply (wp_skip s 1 _ a x); [fact|fact|red_state; exact Ha|]; red_state.
  all: apply wp_ret; apply (HQ _ arr); try done.
  all: unfold array_view, dataset_array, last_stored, the_max_arrays,
         register_action in *.
  all: rewrite ?Hm2 in Hds2; reduce_facts; red_state; rewrite ?Ha.
  all: try (by rewrite last_snoc).
  all: try exact Hds2.
  all: by rewrite Hcap2.
Qed.



(** What [measure] does with a value that is neither a parameter, nor
    callable, nor a dictionary, before it stores anything: a value of none of
    the types in [RAW_VALUE_TYPES] (a string, a tuple) raises the
    [RuntimeError] that it cannot be measured; a value of one of these types,
    [None] among them, measured without a name raises the [RuntimeError] that
    asks for a name. Both leave the state as it was. *)
Theorem measure_rejects_a_value_before_it_stores
    (g : Runtime) (s : sid) (t : tid) (m : Measurement) (v : raw_value)
    (nm label unit' : option string) :
  running_measurement g = Some s ->
  measurement_thread g = Some t ->
  sessions g !! s = Some m ->
  is_context_manager m = true -> is_stopped m = false -> is_paused m = false ->
  (isinstance v RAW_VALUE_TYPES = false ↔
     (∃ z, v = RStr z) ∨ (∃ k, v = RTuple k)) ∧
  (isinstance v RAW_VALUE_TYPES = false ->
   measure s (MValue v) nm label unit' false None t g
     = (g, Raise (RuntimeError CannotMeasure))) ∧
  (isinstance v RAW_VALUE_TYPES = true ->
   measure s (MValue v) None label unit' false None t g
     = (g, Raise (RuntimeError MustProvideName))).
Proof.
  intros Hr Ht Hm Hc Hs Hp. split_and!.
  - split.
    + destruct v; try (by intros [=]); intros _; [left|right]; by eexists.
    + by intros [[z ->]|[k ->]].
  - intros Hno. rewrite (measure_ready_raw s t m) by done.
    unfold measure_raw. by rewrite Hno.
  - intros Hyes. rewrite (measure_ready_raw s t m) by done.
    unfold measure_raw. by rewrite Hyes.
Qed.

Lemma measure_rejects_a_value_witness :
  measure 0 (MValue (RStr "high")) (Some "level") None None false None 0 started
    = (started, Raise (RuntimeError CannotMeasure)) ∧
  measure 0 (MValue RNone) None None None false None 0 started
    = (started, Raise (RuntimeError MustProvideName)).
Proof.
  destruct (measure_rejects_a_value_before_it_stores started 0 0
              (mkMeasurement "msmt"
                 (Some (mkDataSet "" true ∅ ["config"; "measurement_type"] 1 []
                          false false))
                 [] [] [0%Z] ∅ ∅ ∅ true false false false false [] [] []
                 (Some 0) None None)
              (RStr "high") (Some "level") None None)
    as (_ & Hstr & _); try (vm_compute; reflexivity).
  destruct (measure_rejects_a_value_before_it_stores started 0 0
              (mkMeasurement "msmt"
                 (Some (mkDataSet "" true ∅ ["config"; "measurement_type"] 1 []
                          false false))
                 [] [] [0%Z] ∅ ∅ ∅ true false false false false [] [] []
                 (Some 0) None None)
              RNone None None None)
    as (_ & _ & Hnone); try (vm_compute; reflexivity).
  split; [by apply Hstr|by apply Hnone].
Defined.

(** ** The checks of [measure], pause and stop *)

(** The checks at the top of [measure] come in a fixed order, and each one
    that fails leaves the state as it was: a measurement that is not used as
    a context manager raises the [RuntimeError] on the context manager; one
    that is, and is stopped, raises [SystemExit], in whatever thread and
    paused or not; one that is neither, measured from another thread than the
    measurement thread, raises the [RuntimeError] on the other thread. This
    holds for whatever is measured, running measurement or not. *)
Theorem measure_checks_in_order
    (g : Runtime) (s : sid) (m : Measurement) (x : measurable)
    (nm label unit' : option string) (timestamp : bool)
    (parameter : option param_info) (t : tid) :
  sessions g !! s = Some m ->
  (is_context_manager m = false ->
   measure s x nm label unit' timestamp parameter t g
     = (g, Raise (RuntimeError MustUseContextManager))) ∧
  (is_context_manager m = true -> is_stopped m = true ->
   measure s x nm label unit' timestamp parameter t g = (g, Raise SystemExit)) ∧
  (is_context_manager m = true -> is_stopped m = false ->
   measurement_thread g ≠ Some t ->
   measure s x nm label unit' timestamp parameter t g
     = (g, Raise (RuntimeError MeasureOtherThread))).
Proof.
  intros Hm. unfold measure, guarded_measure, measure_guards.
  split_and!.
  - intros Hc. unfold bind at 1. unfold bind at 1.
    rewrite (the_session_Some _ _ _ Hm). by rewrite Hc.
  - intros Hc Hs. unfold bind at 1. unfold bind at 1.
    rewrite (the_session_Some _ _ _ Hm). by rewrite Hc, Hs.
  - intros Hc Hs Ht. unfold bind at 1. unfold bind at 1.
    rewrite (the_session_Some _ _ _ Hm). rewrite Hc, Hs. simpl.
    by rewrite decide_False.
Qed.

Lemma measure_checks_in_order_witness :
  measure 0 (MValue (RInt 1)) (Some "x") None None false None 0 created
    = (created, Raise (RuntimeError MustUseContextManager)) ∧
  measure 0 (MValue (RInt 1)) (Some "x") None None false None 0 (stop started).1
    = ((stop started).1, Raise SystemExit) ∧
  measure 0 (MValue (RInt 1)) (Some "x") None None false None 1 started
    = (started, Raise (RuntimeError MeasureOtherThread)).
Proof.
  split_and!.
  - eapply (measure_checks_in_order created 0); vm_compute; reflexivity.
  - eapply (measure_checks_in_order (stop started).1 0); vm_compute; reflexivity.
  - eapply (measure_checks_in_order started 0); try (vm_compute; reflexivity).
    vm_compute. discriminate.
Defined.

Lemma alter_as_insert {A} (f : A -> A) (i : nat) (x : A) (M : gmap nat A) :
  M !! i = Some x -> alter f i M = <[i := f x]> M.
Proof.
  intros Hx. apply map_eq. intros j. destruct (decide (i = j)) as [<-|Hne].
  - by rewrite lookup_alter_eq, lookup_insert_eq, Hx.
  - by rewrite lookup_alter_ne, lookup_insert_ne.
Qed.

Lemma stop_Return g r m :
  running_measurement g = Some r -> sessions g !! r = Some m ->
  stop g =
    (set_sessions (<[r := set_is_paused false (set_is_stopped true m)]> (sessions g)) g,
     Return tt).
Proof.
  intros Hr Hm. unfold stop, resume.
  rewrite (bind_Return _ _ _ _ _ (running_Some _ _ Hr)).
  unfold bind, update_session, modify, running. simpl. rewrite Hr. simpl.
  assert (alter (set_is_paused false) r (alter (set_is_stopped true) r (sessions g))
          = <[r := set_is_paused false (set_is_stopped true m)]> (sessions g)) as ->.
  { rewrite (alter_as_insert _ r (set_is_stopped true m)).
    - rewrite (alter_as_insert _ r m) by done. by rewrite insert_insert_eq.
    - by rewrite lookup_alter_eq, Hm. }
  by destruct g.
Qed.

(** After [stop()] nothing more is measured and no sweep goes on: [stop]
    sets [is_stopped] and clears [is_paused] on the running measurement and
    changes nothing else; from then on every [measure] on the running
    measurement, every [measure] that a nested measurement delegates to it,
    and every step of a sweep raises [SystemExit] and leaves the state as it
    is, whatever is measured and whatever controls are still to come. *)
Theorem stop_ends_measuring_and_sweeping
    (g : Runtime) (r : sid) (m : Measurement) :
  running_measurement g = Some r ->
  sessions g !! r = Some m ->
  is_context_manager m = true ->
  let g1 :=
    set_sessions
      (<[r := set_is_paused false (set_is_stopped true m)]> (sessions g)) g in
  stop g = (g1, Return tt) ∧
  (∀ x nm label unit' timestamp parameter t,
     measure r x nm label unit' timestamp parameter t g1 = (g1, Raise SystemExit)) ∧
  (∀ s ms x nm label unit' timestamp parameter,
     sessions g !! s = Some ms -> s ≠ r ->
     is_context_manager ms = true -> is_stopped ms = false ->
     ∀ t, measurement_thread g = Some t ->
     measure s x nm label unit' timestamp parameter t g1 = (g1, Raise SystemExit)) ∧
  (∀ w, __next__ w g1 = (g1, Raise SystemExit)).
Proof.
  intros Hr Hm Hc g1.
  assert (sessions g1 !! r = Some (set_is_paused false (set_is_stopped true m)))
    as Hm1 by apply lookup_insert_eq.
  split_and!.
  - by apply stop_Return.
  - intros. by eapply (measure_checks_in_order g1 r).
  - intros s ms x nm label unit' timestamp parameter Hms Hne Hcs Hss t Ht.
    assert (sessions g1 !! s = Some ms) as Hms1.
    { subst g1. simpl. by rewrite lookup_insert_ne. }
    unfold measure, guarded_measure.
    rewrite (bind_Return _ _ _ _ _ (measure_guards_pass s t ms g1 Hms1 Hcs Hss Ht)).
    rewrite decide_False by (simpl; congruence).
    rewrite (bind_Return _ _ _ _ _ (running_Some g1 r Hr)).
    unfold bind at 1, measure_guards. unfold bind at 1.
    rewrite (the_session_Some _ _ _ Hm1). simpl. by rewrite Hc.
  - intros w. unfold __next__.
    rewrite (bind_Return _ _ _ _ _ (running_Some g1 r Hr)).
    rewrite (bind_Return _ _ _ _ _ (the_session_Some _ _ _ Hm1)).
    simpl. by rewrite Hc.
Qed.

Lemma stop_ends_measuring_witness :
  (stop paused).2 = Return tt ∧
  is_paused <$> sessions (stop paused).1 !! 0 = Some false ∧
  measure 0 (MValue (RInt 1)) (Some "x") None None false None 0 (stop paused).1
    = ((stop paused).1, Raise SystemExit) ∧
  __next__ 0 (stop paused).1 = ((stop paused).1, Raise SystemExit).
Proof.
  destruct (stop_ends_measuring_and_sweeping paused 0
              (mkMeasurement "msmt"
                 (Some (mkDataSet "" true ∅ ["config"; "measurement_type"] 1 []
                          false false))
                 [] [] [0%Z] ∅ ∅ ∅ true true false false false [] [] []
                 (Some 0) None None))
    as (Hstop & Hmeasure & _ & Hnext); try (vm_compute; reflexivity).
  rewrite Hstop. split_and!; [done|done|apply Hmeasure|apply Hnext].
Defined.

Lemma set_is_paused_id m : is_paused m = true -> set_is_paused true m = m.
Proof. destruct m. simpl. by intros ->. Qed.

Lemma set_sessions_id g : set_sessions (sessions g) g = g.
Proof. by destruct g. Qed.

Lemma pause_when_paused g r m :
  running_measurement g = Some r -> sessions g !! r = Some m ->
  is_paused m = true -> pause g = (g, Return tt).
Proof.
  intros Hr Hm Hp. unfold pause.
  rewrite (bind_Return _ _ _ _ _ (running_Some _ _ Hr)).
  unfold update_session, modify.
  rewrite alter_id; [by rewrite set_sessions_id|].
  intros m' Hm'. rewrite Hm in Hm'. injection Hm' as <-. by apply set_is_paused_id.
Qed.

Lemma poll_paused_pauses g r m k l :
  running_measurement g = Some r -> sessions g !! r = Some m ->
  is_paused m = true ->
  poll_paused r (replicate k CPause ++ l) g = poll_paused r l g.
Proof.
  intros Hr Hm Hp. induction k as [|k IH]; [done|]. simpl.
  rewrite Hm, Hp. by rewrite (pause_when_paused g r m).
Qed.

Lemma poll_paused_not_paused s m l g :
  sessions g !! s = Some m -> is_paused m = false ->
  poll_paused s l g = (set_incoming l g, Return tt).
Proof. intros Hm Hp. destruct l; simpl; by rewrite Hm, Hp. Qed.

Lemma resume_Return g r :
  running_measurement g = Some r ->
  resume g = (set_sessions (alter (set_is_paused false) r (sessions g)) g, Return tt).
Proof.
  intros Hr. unfold resume. by rewrite (bind_Return _ _ _ _ _ (running_Some _ _ Hr)).
Qed.

(** The wait [while msmt.is_paused: sleep(0.1)] on the running measurement
    [r]: when [r] is not paused the wait is over at once and changes nothing.
    When [r] is paused, the thread sleeps through every further [pause()] of
    the operator; it waits on as long as nothing else comes, and it goes on
    at the first [resume()] or [stop()], in the state that this call leaves,
    where [r] is not paused any more: a [stop()] too ends the wait. *)
Theorem wait_while_paused_follows_the_operator
    (g : Runtime) (r : sid) (m : Measurement) (k : nat) (c : control)
    (rest : list control) :
  running_measurement g = Some r ->
  sessions g !! r = Some m ->
  (is_paused m = false -> wait_while_paused r g = (g, Return tt)) ∧
  (is_paused m = true -> incoming g = replicate k CPause ->
   wait_while_paused r g = (set_incoming [] g, Waiting)) ∧
  (is_paused m = true -> incoming g = replicate k CPause ++ c :: rest ->
   c ≠ CPause ->
   wait_while_paused r g = (set_incoming rest (apply_control c g).1, Return tt) ∧
   sessions (apply_control c g).1 !! r =
     Some (set_is_paused false
             (set_is_stopped
                (match c with CStop => true | _ => is_stopped m end) m))).
Proof.
  intros Hr Hm. split_and!.
  - intros Hp. by apply (wait_while_paused_not_paused r m).
  - intros Hp Hin. unfold wait_while_paused. rewrite Hin.
    rewrite <- (app_nil_r (replicate k CPause)).
    rewrite (poll_paused_pauses g r m k [] Hr Hm Hp). simpl. by rewrite Hm, Hp.
  - intros Hp Hin Hc. unfold wait_while_paused. rewrite Hin.
    rewrite (poll_paused_pauses g r m k _ Hr Hm Hp). simpl. rewrite Hm, Hp.
    destruct c; [done| |]; simpl.
    + rewrite (resume_Return g r Hr). simpl. rewrite lookup_alter_eq, Hm. simpl.
      split; [|by destruct m].
      apply (poll_paused_not_paused r (set_is_paused false m)); [|done].
      simpl. by rewrite lookup_alter_eq, Hm.
    + rewrite (stop_Return g r m Hr Hm). simpl. rewrite lookup_insert_eq.
      split; [|done].
      apply (poll_paused_not_paused r (set_is_paused false (set_is_stopped true m)));
        [|done].
      simpl. by rewrite lookup_insert_eq.
Qed.

Lemma wait_while_paused_witness :
  wait_while_paused 0 (set_incoming [CPause; CPause] paused)
    = (paused, Waiting) ∧
  (wait_while_paused 0 (set_incoming [CPause; CStop; CResume] paused)).2
    = Return tt ∧
  incoming (wait_while_paused 0 (set_incoming [CPause; CStop; CResume] paused)).1
    = [CResume].
Proof.
  pose (m := mkMeasurement "msmt"
               (Some (mkDataSet "" true ∅ ["config"; "measurement_type"] 1 []
                        false false))
               [] [] [0%Z] ∅ ∅ ∅ true true false false false [] [] []
               (Some 0) None None).
  destruct (wait_while_paused_follows_the_operator
              (set_incoming [CPause; CPause] paused) 0 m 2 CStop [])
    as (_ & Hwait & _); [vm_compute; reflexivity|vm_compute; reflexivity|].
  destruct (wait_while_paused_follows_the_operator
              (set_incoming [CPause; CStop; CResume] paused) 0 m 1 CStop [CResume])
    as (_ & _ & Hgo); [vm_compute; reflexivity|vm_compute; reflexivity|].
  destruct Hgo as [Hgo _];
    [vm_compute; reflexivity|vm_compute; reflexivity|done|].
  rewrite Hgo. rewrite Hwait; [|vm_compute; reflexivity|vm_compute; reflexivity].
  vm_compute. done.
Defined.

(** A [stop()] that comes while the thread waits in the pause poll of
    [measure] does not keep what is being measured from being stored: the
    check of [is_stopped] is made before the wait, so when the running
    measurement is paused and not stopped at the call, and the operator
    then stops it, the call goes on with the measurement itself, from the
    state that [stop()] leaves. For a raw value this is the storing of the
    value. *)
Theorem stop_during_the_wait_lets_measure_through
    (g : Runtime) (s : sid) (t : tid) (m : Measurement) (v : raw_value)
    (nm label unit' : option string) (parameter : option param_info)
    (rest : list control) :
  running_measurement g = Some s ->
  measurement_thread g = Some t ->
  sessions g !! s = Some m ->
  is_context_manager m = true -> is_stopped m = false -> is_paused m = true ->
  incoming g = CStop :: rest ->
  measure s (MValue v) nm label unit' false parameter t g =
    measure_raw s v nm parameter label unit' (set_incoming rest (stop g).1) ∧
  is_stopped <$> sessions (set_incoming rest (stop g).1) !! s = Some true.
Proof.
  intros Hr Ht Hm Hc Hs Hp Hin.
  destruct (wait_while_paused_follows_the_operator g s m 0 CStop rest Hr Hm)
    as (_ & _ & Hgo).
  destruct (Hgo Hp Hin) as [Hwait Hafter]; [done|]. simpl in Hwait, Hafter.
  split.
  - unfold measure, guarded_measure.
    rewrite (bind_Return _ _ _ _ _ (measure_guards_pass s t m g Hm Hc Hs Ht)).
    rewrite decide_True by done.
    rewrite (bind_Return _ _ _ _ _ Hwait).
    simpl andb. cbv iota. rewrite dispatch_MValue. unfold bind, ret.
    by destruct (measure_raw s v nm parameter label unit' _) as [g' [a|e|]].
  - simpl. by rewrite Hafter.
Qed.

Lemma stop_during_the_wait_witness :
  (measure 0 (MValue (RInt 1)) (Some "x") None None false None 0
     (set_incoming [CStop] paused)).2 = Return (MValue (RInt 1)) ∧
  is_stopped <$>
    sessions (measure 0 (MValue (RInt 1)) (Some "x") None None false None 0
                (set_incoming [CStop] paused)).1 !! 0 = Some true.
Proof.
  destruct (stop_during_the_wait_lets_measure_through
              (set_incoming [CStop] paused) 0 0
              (mkMeasurement "msmt"
                 (Some (mkDataSet "" true ∅ ["config"; "measurement_type"] 1 []
                          false false))
                 [] [] [0%Z] ∅ ∅ ∅ true true false false false [] [] []
                 (Some 0) None None)
              (RInt 1) (Some "x") None None None [])
    as [Hrun _]; try (vm_compute; reflexivity).
  rewrite Hrun. vm_compute. done.
Defined.

(** ** Skipping, reverting and stepping out *)

Lemma set_action_indices_id m : set_action_indices (action_indices m) m = m.
Proof. by destruct m. Qed.

(** [revert(N)] undoes [skip(N)], and [skip(N)] undoes [revert(N)]: called
    on any measurement while [r] runs with action indices that are not
    empty, the two calls in a row return the action indices they found and
    leave the whole state as it was. With empty action indices [skip] raises
    the [IndexError] and changes nothing. *)
Theorem revert_undoes_skip
    (g : Runtime) (s r : sid) (m : Measurement) (N : Z) :
  running_measurement g = Some r ->
  sessions g !! r = Some m ->
  (action_indices m ≠ [] ->
   (skip s N ;; revert s N) g = (g, Return (action_indices m)) ∧
   (revert s N ;; skip s N) g = (g, Return (action_indices m))) ∧
  (action_indices m = [] -> skip s N g = (g, Raise IndexError)).
Proof.
  intros Hr Hm. split.
  - intros Hne.
    destruct (exists_last Hne) as (a & x & Ha).
    assert (∀ N1 N2 : Z, (x + N1 + N2)%Z = x ->
              (shift_action_indices r N1 ;; shift_action_indices r N2) g
              = (g, Return (action_indices m))) as Hround.
    { intros N1 N2 Hx.
      rewrite (bind_Return _ _ _ _ _
                 (shift_action_indices_spec g r m a x N1 Hm Ha)).
      rewrite (shift_action_indices_spec _ r
                 (set_action_indices (a ++ [(x + N1)%Z]) m) a (x + N1)%Z N2);
        [|by simpl; rewrite lookup_alter_eq, Hm|done].
      simpl. rewrite Hx, <- Ha. f_equal.
      rewrite alter_alter_eq.
      rewrite alter_id; [by destruct g|].
      intros m' Hm'. rewrite Hm in Hm'. injection Hm' as <-. simpl.
      by destruct m. }
    split.
    + unfold bind. rewrite (skip_running _ _ _ _ Hr).
      specialize (Hround N (- N)%Z). unfold bind in Hround.
      destruct (shift_action_indices r N g) as [g1 [a1|e|]] eqn:E; try done.
      * assert (running_measurement g1 = Some r) as Hr1.
        { rewrite (shift_action_indices_spec g r m a x N Hm Ha) in E.
          by injection E as <- _. }
        rewrite (revert_running _ _ _ _ Hr1). apply Hround. lia.
      * all: rewrite (shift_action_indices_spec g r m a x N Hm Ha) in E; done.
      * all: rewrite (shift_action_indices_spec g r m a x N Hm Ha) in E; done.
    + unfold bind. rewrite (revert_running _ _ _ _ Hr).
      specialize (Hround (- N)%Z N). unfold bind in Hround.
      destruct (shift_action_indices r (- N) g) as [g1 [a1|e|]] eqn:E; try done.
      * assert (running_measurement g1 = Some r) as Hr1.
        { rewrite (shift_action_indices_spec g r m a x (- N) Hm Ha) in E.
          by injection E as <- _. }
        rewrite (skip_running _ _ _ _ Hr1). apply Hround. lia.
      * all: rewrite (shift_action_indices_spec g r m a x (- N) Hm Ha) in E; done.
      * all: rewrite (shift_action_indices_spec g r m a x (- N) Hm Ha) in E; done.
  - intros Hnil. rewrite (skip_running _ _ _ _ Hr). unfold shift_action_indices.
    rewrite (bind_Return _ _ _ _ _ (the_session_Some _ _ _ Hm)). by rewrite Hnil.
Qed.

Lemma revert_undoes_skip_witness :
  (skip 0 3 ;; revert 0 3) started = (started, Return [0%Z]) ∧
  skip 0 3 created = (created, Raise AttributeError).
Proof.
  destruct (revert_undoes_skip started 0 0
              (mkMeasurement "msmt"
                 (Some (mkDataSet "" true ∅ ["config"; "measurement_type"] 1 []
                          false false))
                 [] [] [0%Z] ∅ ∅ ∅ true false false false false [] [] []
                 (Some 0) None None) 3)
    as [Hround _]; try (vm_compute; reflexivity).
  destruct Hround as [Hround _]; [done|].
  split; [exact Hround|vm_compute; reflexivity].
Defined.

(** [step_out] on any measurement while [r] runs: with at least two action
    indices it drops the last one and increments the one before it, after
    removing the last loop extent and the last loop index if
    [reduce_dimension] is set, and changes nothing else. With fewer than two
    action indices it raises the [IndexError]; the loop extent and index are
    removed by then all the same, and the action indices are as before. *)
Theorem step_out_drops_one_level
    (g : Runtime) (s r : sid) (m : Measurement) (reduce_dimension : bool) :
  running_measurement g = Some r ->
  sessions g !! r = Some m ->
  let reduced :=
    if reduce_dimension
    then set_loop_indices (removelast (loop_indices m))
           (set_loop_shape (removelast (loop_shape m)) m)
    else m in
  (∀ a x y, action_indices m = a ++ [x; y] ->
     step_out s reduce_dimension g =
       (set_sessions
          (<[r := set_action_indices (a ++ [(x + 1)%Z]) reduced]> (sessions g)) g,
        Return tt)) ∧
  (length (action_indices m) < 2 ->
     step_out s reduce_dimension g =
       (set_sessions (<[r := reduced]> (sessions g)) g, Raise IndexError)).
Proof.
  intros Hr Hm reduced.
  assert (step_out s reduce_dimension g = step_out_here r reduce_dimension g) as ->.
  { unfold step_out. destruct (decide (running_measurement g = Some s)) as [Hs|Hs].
    - rewrite Hr in Hs. by injection Hs as ->.
    - by rewrite (bind_Return _ _ _ _ _ (running_Some _ _ Hr)). }
  assert (∃ g1, (if reduce_dimension
                 then update_session r (fun m =>
                        set_loop_indices (removelast (loop_indices m))
                          (set_loop_shape (removelast (loop_shape m)) m))
                 else ret tt) g = (g1, Return tt) ∧
                g1 = set_sessions (<[r := reduced]> (sessions g)) g)
    as (g1 & Hfirst & Hg1).
  { subst reduced. destruct reduce_dimension; eexists; (split; [reflexivity|]).
    - by rewrite (alter_as_insert _ r m).
    - rewrite insert_id by done. by destruct g. }
  assert (sessions g1 !! r = Some reduced) as Hm1.
  { subst g1. simpl. apply lookup_insert_eq. }
  assert (action_indices reduced = action_indices m) as Hai.
  { subst reduced. by destruct reduce_dimension. }
  unfold step_out_here. rewrite (bind_Return _ _ _ _ _ Hfirst).
  rewrite (bind_Return _ _ _ _ _ (the_session_Some _ _ _ Hm1)). rewrite Hai.
  split.
  - intros a x y Ha. rewrite Ha.
    replace (a ++ [x; y]) with ((a ++ [x]) ++ [y]) by by rewrite <- app_assoc.
    rewrite removelast_last, last_add_app.
    unfold update_session, modify. f_equal.
    rewrite (alter_as_insert _ r reduced) by done. subst g1. simpl.
    by rewrite insert_insert_eq.
  - intros Hlen.
    assert (removelast (action_indices m) = []) as ->.
    { destruct (action_indices m) as [|y [|z l]]; simpl in *; try done. lia. }
    rewrite last_add_nil. by subst g1.
Qed.

Lemma step_out_drops_one_level_witness :
  place <$> sessions (step_out 1 false nested_masking).1 !! 0
    = Some ([], [], [1%Z]) ∧
  (step_out 0 true started).2 = Raise IndexError.
Proof.
  destruct (step_out_drops_one_level nested_masking 1 0
              (mkMeasurement "msmt"
                 (Some (mkDataSet "" true ∅
                          ["config"; "measurement_type"; "data_groups"] 1 []
                          false false))
                 [] [] [0%Z; 0%Z] {[ [0%Z] := 1 ]} ∅ ∅ true false false false
                 false [] [] [] (Some 0) None None) false)
    as [Hout _]; try (vm_compute; reflexivity).
  destruct (step_out_drops_one_level started 0 0
              (mkMeasurement "msmt"
                 (Some (mkDataSet "" true ∅ ["config"; "measurement_type"] 1 []
                          false false))
                 [] [] [0%Z] ∅ ∅ ∅ true false false false false [] [] []
                 (Some 0) None None) true)
    as [_ Hshort]; try (vm_compute; reflexivity).
  rewrite (Hout [] 0%Z 0%Z eq_refl). rewrite Hshort by (vm_compute; lia).
  split; [|done]. simpl. by rewrite lookup_insert_eq.
Defined.

(** ** The arrays at a place *)

Lemma take_all_iff {A} (n : nat) (l : list A) : take n l = l ↔ length l <= n.
Proof.
  split.
  - intros H. apply (f_equal length) in H. rewrite length_take in H. lia.
  - apply take_ge.
Qed.

(** [get_arrays(action_indices)] selects by length, not by place: of the
    measured arrays of the measurement it returns exactly those whose action
    indices have at most as many entries as the indices asked for (the
    current action indices by default), whatever these entries are. Two
    calls with indices of the same length return the same arrays; an array
    that lies deeper than the indices asked for is never returned. *)
Theorem get_arrays_selects_by_length
    (g : Runtime) (s : sid) (m : Measurement) (k : nat)
    (d : gmap (list Z) DataArray * gmap (list Z) DataArray)
    (at_indices : option (list Z)) :
  sessions g !! s = Some m ->
  arrays_of m = Some k ->
  array_dicts g !! k = Some d ->
  ∃ sel,
    get_arrays s at_indices g = (g, Return sel) ∧
    (∀ key arr,
       sel !! key = Some arr ↔
       d.1 !! key = Some arr ∧
       length key <= length (default (action_indices m) at_indices)) ∧
    (∀ a a', length a = length a' ->
       get_arrays s (Some a) g = get_arrays s (Some a') g).
Proof.
  intros Hm Hk Hd. eexists. split_and!.
  - unfold get_arrays.
    rewrite (bind_Return _ _ _ _ _ (the_session_Some _ _ _ Hm)).
    unfold bind at 1. unfold data_arrays.
    rewrite (bind_Return _ _ _ _ _ (the_session_Some _ _ _ Hm)).
    unfold bind, the_runtime_arrays. rewrite Hk, Hd. reflexivity.
  - intros key arr. rewrite map_lookup_filter_Some. simpl.
    by rewrite take_all_iff.
  - intros a a' Hlen. unfold get_arrays. simpl. by rewrite Hlen.
Qed.

Lemma get_arrays_selects_by_length_witness :
  ∃ sel,
    get_arrays 0 (Some [7%Z]) one_measured = (one_measured, Return sel) ∧
    is_Some (sel !! [0%Z]) ∧
    get_arrays 0 (Some [7%Z]) one_measured = get_arrays 0 (Some [0%Z]) one_measured.
Proof.
  assert (∃ m, sessions one_measured !! 0 = Some m ∧ arrays_of m = Some 0)
    as (m & Hm & Hk).
  { eexists. split; vm_compute; reflexivity. }
  assert (∃ d, array_dicts one_measured !! 0 = Some d ∧ is_Some (d.1 !! [0%Z]))
    as (d & Hd & [arr Harr]).
  { eexists. split; [vm_compute; reflexivity|]. vm_compute. by eexists. }
  destruct (get_arrays_selects_by_length one_measured 0 m 0 d (Some [7%Z])
              Hm Hk Hd) as (sel & Hrun & Hsel & Hlen).
  exists sel. split_and!; [exact Hrun| |by apply Hlen].
  exists arr. apply Hsel. split; [exact Harr|simpl; lia].
Defined.

(** ** Leaving the outermost measurement *)

Lemma wp_same_at {A} (c c' : M A) Q g g' :
  c g = c' g' -> wp c' Q g' -> wp c Q g.
Proof. intros Heq (g2 & a & Hc & HQ). exists g2, a. by rewrite Heq. Qed.

Lemma set_logs_id g : set_logs (logs g) g = g.
Proof. by destruct g. Qed.

Lemma wp_notify s (b : bool) (nf : option bool) (Q : unit -> Runtime -> Prop) g :
  (∀ l, Q tt (set_logs (logs g ++ l) g)) ->
  wp (match b, nf with
      | true, Some raises =>
          if raises then log (LogCouldNotNotify s) else ret tt
      | _, _ => ret tt
      end) Q g.
Proof.
  intros HQ.
  assert (Q tt g) as HQ0.
  { specialize (HQ []). by rewrite app_nil_r, set_logs_id in HQ. }
  destruct b; [destruct nf as [[]|]|]; [apply wp_log, HQ|by apply wp_ret..].
Qed.

(** The except and final actions: they never raise, and they touch the logs
    and the lists of actions only. *)
Lemma wp_exit_actions s exc (b : bool) m (Q : unit -> Runtime -> Prop) g :
  sessions g !! s = Some m ->
  (∀ g1,
     running_measurement g1 = running_measurement g ->
     measurement_thread g1 = measurement_thread g ->
     world g1 = world g ->
     array_dicts g1 = array_dicts g ->
     sweeps g1 = sweeps g ->
     cls_final_actions g1 = cls_final_actions g ->
     notify_function g1 = notify_function g ->
     (exc ≠ None -> b = true -> cls_except_actions g1 = []) ->
     sessions g1 !! s =
       Some (set_final_actions []
               (match exc with Some _ => set_except_actions [] m | None => m end)) ->
     (∀ z, z ≠ s -> sessions g1 !! z = sessions g !! z) ->
     Q tt g1) ->
  wp (exit_actions s exc b) Q g.
Proof.
  intros Hm HQ. unfold exit_actions.
  destruct exc as [e|]; [destruct b|]; wp_arrays; apply HQ; red_state; try done.
  all: try by rewrite !lookup_alter_eq, Hm.
  all: intros z Hz; by rewrite !lookup_alter_ne.
Qed.

Lemma wp___exit___outermost xenv s exc m d (Q : unit -> Runtime -> Prop) g :
  running_measurement g = Some s ->
  sessions g !! s = Some m ->
  dataset m = Some d ->
  add_metadata_fails xenv = false ->
  finalize_fails xenv = false ->
  exit_save_metadata_fails xenv = false ->
  (∀ g' m' d',
     running_measurement g' = None ->
     world g' = (undo_all s (_masked_properties m) (world g, [])).1 ->
     sessions g' !! s = Some m' ->
     dataset m' = Some d' ->
     is_context_manager m' = false ->
     _masked_properties m' = [] ->
     final_actions m' = [] ->
     (exc ≠ None -> except_actions m' = [] ∧ cls_except_actions g' = []) ->
     active d' = false ->
     ds_arrays d' = ds_arrays d ->
     ds_metadata d' = ds_metadata d ++ ["t_stop"; "timings"] ->
     (if only_setpoints d
      then ds_finalized d' = ds_finalized d ∧
           ds_file_closed d' = (has_close_file xenv || ds_file_closed d) ∧
           ds_saved_metadata d' = S (ds_saved_metadata d)
      else ds_finalized d' = true ∧
           ds_file_closed d' = ds_file_closed d ∧
           ds_saved_metadata d' = ds_saved_metadata d) ->
     Q tt g') ->
  wp (__exit__ xenv s exc) Q g.
Proof.
  intros Hr Hm Hd Hadd Hfin Hsave HQ.
  eapply wp_same_at; [by apply __exit___clears|].
  apply wp_bind. eapply wp_exit_actions; [exact Hm|].
  intros g1 Hr1 _ Hw1 _ _ Hcf1 Hnf1 Hce1 Hm1 _. simpl in Hr1.
  specialize (fun H => Hce1 H eq_refl).
  set (m1 := set_final_actions [] (match exc with Some _ => set_except_actions [] m | None => m end)) in *.
  assert (dataset m1 = Some d) as Hd1 by (subst m1; by destruct exc).
  assert (_masked_properties m1 = _masked_properties m) as Hmp1
    by (subst m1; by destruct exc).
  assert (final_actions m1 = []) as Hfa1 by done.
  assert (exc ≠ None -> except_actions m1 = []) as Hea1
    by (subst m1; by destruct exc).
  clearbody m1. clear Hm.
  unfold exit_finish, close_dataset. rewrite Hadd, Hfin, Hsave.
  wp_arrays. unfold with_world_logs. red_state.
  apply wp_notify. intros l. red_state. wp_arrays.
  change (only_setpoints _) with (only_setpoints d).
  destruct (only_setpoints d) eqn:Hos; cbn [negb]; wp_arrays.
  all: try (destruct (has_close_file xenv) eqn:Hclose; wp_arrays).
  all: eapply HQ;
    [ red_state; exact Hr1
    | red_state; rewrite Hmp1, Hw1; unfold undo_all; apply attempt_fst
    | fact
    | red_state; reflexivity
    | red_state; reflexivity
    | red_state; reflexivity
    | red_state; exact Hfa1
    | red_state; intros Hexc; split; [by apply Hea1|by apply Hce1]
    | red_state; reflexivity
    | red_state; reflexivity
    | red_state; by rewrite <- app_assoc
    | red_state; rewrite ?Hclose; by split_and! ].
Qed.



(** ** Entering the outermost measurement *)

(** [__enter__] when no measurement is running and the collaborators work:
    it returns the measurement, which is now the running measurement, in the
    calling thread as the measurement thread. The measurement is a context
    manager with no loop yet and the action indices [(0,)], a fresh, active
    dataset without arrays, and fresh, empty array dictionaries; its masks
    are kept. When [new_data] fails, the exception goes on to the caller, no
    measurement is running afterwards, and the measurement has become a
    context manager all the same. *)
Theorem enter_starts_the_measurement
    (g : Runtime) (env : enter_env) (s : sid) (t : tid) (m : Measurement) :
  sessions g !! s = Some m ->
  running_measurement g = None ->
  (∀ loc,
     new_data_location env = Some loc ->
     save_metadata_fails env = false ->
     force_cell_thread m && in_cell_main_thread env = false ->
     ∃ g' m' d k,
       __enter__ env s t g = (g', Return s) ∧
       running_measurement g' = Some s ∧ measurement_thread g' = Some t ∧
       sessions g' !! s = Some m' ∧ place m' = ([], [], [0%Z]) ∧
       is_context_manager m' = true ∧
       _masked_properties m' = _masked_properties m ∧
       dataset m' = Some d ∧ active d = true ∧ ds_arrays d = ∅ ∧
       arrays_of m' = Some k ∧ array_dicts g' !! k = Some (∅, ∅)) ∧
  (new_data_location env = None ->
   ∃ g',
     __enter__ env s t g = (g', Raise (ExternalError "new_data")) ∧
     running_measurement g' = None ∧
     is_context_manager <$> sessions g' !! s = Some true).
Proof.
  intros Hm Hr. split.
  - intros loc Hloc Hsave Hfct.
    destruct (__enter___starts env s t g m loc Hm Hr Hloc Hsave Hfct)
      as (g' & a & Hrun & -> & Hptr & Hthread & m' & d & k & Hpost).
    by exists g', m', d, k.
  - intros Hloc. eexists. split_and!.
    + unfold __enter__. unfold bind at 1. simpl.
      unfold try_bare. unfold bind at 1. simpl. rewrite Hr.
      unfold enter_primary. rewrite Hloc. simpl.
      unfold bind, clear_running_if. simpl. rewrite decide_True by done.
      reflexivity.
    + done.
    + simpl. by rewrite lookup_alter_eq, Hm.
Qed.

Lemma enter_starts_the_measurement_witness :
  (∃ g' m',
     __enter__ quiet_enter 0 0 created = (g', Return 0) ∧
     running_measurement g' = Some 0 ∧
     sessions g' !! 0 = Some m' ∧ place m' = ([], [], [0%Z])) ∧
  (__enter__ no_new_data 0 0 created).2 = Raise (ExternalError "new_data").
Proof.
  destruct (enter_starts_the_measurement created quiet_enter 0 0
              (mkMeasurement "msmt" None [] [] [] ∅ ∅ ∅ false false false
                 false false [] [] [] None None None))
    as [Hgo _]; try (vm_compute; reflexivity).
  destruct (Hgo "" eq_refl eq_refl eq_refl)
    as (g' & m' & d & k & Hrun & Hptr & _ & Hm' & Hplace & _).
  destruct (enter_starts_the_measurement created no_new_data 0 0
              (mkMeasurement "msmt" None [] [] [] ∅ ∅ ∅ false false false
                 false false [] [] [] None None None))
    as [_ Hfail]; try (vm_compute; reflexivity).
  destruct (Hfail eq_refl) as (g1 & Hraise & _). rewrite Hraise.
  split; [|done]. by exists g', m'.
Defined.

(** ** Nested measurements *)

Ltac lookups :=
  repeat first
    [ rewrite lookup_alter_eq
    | rewrite lookup_alter_ne by congruence
    | rewrite lookup_insert_eq
    | rewrite lookup_insert_ne by congruence ].

Ltac mfact :=
  red_state;
  repeat (progress (lookups; use_facts; red_state));
  reflexivity.

Lemma wp___enter___nested env s t r mr dr ms (Q : sid -> Runtime -> Prop) g :
  running_measurement g = Some r ->
  r ≠ s ->
  measurement_thread g = Some t ->
  sessions g !! r = Some mr ->
  dataset mr = Some dr ->
  sessions g !! s = Some ms ->
  (∀ g',
     running_measurement g' = Some r ->
     measurement_thread g' = Some t ->
     world g' = world g ->
     array_dicts g' = array_dicts g ->
     logs g' = logs g ->
     sessions g' !! r =
       Some (set_action_indices (action_indices mr ++ [0%Z])
               (set_dataset (Some (add_metadata "data_groups" dr))
                  (set_data_groups (<[action_indices mr := s]> (_data_groups mr))
                     mr))) ->
     sessions g' !! s =
       Some (set_arrays_of (arrays_of mr)
               (set_action_indices (action_indices mr ++ [0%Z])
                  (set_loop_indices (loop_indices mr)
                     (set_loop_shape (loop_shape mr)
                        (set_is_context_manager true ms))))) ->
     (∀ x, x ≠ r -> x ≠ s -> sessions g' !! x = sessions g !! x) ->
     Q s g') ->
  wp (__enter__ env s t) Q g.
Proof.
  intros Hr Hne Ht Hmr Hdr Hms HQ.
  unfold __enter__. wp_go.
  eapply (wp_same _ (enter_nested s t r)); [by red_state; rewrite Hr|].
  unfold enter_nested. wp_go. rewrite decide_True by done.
  assert (sessions (set_sessions (alter (set_is_context_manager true) s (sessions g)) g)
            !! r = Some mr) as Hmr0.
  { simpl. by rewrite lookup_alter_ne. }
  eapply wp_bind, wp_the_session; [exact Hmr0|]. red_state. clear Hmr0.
  do 2 wp_step.
  eapply wp_bind, wp_update_dataset; [mfact|mfact|]. red_state.
  do 2 wp_step.
  eapply wp_bind, wp_the_session; [mfact|]. red_state.
  wp_step.
  eapply wp_bind, wp_the_session; [mfact|]. red_state.
  wp_go.
  rewrite Hr, (bool_decide_eq_false_2 (Some r = Some s)) by congruence.
  rewrite andb_false_r. wp_go.
  apply HQ; red_state; try done.
  - lookups. rewrite Hmr. red_state. by rewrite Hdr.
  - lookups. by rewrite Hms.
  - intros x Hxr Hxs. by lookups.
Qed.

Lemma wp_step_out_keep r mr a x y (Q : unit -> Runtime -> Prop) g :
  running_measurement g = Some r ->
  sessions g !! r = Some mr ->
  action_indices mr = a ++ [x; y] ->
  Q tt (set_sessions
          (alter (set_action_indices (a ++ [(x + 1)%Z])) r (sessions g)) g) ->
  wp (step_out r false) Q g.
Proof.
  intros Hr Hm Ha HQ. eexists _, tt. split; [|exact HQ].
  unfold step_out. rewrite decide_True by done. unfold step_out_here.
  unfold bind at 1. simpl.
  rewrite (bind_Return _ _ _ _ _ (the_session_Some _ _ _ Hm)). rewrite Ha.
  replace (a ++ [x; y]) with ((a ++ [x]) ++ [y]) by by rewrite <- app_assoc.
  by rewrite removelast_last, last_add_app.
Qed.

Lemma wp___exit___nested xenv n exc r mn mr a x y (Q : unit -> Runtime -> Prop) g :
  running_measurement g = Some r ->
  r ≠ n ->
  sessions g !! n = Some mn ->
  sessions g !! r = Some mr ->
  action_indices mr = a ++ [x; y] ->
  (∀ g',
     running_measurement g' = Some r ->
     measurement_thread g' = measurement_thread g ->
     world g' = (undo_all n (_masked_properties mn) (world g, [])).1 ->
     array_dicts g' = array_dicts g ->
     sweeps g' = sweeps g ->
     sessions g' !! r = Some (set_action_indices (a ++ [(x + 1)%Z]) mr) ->
     sessions g' !! n =
       Some (set_is_context_manager false
               (set_masked_properties []
                  (set_final_actions []
                     (match exc with
                      | Some _ => set_except_actions [] mn
                      | None => mn
                      end)))) ->
     (∀ z, z ≠ r -> z ≠ n -> sessions g' !! z = sessions g !! z) ->
     Q tt g') ->
  wp (__exit__ xenv n exc) Q g.
Proof.
  intros Hr Hne Hmn Hmr Ha HQ.
  eapply wp_same; [by apply (__exit___nested xenv n exc g r)|].
  apply wp_bind. eapply wp_exit_actions; [exact Hmn|].
  intros g1 Hr1 Ht1 Hw1 Had1 Hsw1 _ _ _ Hmn1 Hother1.
  rewrite Hr in Hr1.
  assert (sessions g1 !! r = Some mr) as Hmr1 by by rewrite Hother1.
  set (m1 := set_final_actions [] _) in *.
  assert (_masked_properties m1 = _masked_properties mn) as Hmp1
    by (subst m1; by destruct exc).
  apply wp_bind. eapply wp_unmask_all; [exact Hmn1|].
  unfold with_world_logs. apply wp_bind. unfold exit_finish.
  eapply wp_step_out_keep; [exact Hr1|mfact|exact Ha|]. red_state.
  wp_go. apply HQ; red_state; try done.
  - rewrite Hmp1, Hw1. unfold undo_all. apply attempt_fst.
  - lookups. by rewrite Hmr1.
  - lookups. by rewrite Hmn1.
  - intros z Hzr Hzn. lookups. by apply Hother1.
Qed.

(** [__enter__] of a measurement [s] while another measurement [r] runs: in
    the measurement thread it returns [s]; [r] stays the running
    measurement, gets [s] as the data group at its current action indices,
    the metadata [data_groups], and one more action index, [0]; [s] takes
    over the loop shape, the loop indices and the new action indices of [r]
    and shares its array dictionaries, and is a context manager. Nothing
    else changes. In any other thread [__enter__] raises the [RuntimeError]
    on the other thread; [s] has become a context manager all the same, and
    nothing else has changed. *)
Theorem enter_of_a_nested_measurement
    (g : Runtime) (env : enter_env) (s r : sid) (t : tid)
    (mr ms : Measurement) (dr : DataSet) :
  running_measurement g = Some r ->
  r ≠ s ->
  sessions g !! r = Some mr ->
  dataset mr = Some dr ->
  sessions g !! s = Some ms ->
  (measurement_thread g = Some t ->
   ∃ g',
     __enter__ env s t g = (g', Return s) ∧
     running_measurement g' = Some r ∧
     world g' = world g ∧ array_dicts g' = array_dicts g ∧ logs g' = logs g ∧
     sessions g' !! r =
       Some (set_action_indices (action_indices mr ++ [0%Z])
               (set_dataset (Some (add_metadata "data_groups" dr))
                  (set_data_groups (<[action_indices mr := s]> (_data_groups mr))
                     mr))) ∧
     sessions g' !! s =
       Some (set_arrays_of (arrays_of mr)
               (set_action_indices (action_indices mr ++ [0%Z])
                  (set_loop_indices (loop_indices mr)
                     (set_loop_shape (loop_shape mr)
                        (set_is_context_manager true ms))))) ∧
     (∀ x, x ≠ r -> x ≠ s -> sessions g' !! x = sessions g !! x)) ∧
  (measurement_thread g ≠ Some t ->
   __enter__ env s t g =
     (set_sessions (<[s := set_is_context_manager true ms]> (sessions g)) g,
      Raise (RuntimeError EnterOtherThread))).
Proof.
  intros Hr Hne Hmr Hdr Hms. split.
  - intros Ht.
    destruct (wp___enter___nested env s t r mr dr ms
                (fun a g' =>
                   a = s ∧
                   running_measurement g' = Some r ∧
                   world g' = world g ∧ array_dicts g' = array_dicts g ∧
                   logs g' = logs g ∧
                   sessions g' !! r =
                     Some (set_action_indices (action_indices mr ++ [0%Z])
                             (set_dataset (Some (add_metadata "data_groups" dr))
                                (set_data_groups
                                   (<[action_indices mr := s]> (_data_groups mr))
                                   mr))) ∧
                   sessions g' !! s =
                     Some (set_arrays_of (arrays_of mr)
                             (set_action_indices (action_indices mr ++ [0%Z])
                                (set_loop_indices (loop_indices mr)
                                   (set_loop_shape (loop_shape mr)
                                      (set_is_context_manager true ms))))) ∧
                   (∀ x, x ≠ r -> x ≠ s -> sessions g' !! x = sessions g !! x))
                g Hr Hne Ht Hmr Hdr Hms) as (g' & a & Hrun & -> & Hpost).
    { intros g' ????????. by split_and!. }
    by exists g'.
  - intros Ht. unfold __enter__. unfold bind at 1. simpl.
    unfold try_bare. unfold bind at 1. simpl. rewrite Hr.
    unfold enter_nested. unfold bind at 1. simpl.
    rewrite decide_False by done. simpl.
    unfold bind, clear_running_if. simpl. rewrite Hr.
    rewrite decide_False by congruence. simpl.
    by rewrite (alter_as_insert _ s ms).
Qed.

Lemma enter_of_a_nested_measurement_witness :
  let g := (new_measurement "inner" false false masking).1 in
  (__enter__ quiet_enter 1 0 g).2 = Return 1 ∧
  place <$> sessions (__enter__ quiet_enter 1 0 g).1 !! 0
    = Some ([], [], [0%Z; 0%Z]) ∧
  place <$> sessions (__enter__ quiet_enter 1 0 g).1 !! 1
    = Some ([], [], [0%Z; 0%Z]) ∧
  (__enter__ quiet_enter 1 7 g).2 = Raise (RuntimeError EnterOtherThread).
Proof.
  intros g.
  destruct (enter_of_a_nested_measurement g quiet_enter 1 0 0
              (mkMeasurement "msmt"
                 (Some (mkDataSet "" true ∅ ["config"; "measurement_type"] 1 []
                          false false))
                 [] [] [0%Z] ∅ ∅ ∅ true false false false false [] [] []
                 (Some 0) None None)
              (mkMeasurement "inner" None [] [] [] ∅ ∅ ∅ false false false
                 false false [] [] [] None None None)
              (mkDataSet "" true ∅ ["config"; "measurement_type"] 1 [] false false))
    as [Hin _]; try (vm_compute; reflexivity); [done|].
  destruct Hin as (g' & Hrun & _ & _ & _ & _ & Hr & Hs & _);
    [vm_compute; reflexivity|].
  destruct (enter_of_a_nested_measurement g quiet_enter 1 0 7
              (mkMeasurement "msmt"
                 (Some (mkDataSet "" true ∅ ["config"; "measurement_type"] 1 []
                          false false))
                 [] [] [0%Z] ∅ ∅ ∅ true false false false false [] [] []
                 (Some 0) None None)
              (mkMeasurement "inner" None [] [] [] ∅ ∅ ∅ false false false
                 false false [] [] [] None None None)
              (mkDataSet "" true ∅ ["config"; "measurement_type"] 1 [] false false))
    as [_ Hout]; try (vm_compute; reflexivity); [done|].
  rewrite Hout by (vm_compute; discriminate). rewrite Hrun. simpl.
  rewrite Hr, Hs. done.
Defined.

Lemma fresh_session_free g : sessions g !! fresh (dom (sessions g)) = None.
Proof. apply not_elem_of_dom. apply is_fresh. Qed.

(** [with Measurement(name): pass] inside a running measurement [r], in the
    measurement thread: the block returns, and it has taken exactly one
    action index of [r]. The last action index of [r] is incremented by one,
    the new measurement is the data group of [r] at the action indices where
    the block began, and the dataset of [r] has the metadata [data_groups]
    added; the loop shape and indices of [r], the objects, the arrays and
    every other measurement are as before, and [r] is still the running
    measurement. *)
Theorem nested_block_takes_one_action_index
    (g : Runtime) (nm : string) (r : sid) (t : tid) (mr : Measurement)
    (dr : DataSet) (a : list Z) (x : Z) :
  running_measurement g = Some r ->
  measurement_thread g = Some t ->
  sessions g !! r = Some mr ->
  dataset mr = Some dr ->
  action_indices mr = a ++ [x] ->
  ∃ g',
    with_measurement nm t (fun _ => ret tt) g = (g', Return tt) ∧
    running_measurement g' = Some r ∧
    world g' = world g ∧ array_dicts g' = array_dicts g ∧
    sessions g' !! r =
      Some (set_action_indices (a ++ [(x + 1)%Z])
              (set_dataset (Some (add_metadata "data_groups" dr))
                 (set_data_groups
                    (<[a ++ [x] := fresh (dom (sessions g))]> (_data_groups mr))
                    mr))) ∧
    (∀ z, z ≠ r -> z ≠ fresh (dom (sessions g)) ->
       sessions g' !! z = sessions g !! z).
Proof.
  intros Hr Ht Hmr Hdr Ha.
  set (n := fresh (dom (sessions g))).
  assert (r ≠ n) as Hne.
  { intros ->. pose proof (fresh_session_free g) as Hfree. fold n in Hfree.
    by rewrite Hmr in Hfree. }
  set (Q := fun (_ : unit) g' =>
              running_measurement g' = Some r ∧
              world g' = world g ∧ array_dicts g' = array_dicts g ∧
              sessions g' !! r =
                Some (set_action_indices (a ++ [(x + 1)%Z])
                        (set_dataset (Some (add_metadata "data_groups" dr))
                           (set_data_groups
                              (<[a ++ [x] := n]> (_data_groups mr)) mr))) ∧
              (∀ z, z ≠ r -> z ≠ n -> sessions g' !! z = sessions g !! z)).
  assert (wp (with_measurement nm t (fun _ => ret tt)) Q g)
    as (g' & [] & Hrun & Hpost); [|by exists g'].
  unfold with_measurement. apply wp_bind.
  exists (set_sessions
            (<[n := mkMeasurement nm None [] [] [] ∅ ∅ ∅ false false false false
                      true [] [] [] None None None]> (sessions g)) g), n.
  split; [done|]. apply wp_bind.
  eapply (wp___enter___nested quiet_enter n t r mr dr); try done.
  { simpl. by rewrite lookup_insert_ne. }
  { simpl. by rewrite lookup_insert_eq. }
  intros g1 Hr1 Ht1 Hw1 Had1 _ Hmr1 Hmn1 Hother1. simpl in Hw1, Had1.
  eapply (wp_same _ (__exit__ quiet_exit n None ;; ret tt)); [done|].
  apply wp_bind.
  eapply (wp___exit___nested quiet_exit n None r _ _ a x 0%Z);
    [exact Hr1|exact Hne|exact Hmn1|exact Hmr1| |].
  { simpl. by rewrite Ha, <- app_assoc. }
  intros g2 Hr2 _ Hw2 Had2 _ Hmr2 _ Hother2. apply wp_ret.
  subst Q. simpl. split_and!; try done.
  - by rewrite Hw2.
  - by rewrite Had2.
  - rewrite Hmr2. simpl. by rewrite Ha.
  - intros z Hzr Hzn. rewrite Hother2, Hother1 by done. simpl.
    by rewrite lookup_insert_ne.
Qed.

Lemma nested_block_witness :
  ∃ g',
    with_measurement "inner" 0 (fun _ => ret tt) started = (g', Return tt) ∧
    place <$> sessions g' !! 0 = Some ([], [], [1%Z]) ∧
    _data_groups <$> sessions g' !! 0 = Some {[ [0%Z] := 1 ]}.
Proof.
  destruct (nested_block_takes_one_action_index started "inner" 0 0
              (mkMeasurement "msmt"
                 (Some (mkDataSet "" true ∅ ["config"; "measurement_type"] 1 []
                          false false))
                 [] [] [0%Z] ∅ ∅ ∅ true false false false false [] [] []
                 (Some 0) None None)
              (mkDataSet "" true ∅ ["config"; "measurement_type"] 1 [] false false)
              [] 0%Z)
    as (g' & Hrun & _ & _ & _ & Hr & _); try (vm_compute; reflexivity).
  exists g'. rewrite Hr. split; [exact Hrun|]. split; vm_compute; reflexivity.
Defined.

(** ** Creating a sweep *)

(** What the creation of an array does not touch: everything but the
    measurements and the array dictionaries. *)
Lemma beside_update_session g0 s f :
  preserves (beside_arrays g0) (update_session s f).
Proof. intros g Hg. exact Hg. Qed.

Lemma beside_modify_arrays g0 f :
  preserves (beside_arrays g0)
    (modify (fun g => set_array_dicts (f (array_dicts g)) g)).
Proof. intros g Hg. exact Hg. Qed.

Lemma beside_the_runtime_arrays g0 o :
  preserves (beside_arrays g0) (the_runtime_arrays o).
Proof.
  intros g Hg. unfold the_runtime_arrays.
  by destruct o as [k|]; [destruct (array_dicts g !! k)|].
Qed.

Ltac pres_beside_step :=
  first
    [ apply beside_update_session
    | apply beside_modify_arrays
    | apply beside_the_runtime_arrays
    | pres_struct ].
Ltac pres_beside := repeat pres_beside_step.

Lemma beside_update_dataset g0 s f :
  preserves (beside_arrays g0) (update_dataset s f).
Proof. unfold update_dataset, the_dataset. pres_beside. Qed.

Lemma beside_update_arrays g0 s f :
  preserves (beside_arrays g0) (update_arrays s f).
Proof.
  unfold update_arrays. apply preserves_bind; [pres_beside|]. intros m.
  destruct (arrays_of m); [|pres_beside].
  apply (beside_modify_arrays g0 (alter f n)).
Qed.

Lemma beside_data_arrays g0 s : preserves (beside_arrays g0) (data_arrays s).
Proof. unfold data_arrays. pres_beside. Qed.

Lemma beside_set_arrays g0 s : preserves (beside_arrays g0) (set_arrays s).
Proof. unfold set_arrays. pres_beside. Qed.

Lemma beside_create_data_array_with g0 add s at_indices res parameter sp
    nm label unit' :
  (∀ a b c d, preserves (beside_arrays g0) (add a b c d)) ->
  preserves (beside_arrays g0)
    (create_data_array_with add s at_indices res parameter sp nm label unit').
Proof.
  intros Hadd. unfold create_data_array_with, plain_array_naming,
    name_or_parameter.
  repeat first
    [ apply Hadd
    | apply beside_update_dataset
    | apply beside_update_arrays
    | apply beside_data_arrays
    | pres_beside_step ].
Qed.

Lemma beside__create_data_array g0 s at_indices res parameter sp nm label unit' :
  preserves (beside_arrays g0)
    (_create_data_array s at_indices res parameter sp nm label unit').
Proof.
  unfold _create_data_array. apply beside_create_data_array_with.
  intros a b c d. unfold _add_set_arrays, create_setpoint_array, setpoint_info.
  repeat first
    [ apply beside_create_data_array_with; intros ????
    | apply beside_set_arrays
    | pres_beside_step ].
Qed.

Lemma array_at_Some s sp at_indices g arr :
  array_at s sp at_indices g = Some arr ->
  ∃ m k d, sessions g !! s = Some m ∧ arrays_of m = Some k ∧
           array_dicts g !! k = Some d ∧
           (if sp then d.2 else d.1) !! at_indices = Some arr.
Proof.
  unfold array_at. intros H.
  destruct (sessions g !! s) as [m|]; [|done].
  destruct (arrays_of m) as [k|] eqn:Hk; [|done].
  destruct (array_dicts g !! k) as [d|] eqn:Hd; [|done].
  by exists m, k, d.
Qed.

Lemma name_or_nonempty nm dflt : dflt ≠ "" -> name_or nm dflt ≠ "".
Proof.
  intros Hd. unfold name_or. destruct nm as [n|]; [|done]. by case_decide.
Qed.

Lemma wp_new_sweep_reuse sq nm unit' (rv rs : bool) r c cap da arr
    (Q : swid -> Runtime -> Prop) g :
  running_measurement g = Some r ->
  array_view r g = Some (c, cap, da) ->
  array_at r true (action_indices c) g = Some arr ->
  Q (fresh (dom (sweeps g)))
    (set_sweeps
       (<[fresh (dom (sweeps g)) :=
            mkSweep nm unit' sq (length (loop_shape c)) None None rv rs
              (da_array_id arr)]> (sweeps g)) g) ->
  wp (new_sweep sq nm unit' rv rs) Q g.
Proof.
  intros Hr Hv Harr HQ.
  destruct (array_view_Some r g _ Hv)
    as (m & d & k & [da0 sa] & Hm & Hd & Hk & Hdd & Heq).
  injection Heq as -> -> ->.
  unfold array_at in Harr. rewrite Hm, Hk, Hdd in Harr. simpl in Harr.
  unfold new_sweep. wp_arrays. rewrite Hr. wp_arrays. rewrite Harr. wp_arrays.
  by eexists _, _.
Qed.

Lemma array_shape_sequence sh n :
  array_shape sh true (ResSequence n) = sh ++ [n].
Proof. unfold array_shape. simpl. by destruct sh. Qed.

Lemma beside_arrays_refl g : beside_arrays g g.
Proof. unfold beside_arrays. by destruct g. Qed.

Lemma beside_arrays_sweeps g0 g : beside_arrays g0 g -> sweeps g = sweeps g0.
Proof. unfold beside_arrays. intros <-. reflexivity. Qed.

Lemma wp_preserves {A} (c : M A) (P : Runtime -> Prop)
    (Q : A -> Runtime -> Prop) g :
  preserves P c -> P g -> wp c (fun a g' => P g' -> Q a g') g -> wp c Q g.
Proof.
  intros Hp Hg (g' & a & Hc & HQ). exists g', a. split; [done|].
  apply HQ. specialize (Hp g Hg). by rewrite Hc in Hp.
Qed.

Lemma wp_new_sweep_create sq nm unit' (rv rs : bool) r c cap da
    (Q : swid -> Runtime -> Prop) g :
  running_measurement g = Some r ->
  array_view r g = Some (c, cap, da) ->
  array_at r true (action_indices c) g = None ->
  size da < cap ->
  seq_parameter sq = None ->
  (∀ g0 arr,
     beside_arrays g g0 ->
     running_measurement g0 = Some r ->
     array_view r g0 = Some (c, cap, da) ->
     array_at r true (action_indices c) g0 = Some arr ->
     dataset_array r (da_array_id arr) g0 = Some arr ->
     da_name arr = name_or nm "iterator" ->
     is_setpoint arr = true ->
     da_action_indices arr = action_indices c ->
     da_shape arr = loop_shape c ++ [length (seq_values sq)] ->
     Q (fresh (dom (sweeps g0)))
       (set_sweeps
          (<[fresh (dom (sweeps g0)) :=
               mkSweep nm unit' sq (length (loop_shape c)) None None rv rs
                 (da_array_id arr)]> (sweeps g0)) g0)) ->
  wp (new_sweep sq nm unit' rv rs) Q g.
Proof.
  intros Hr Hv Hnone Hcap Hseq HQ.
  destruct (array_view_Some r g _ Hv)
    as (m & d & k & [da0 sa] & Hm & Hd & Hk & Hdd & Heq).
  injection Heq as -> -> ->.
  unfold array_at in Hnone. rewrite Hm, Hk, Hdd in Hnone. simpl in Hnone.
  unfold new_sweep. wp_arrays. rewrite Hr. wp_arrays. rewrite Hnone.
  unfold create_set_array. wp_arrays. rewrite Hseq.
  apply (wp_preserves _ (beside_arrays g));
    [apply beside__create_data_array|apply beside_arrays_refl|].
  eapply (wp__create_data_array r _ _ true _ None unit'
            (set_dataset None m, the_max_arrays g m, da0));
    [done|done|done|by apply name_or_nonempty|].
  intros arr g0 Hr0 Hv0 Hat0 Hds0 Hname Hsp Hai Hshape Hbeside.
  simpl in Hshape. rewrite array_shape_sequence in Hshape.
  eexists _, _. split; [reflexivity|]. by apply HQ.
Qed.

(** [Sweep(sequence, name, unit)]: outside a measurement the constructor
    raises the [RuntimeError] and nothing changes. Inside one, the sweep
    takes the set array that the running measurement holds at its current
    action indices, and then the state gains the sweep and nothing else; only
    when there is none it creates one, named after the sweep (["iterator"]
    without a name), with the loop shape followed by the length of the
    sequence as its shape. Either way the dimension of the sweep is the
    number of loops around it, and the sweep is not started yet. *)
Theorem sweep_takes_the_set_array_of_its_place
    (g : Runtime) (sq : Sequence) (nm unit' : option string) (rv rs : bool) :
  let w := fresh (dom (sweeps g)) in
  (running_measurement g = None ->
   new_sweep sq nm unit' rv rs g
     = (g, Raise (RuntimeError SweepOutsideMeasurement))) ∧
  (∀ r c cap da arr,
     running_measurement g = Some r ->
     array_view r g = Some (c, cap, da) ->
     array_at r true (action_indices c) g = Some arr ->
     new_sweep sq nm unit' rv rs g =
       (set_sweeps
          (<[w := mkSweep nm unit' sq (length (loop_shape c)) None None rv rs
                    (da_array_id arr)]> (sweeps g)) g,
        Return w)) ∧
  (∀ r c cap da,
     running_measurement g = Some r ->
     array_view r g = Some (c, cap, da) ->
     array_at r true (action_indices c) g = None ->
     size da < cap ->
     seq_parameter sq = None ->
     ∃ g' arr,
       new_sweep sq nm unit' rv rs g = (g', Return w) ∧
       da_name arr = name_or nm "iterator" ∧
       is_setpoint arr = true ∧
       da_shape arr = loop_shape c ++ [length (seq_values sq)] ∧
       array_at r true (action_indices c) g' = Some arr ∧
       dataset_array r (da_array_id arr) g' = Some arr ∧
       array_view r g' = Some (c, cap, da) ∧
       sweeps g' !! w =
         Some (mkSweep nm unit' sq (length (loop_shape c)) None None rv rs
                 (da_array_id arr))).
Proof.
  intros w. split_and!.
  - intros Hr. unfold new_sweep. unfold bind, get_runtime. by rewrite Hr.
  - intros r c cap da arr Hr Hv Harr.
    destruct (wp_new_sweep_reuse sq nm unit' rv rs r c cap da arr
                (fun a g' =>
                   a = w ∧
                   g' = set_sweeps
                          (<[w := mkSweep nm unit' sq (length (loop_shape c))
                                    None None rv rs (da_array_id arr)]>
                             (sweeps g)) g)
                g Hr Hv Harr) as (g' & a & Hrun & -> & ->); done.
  - intros r c cap da Hr Hv Hnone Hcap Hseq.
    destruct (wp_new_sweep_create sq nm unit' rv rs r c cap da
                (fun a g' =>
                   a = w ∧
                   ∃ arr,
                     da_name arr = name_or nm "iterator" ∧
                     is_setpoint arr = true ∧
                     da_shape arr = loop_shape c ++ [length (seq_values sq)] ∧
                     array_at r true (action_indices c) g' = Some arr ∧
                     dataset_array r (da_array_id arr) g' = Some arr ∧
                     array_view r g' = Some (c, cap, da) ∧
                     sweeps g' !! w =
                       Some (mkSweep nm unit' sq (length (loop_shape c)) None
                               None rv rs (da_array_id arr)))
                g Hr Hv Hnone Hcap Hseq) as (g' & a & Hrun & -> & arr & Hpost).
    { intros g0 arr Hb Hr0 Hv0 Hat0 Hds0 Hname Hsp Hai Hshape.
      subst w. rewrite (beside_arrays_sweeps g g0 Hb). split; [done|].
      exists arr. split_and!; try done.
      simpl. by rewrite lookup_insert_eq. }
    by exists g', arr.
Qed.

Lemma sweep_takes_the_set_array_witness :
  new_sweep three_values (Some "k") None false false idle
    = (idle, Raise (RuntimeError SweepOutsideMeasurement)) ∧
  (∃ g' arr,
     new_sweep three_values (Some "k") None false false started
       = (g', Return 0) ∧
     da_name arr = "k" ∧ da_shape arr = [3] ∧
     array_at 0 true [0%Z] g' = Some arr).
Proof.
  split.
  - by apply (sweep_takes_the_set_array_of_its_place idle).
  - destruct (sweep_takes_the_set_array_of_its_place started three_values
                (Some "k") None false false) as (_ & _ & Hcreate).
    destruct (Hcreate 0
                (mkMeasurement "msmt" None [] [] [0%Z] ∅ ∅ ∅ true false false
                   false false [] [] [] (Some 0) None None)
                100 ∅)
      as (g' & arr & Hrun & Hname & _ & Hshape & Hat & _);
      [vm_compute; reflexivity|vm_compute; reflexivity|vm_compute; reflexivity
      |vm_compute; lia|reflexivity|].
    exists g', arr. by split_and!.
Defined.

(** ** Outcomes in general *)

Lemma wpo_bind {A B} (c : M A) (k : A -> M B) Q g :
  wpo c (fun o g' =>
           match o with
           | Return a => wpo (k a) Q g'
           | Raise e => Q (Raise e) g'
           | Waiting => Q Waiting g'
           end) g ->
  wpo (bind c k) Q g.
Proof. unfold wpo, bind. by destruct (c g) as [g' [a|e|]]. Qed.

Lemma wpo_of_wp {A} (c : M A) (Q : outcome A -> Runtime -> Prop) g :
  wp c (fun a g' => Q (Return a) g') g -> wpo c Q g.
Proof. intros (g' & a & Hc & HQ). unfold wpo. by rewrite Hc. Qed.

Lemma wpo_raise {A} e (Q : outcome A -> Runtime -> Prop) g :
  Q (Raise e) g -> wpo (raise e) Q g.
Proof. done. Qed.

Lemma wpo_ret {A} (a : A) (Q : outcome A -> Runtime -> Prop) g :
  Q (Return a) g -> wpo (ret a) Q g.
Proof. done. Qed.

Lemma wpo_same {A} (c c' : M A) Q g : c g = c' g -> wpo c' Q g -> wpo c Q g.
Proof. unfold wpo. by intros ->. Qed.

Lemma wp_wait_while_paused s m (Q : unit -> Runtime -> Prop) g :
  sessions g !! s = Some m -> is_paused m = false -> Q tt g ->
  wp (wait_while_paused s) Q g.
Proof.
  intros Hm Hp HQ. exists g, tt. by rewrite (wait_while_paused_not_paused s m).
Qed.

Lemma wp_the_sweep w sw (Q : Sweep -> Runtime -> Prop) g :
  sweeps g !! w = Some sw -> Q sw g -> wp (the_sweep w) Q g.
Proof. intros Hw HQ. exists g, sw. unfold the_sweep. by rewrite Hw. Qed.

Lemma wp_update_sweep w f (Q : unit -> Runtime -> Prop) g :
  Q tt (set_sweeps (alter f w (sweeps g)) g) -> wp (update_sweep w f) Q g.
Proof. apply wp_modify. Qed.

(** ** A sweep from its first step to its last *)

Ltac red_sweep :=
  cbn [sw_name sw_unit sequence dimension loop_index iterator reverse restore
       set_array set_iterator set_loop_index] in *.

Ltac sfact :=
  red_state; lookups;
  repeat match goal with
         | H : sweeps _ !! _ = Some _ |- _ => rewrite H
         end;
  red_sweep; reflexivity.

Ltac wp_sweep_step :=
  lazymatch goal with
  | |- wp (update_sweep _ _) _ _ => apply wp_update_sweep; red_state; red_sweep
  | |- wp (the_sweep _) _ _ => eapply wp_the_sweep; [sfact|]; red_state; red_sweep
  | |- _ => wp_array_step
  end.
Ltac wp_sweep := repeat wp_sweep_step.

Lemma insert_last_app {A} (l : list A) (j v : A) :
  <[length l := v]> (l ++ [j]) = l ++ [v].
Proof. induction l as [|y l IH]; simpl; [done|]. by rewrite IH. Qed.

Lemma last_set_app v l y : last_set v (l ++ [y]) = Some (l ++ [v]).
Proof. unfold last_set. rewrite rev_unit. by rewrite rev_involutive. Qed.

Section sweep.
Context (r : sid) (w : swid) (t : tid) (g0 : Runtime).
Context (mr : Measurement) (sw : Sweep) (a : list Z) (x : Z).
Hypothesis Hcm : is_context_manager mr = true.
Hypothesis Hstopped : is_stopped mr = false.
Hypothesis Hpaused : is_paused mr = false.
Hypothesis Hai : action_indices mr = a ++ [x].
Hypothesis Hdim : dimension sw = length (loop_indices mr).
Hypothesis Hplain : seq_parameter (sequence sw) = None.
Hypothesis Hrestore : restore sw = false.

Local Abbreviation vals := (seq_values (sequence sw)).
Local Abbreviation step := (if reverse sw then (-1)%Z else 1%Z).

Local Abbreviation going := (sweep_going r w g0 mr sw a x).
Local Abbreviation over := (sweep_over r w g0 mr sw a x).

Local Ltac solve_beside Hb :=
  let H1 := fresh in let H2 := fresh in let H3 := fresh in
  destruct Hb as (H1 & H2 & H3);
  split_and!;
  [ match goal with g : Runtime |- _ =>
      match type of H1 with context [set_sessions _ g] =>
        destruct g; exact H1 end end
  | intros ? ?; red_state; lookups; by apply H2
  | intros ? ?; red_state; lookups; by apply H3 ].

Lemma going_next v rest idx j g :
  going (v :: rest) idx j g ->
  wp (__next__ w) (fun b g' => b = v ∧ going rest (idx + step) idx g') g.
Proof using All.
  intros (Hr & Hm & Hw & Hb). unfold __next__.
  wp_arrays. rewrite Hcm, Hstopped. cbn [negb].
  apply wp_bind. eapply wp_wait_while_paused; [exact Hm|exact Hpaused|].
  wp_sweep. rewrite Hdim.
  rewrite decide_True by (rewrite length_app; simpl; lia).
  wp_sweep.
  replace (a ++ [x; 0%Z]) with ((a ++ [x]) ++ [0%Z]) by by rewrite <- app_assoc.
  rewrite last_set_app. wp_sweep. rewrite Hplain. wp_sweep.
  split; [done|]. split_and!.
  - done.
  - red_state. lookups. rewrite Hm. red_state.
    by rewrite insert_last_app, <- app_assoc.
  - red_state. lookups. rewrite Hw. simpl. f_equal.
    unfold set_loop_index, set_iterator. simpl. do 2 f_equal.
    destruct (reverse sw); lia.
  - solve_beside Hb.
Qed.

Local Ltac wpo_step :=
  lazymatch goal with
  | |- wpo (bind _ _) _ _ => apply wpo_bind
  | |- wpo (raise _) _ _ => apply wpo_raise
  | |- wpo (ret _) _ _ => apply wpo_ret
  | |- wpo _ _ _ => apply wpo_of_wp; wp_sweep_step
  end; red_state; red_sweep.

Lemma wp_step_out_reduce m a' x' y' (Q : unit -> Runtime -> Prop) g :
  running_measurement g = Some r ->
  sessions g !! r = Some m ->
  action_indices m = a' ++ [x'; y'] ->
  Q tt (set_sessions
          (alter (set_action_indices (a' ++ [(x' + 1)%Z])) r
             (alter (fun m => set_loop_indices (removelast (loop_indices m))
                                (set_loop_shape (removelast (loop_shape m)) m))
                r (sessions g))) g) ->
  wp (step_out r true) Q g.
Proof.
  intros Hr Hm Ha HQ. eexists _, tt. split; [|exact HQ].
  unfold step_out. rewrite decide_True by done. unfold step_out_here.
  unfold bind at 1. simpl. unfold bind at 1. unfold the_session. simpl.
  rewrite lookup_alter_eq, Hm. simpl. rewrite Ha.
  replace (a' ++ [x'; y']) with ((a' ++ [x']) ++ [y']) by by rewrite <- app_assoc.
  by rewrite removelast_last, last_add_app.
Qed.

Lemma set_place_id m :
  set_loop_indices (loop_indices m) (set_loop_shape (loop_shape m) m) = m.
Proof. by destruct m. Qed.

Lemma going_end idx j g :
  going [] idx j g ->
  wpo (__next__ w) (fun o g' => o = Raise StopIteration ∧ over idx g') g.
Proof using All.
  intros (Hr & Hm & Hw & Hb). unfold __next__.
  repeat wpo_step. rewrite Hcm, Hstopped. cbn [negb].
  apply wpo_bind, wpo_of_wp.
  eapply wp_wait_while_paused; [exact Hm|exact Hpaused|].
  repeat wpo_step. rewrite Hdim.
  rewrite decide_True by (rewrite length_app; simpl; lia).
  repeat wpo_step. rewrite Hrestore. unfold exit_sweep.
  repeat wpo_step.
  apply wpo_of_wp.
  eapply (wp_step_out_reduce _ a x 0%Z);
    [red_state; exact Hr|fact|red_state; reflexivity|].
  red_state. wpo_step.
  split; [done|]. split_and!.
  - done.
  - red_state. lookups. rewrite Hm. red_state.
    rewrite insert_last_app, !removelast_last. by destruct mr.
  - by red_state.
  - solve_beside Hb.
Qed.

Lemma iter_going :
  running_measurement g0 = Some r ->
  measurement_thread g0 = Some t ->
  sessions g0 !! r = Some mr ->
  sweeps g0 !! w = Some sw ->
  let first := if reverse sw then (Z.of_nat (length vals) - 1)%Z else 0%Z in
  wp (__iter__ w t)
     (fun b g' =>
        b = w ∧ going (if reverse sw then rev vals else vals) first first g')
     g0.
Proof using All.
  intros Hr Ht Hm Hw first. unfold __iter__.
  wp_sweep. rewrite decide_True by done. wp_sweep. rewrite Hrestore.
  apply wp_ret. wp_sweep.
  split; [done|]. unfold sweep_going. split_and!.
  - done.
  - red_state. lookups. rewrite Hm. red_state. by rewrite Hai, <- app_assoc.
  - red_state. lookups. by rewrite Hw.
  - split_and!.
    + by destruct g0.
    + intros z Hz. red_state. by lookups.
    + intros z Hz. red_state. by lookups.
Qed.

Lemma next_values_going rest : ∀ idx j g fuel,
  length rest < fuel ->
  going rest idx j g ->
  wp (next_values fuel w)
     (fun vs g' =>
        vs = rest ∧ over (idx + step * Z.of_nat (length rest)) g') g.
Proof using All.
  induction rest as [|v rest IH]; intros idx j g fuel Hfuel Hgo;
    (destruct fuel as [|f]; [simpl in Hfuel; lia|]).
  - pose proof (going_end idx j g Hgo) as [Hout Hover]. unfold wpo in *.
    simpl next_values. exists (__next__ w g).1, [].
    destruct (__next__ w g) as [g1 o]. simpl in Hout, Hover. subst o.
    split; [done|]. split; [done|].
    by replace (idx + step * Z.of_nat (length (@nil pyval)))%Z with idx
      by (simpl; lia).
  - destruct (going_next v rest idx j g Hgo) as (g1 & b & Hnext & -> & Hgo1).
    destruct (IH (idx + step)%Z idx g1 f) as (g2 & vs & Hrun & -> & Hover);
      [simpl in Hfuel; lia|done|].
    exists g2, (v :: rest). simpl next_values. rewrite Hnext.
    rewrite (bind_Return _ _ _ _ _ Hrun). split; [done|]. split; [done|].
    replace (idx + step * Z.of_nat (length (v :: rest)))%Z
      with (idx + step + step * Z.of_nat (length rest))%Z; [done|].
    simpl length. lia.
Qed.

End sweep.


